(** * IronGantry: manifest validation and command construction

    A shallow embedding of [irongantry/validate.py],
    [irongantry/engine.py] and [irongantry/cli.py], with the parts of the
    Python runtime they rely on ([str.strip], [str.split], [re.match],
    [shlex.split]).

    Python strings are sequences of Unicode code points: a character is a
    number of type [N], a [str] is a [list N].  Dictionaries with string
    keys are [gmap (list N) _]. *)

From Stdlib Require Import NArith ZArith Ascii String Lia.
From stdpp Require Import base option list gmap pretty.

Local Open Scope N_scope.
Set Warnings "-register-all".

(* ===================================================================== *)
(** * Python values, strings and exceptions *)
(* ===================================================================== *)

(** A code point, and a [str]. *)
Abbreviation char := N (only parsing).
Abbreviation pystr := (list N) (only parsing).

(** The code points of an ASCII literal. *)
Fixpoint str (s : string) : pystr :=
  match s with
  | EmptyString => []
  | String a s' => N_of_ascii a :: str s'
  end.

(** The code point of a one-character literal. *)
Definition chr (s : string) : char :=
  match s with
  | String a _ => N_of_ascii a
  | EmptyString => 0
  end.

Definition LF : char := 10.
Definition TAB : char := 9.
Definition CR : char := 13.
Definition SPACE : char := 32.
Definition DQUOTE : char := 34.
Definition SQUOTE : char := 39.
Definition BACKSLASH : char := 92.

(** The exceptions the two modules raise or let through. *)
Inductive exn :=
| ValueError
| IndexError
| TypeError
| KeyError
| FileNotFoundError
| FileExistsError
| IsADirectoryError
| PermissionError
| OSError
| CalledProcessError.

(** The outcome of a call: a value, or a raised exception. *)
Inductive result (A : Type) :=
| Ok (a : A)
| Raise (e : exn).
Arguments Ok {A} a.
Arguments Raise {A} e.

(** A key of a mapping that is not a string. *)
Inductive key :=
| KInt (z : Z)
| KBool (b : bool)
| KFloat (bits : N)
| KDate (iso : pystr).

(** The values a parsed manifest can hold (the types [tomllib] produces),
    and the mappings with a key that is not a string, which [tomllib]
    does not produce but a caller of the validator can pass: [PMixed d k v
    more] has the items of [d], the item [k: v] and the items [more]. *)
Inductive pyobj :=
| PStr (s : pystr)
| PInt (z : Z)
| PBool (b : bool)
| PFloat (bits : N)
| PDate (iso : pystr)
| PList (l : list pyobj)
| PDict (d : gmap pystr pyobj)
| PMixed (d : gmap pystr pyobj) (k : key) (v : pyobj)
         (more : list (key * pyobj)).

(** [x in s] for a character and a string. *)
Definition char_in (c : char) (s : pystr) : bool := existsb (N.eqb c) s.

(** [s1 == s2] on strings. *)
Definition str_eqb (s1 s2 : pystr) : bool := bool_decide (s1 = s2).

(** [str.startswith], [str.endswith]. *)
Fixpoint startswith (s p : pystr) : bool :=
  match p, s with
  | [], _ => true
  | a :: p', b :: s' => (a =? b) && startswith s' p'
  | _ :: _, [] => false
  end.

Definition endswith (s p : pystr) : bool := startswith (rev s) (rev p).

(** [str.isspace] on one character: [Py_UNICODE_ISSPACE]. *)
Definition isspace (c : char) : bool :=
  ((9 <=? c) && (c <=? 13)) || ((28 <=? c) && (c <=? 32))
  || (c =? 133) || (c =? 160) || (c =? 5760)
  || ((8192 <=? c) && (c <=? 8202))
  || (c =? 8232) || (c =? 8233) || (c =? 8239) || (c =? 8287)
  || (c =? 12288).

(** [str.lstrip()], [str.rstrip()], [str.strip()]. *)
Fixpoint lstrip (s : pystr) : pystr :=
  match s with
  | [] => []
  | c :: s' => if isspace c then lstrip s' else s
  end.

Definition rstrip (s : pystr) : pystr := rev (lstrip (rev s)).

Definition strip (s : pystr) : pystr := rstrip (lstrip s).

(** [str.split()] with no separator: the maximal runs of non-whitespace
    characters.  [cur] is the run being read. *)
Fixpoint split_from (s : pystr) (cur : pystr) : list pystr :=
  match s with
  | [] => match cur with [] => [] | _ => [cur] end
  | c :: s' =>
      if isspace c
      then match cur with
           | [] => split_from s' []
           | _ => cur :: split_from s' []
           end
      else split_from s' (cur ++ [c])
  end.

Definition split (s : pystr) : list pystr := split_from s [].

(* ===================================================================== *)
(** * Regular expressions ([re]) *)
(* ===================================================================== *)

(** The fragment of [re] syntax the three patterns use.  Groups only
    capture, so they are not represented. *)
Inductive regex :=
| Eps
| Bol                      (* ^ *)
| Eol                      (* $ *)
| Cls (p : char -> bool)   (* a character class, a literal, [.] or \d *)
| Cat (r1 r2 : regex)
| Alt (r1 r2 : regex)
| Star (r : regex).

Definition Opt (r : regex) : regex := Alt r Eps.       (* r? *)
Definition Plus (r : regex) : regex := Cat r (Star r). (* r+ *)
Definition Lit (c : char) : regex := Cls (N.eqb c).

(** [$] without [re.MULTILINE]: at the end of the string, or just before
    a newline that ends the string. *)
Definition at_eol (s : pystr) : bool :=
  match s with
  | [] => true
  | [c] => c =? LF
  | _ => false
  end.

(** The loop of [Star]: stop, or match the body once (consuming at least
    one character) and loop.  [n] bounds the iterations by the length of
    the input. *)
Fixpoint star_loop (m : bool -> pystr -> (bool -> pystr -> bool) -> bool)
    (k : bool -> pystr -> bool) (n : nat) (b : bool) (s : pystr) : bool :=
  match n with
  | O => k b s
  | S n' =>
      m b s (fun b' s' =>
               (length s' <? length s)%nat && star_loop m k n' b' s')
      || k b s
  end.

(** Backtracking matcher with a continuation.  [b] tells whether the
    position is the start of the string, [s] is the rest of the input. *)
Fixpoint matchk (r : regex) (b : bool) (s : pystr)
    (k : bool -> pystr -> bool) : bool :=
  match r with
  | Eps => k b s
  | Bol => b && k b s
  | Eol => at_eol s && k b s
  | Cls p =>
      match s with
      | c :: s' => p c && k false s'
      | [] => false
      end
  | Cat r1 r2 => matchk r1 b s (fun b' s' => matchk r2 b' s' k)
  | Alt r1 r2 => matchk r1 b s k || matchk r2 b s k
  | Star r1 => star_loop (matchk r1) k (length s) b s
  end.

(** [bool(pattern.match(s))]: the pattern matches at the start of [s]. *)
Definition re_match (r : regex) (s : pystr) : bool :=
  matchk r true s (fun _ _ => true).

(** [result] is a monad: [x ← m; k] runs [k] unless [m] raised. *)
#[export] Instance result_ret : MRet result := fun _ a => Ok a.
#[export] Instance result_bind : MBind result := fun _ _ f m =>
  match m with
  | Ok a => f a
  | Raise e => Raise e
  end.

(** A list comprehension [[f(x) for x in l]] whose body may raise. *)
Fixpoint comprehension {A B} (f : A -> result B) (l : list A)
    : result (list B) :=
  match l with
  | [] => Ok []
  | x :: l' => y ← f x; ys ← comprehension f l'; Ok (y :: ys)
  end.

(* ===================================================================== *)
(** * validate.py *)
(* ===================================================================== *)

Definition in_range (lo hi : string) (c : char) : bool :=
  (chr lo <=? c) && (c <=? chr hi).

(** [A-Za-z0-9] *)
Definition cls_alnum (c : char) : bool :=
  in_range "A" "Z" c || in_range "a" "z" c || in_range "0" "9" c.

(** [A-Za-z0-9._-] *)
Definition cls_pkg (c : char) : bool :=
  cls_alnum c || (c =? chr ".") || (c =? chr "_") || (c =? chr "-").

(** [A-Za-z0-9_-] *)
Definition cls_project (c : char) : bool :=
  cls_alnum c || (c =? chr "_") || (c =? chr "-").

(** [!<>=~] *)
Definition cls_cmp (c : char) : bool :=
  (c =? chr "!") || (c =? chr "<") || (c =? chr ">") || (c =? chr "=")
  || (c =? chr "~").

(** [.] without [re.DOTALL]: any character but a newline. *)
Definition cls_dot (c : char) : bool := negb (c =? LF).

(** The name part: [[A-Za-z0-9]([A-Za-z0-9._-]*[A-Za-z0-9])?] *)
Definition PKG_NAME : regex :=
  Cat (Cls cls_alnum) (Opt (Cat (Star (Cls cls_pkg)) (Cls cls_alnum))).

(** The extras: an opening bracket, [[A-Za-z0-9._-]+], any number of
    [,[A-Za-z0-9._-]+], a closing bracket. *)
Definition PKG_EXTRAS : regex :=
  Cat (Lit (chr "["))
      (Cat (Cat (Plus (Cls cls_pkg))
                (Star (Cat (Lit (chr ",")) (Plus (Cls cls_pkg)))))
           (Lit (chr "]"))).

(** The version spec: [[!<>=~].+] *)
Definition PKG_VERSION : regex := Cat (Cls cls_cmp) (Plus (Cls cls_dot)).

(** The pattern between [^] and [$]. *)
Definition PKG_BODY : regex :=
  Cat PKG_NAME (Cat (Opt PKG_EXTRAS) (Opt PKG_VERSION)).

Definition _PKG_NAME_RE : regex := Cat Bol (Cat PKG_BODY Eol).

(** [^[A-Za-z0-9_-]+$] *)
Definition _PROJECT_NAME_RE : regex :=
  Cat Bol (Cat (Plus (Cls cls_project)) Eol).

Section Validate.

(** [\d] on a [str] pattern matches the decimal digits of the
    interpreter's Unicode database, which is not part of the repository. *)
Variable unicode_decimal : char -> bool.

(** [^\d+\.\d+$] *)
Definition _PYTHON_VERSION_RE : regex :=
  Cat Bol
      (Cat (Cat (Plus (Cls unicode_decimal))
                (Cat (Lit (chr ".")) (Plus (Cls unicode_decimal))))
           Eol).

Definition _ALLOWED_MANIFEST_KEYS : gset pystr :=
  {[ str "project"; str "python"; str "packages"; str "entrypoint" ]}.

Definition validate_project_name (name : pyobj) : result pystr :=
  match name with
  | PStr [] => Raise ValueError
  | PStr s => if re_match _PROJECT_NAME_RE s then Ok s else Raise ValueError
  | _ => Raise ValueError
  end.

Definition validate_package (pkg : pyobj) : result pystr :=
  match pkg with
  | PStr s =>
      match strip s with
      | [] => Raise ValueError
      | s' => if re_match _PKG_NAME_RE s' then Ok s' else Raise ValueError
      end
  | _ => Raise ValueError
  end.

Definition validate_entrypoint (entry : pyobj) : result pystr :=
  match entry with
  | PStr s =>
      match strip s with
      | [] => Raise ValueError
      | s' =>
          match split s' with
          | [] => Raise IndexError
          | first_token :: _ =>
              if str_eqb first_token (str "python")
                 || str_eqb first_token (str "python3")
              then Ok s'
              else Raise ValueError
          end
      end
  | _ => Raise ValueError
  end.

Definition validate_python_version (ver : pyobj) : result pystr :=
  match ver with
  | PStr s =>
      match strip s with
      | [] => Raise ValueError
      | s' =>
          if re_match _PYTHON_VERSION_RE s' then Ok s' else Raise ValueError
      end
  | _ => Raise ValueError
  end.

(** The optional [python] field: validated and stored back when present. *)
Definition validate_python_field (d : gmap pystr pyobj)
    : result (gmap pystr pyobj) :=
  match d !! str "python" with
  | Some v => ver ← validate_python_version v; Ok (<[str "python" := PStr ver]> d)
  | None => Ok d
  end.

(** The optional [packages] field. *)
Definition validate_packages_field (d : gmap pystr pyobj)
    : result (gmap pystr pyobj) :=
  match d !! str "packages" with
  | Some (PList pkgs) =>
      l ← comprehension validate_package pkgs;
      Ok (<[str "packages" := PList (PStr <$> l)]> d)
  | Some _ => Raise ValueError
  | None => Ok d
  end.

(** The mapping is updated in place and returned; here the updated
    mapping is the result.  A key that is not a string is an unknown key,
    and the message for unknown keys joins the sorted keys as strings:
    sorting or joining them raises [TypeError]. *)
Definition validate_manifest (config : pyobj) : result pyobj :=
  match config with
  | PDict d =>
      let unknown := dom d ∖ _ALLOWED_MANIFEST_KEYS in
      if negb (bool_decide (unknown = ∅)) then Raise ValueError else
      match d !! str "project" with
      | None => Raise ValueError
      | Some project =>
          _ ← validate_project_name project;
          match d !! str "entrypoint" with
          | None => Raise ValueError
          | Some entrypoint =>
              entry ← validate_entrypoint entrypoint;
              d ← validate_python_field (<[str "entrypoint" := PStr entry]> d);
              d ← validate_packages_field d;
              Ok (PDict d)
          end
      end
  | PMixed _ _ _ _ => Raise TypeError
  | _ => Raise ValueError
  end.

End Validate.

(* ===================================================================== *)
(** * shlex.split *)
(* ===================================================================== *)

(** [shlex.split(s)] is [list(lex)] for a POSIX-mode lexer with
    [whitespace_split = True], [commenters = ''] and no punctuation
    characters; the branches guarded by [commenters] and
    [punctuation_chars] are therefore dead and left out. *)

Definition WHITESPACE : pystr := [SPACE; TAB; CR; LF].
Definition QUOTES : pystr := [SQUOTE; DQUOTE].
Definition ESCAPE : pystr := [BACKSLASH].
Definition ESCAPEDQUOTES : pystr := [DQUOTE].

(** [self.wordchars] in POSIX mode: ASCII letters, digits, underscore and
    the Latin-1 letters. *)
Definition is_wordchar (c : char) : bool :=
  cls_alnum c || (c =? chr "_")
  || ((192 <=? c) && (c <=? 255) && negb (c =? 215) && negb (c =? 247)).

(** [self.state] (and [escapedstate]): [None], [' '], ['a'], a quote
    character or an escape character. *)
Inductive lex_state :=
| StEof                 (* None *)
| StSpace               (* ' ' *)
| StWord                (* 'a' *)
| StQuote (q : char)    (* in self.quotes *)
| StEscape (e : char).  (* in self.escape *)

(** The code after the loop of [read_token], then the next call:
    a token that is empty and not quoted is [None], which ends the
    iteration; otherwise the token is followed by the tokens [next] of
    the calls that come after. *)
Definition emit (token : pystr) (quoted : bool)
    (next : result (list pystr)) : result (list pystr) :=
  if negb quoted && str_eqb token []
  then Ok []
  else l ← next; Ok (token :: l).

(** The loop of [read_token] on the rest [inp] of the stream, continued
    by the following calls of [read_token] (each starts with an empty
    token, [quoted = False] and [escapedstate = ' '], and keeps
    [self.state]). *)
Fixpoint read_tokens (inp : pystr) (state : lex_state) (token : pystr)
    (quoted : bool) (escapedstate : lex_state) : result (list pystr) :=
  match inp with
  | [] =>
      (* nextchar == '' ; the call after a break at the end of the
         stream finds state None and returns None *)
      match state with
      | StEof => emit [] quoted (Ok [])
      | StSpace => emit token quoted (Ok [])
      | StQuote _ => Raise ValueError      (* No closing quotation *)
      | StEscape _ => Raise ValueError     (* No escaped character *)
      | StWord => emit token quoted (Ok [])
      end
  | c :: rest =>
      match state with
      | StEof =>
          emit [] quoted (read_tokens rest StEof [] false StSpace)
      | StSpace =>
          if char_in c WHITESPACE then
            if negb (str_eqb token []) || quoted
            then emit token quoted (read_tokens rest StSpace [] false StSpace)
            else read_tokens rest StSpace token quoted escapedstate
          else if char_in c ESCAPE then
            read_tokens rest (StEscape c) token quoted StWord
          else if is_wordchar c then
            read_tokens rest StWord [c] quoted escapedstate
          else if char_in c QUOTES then
            read_tokens rest (StQuote c) token quoted escapedstate
          else (* whitespace_split *)
            read_tokens rest StWord [c] quoted escapedstate
      | StQuote q =>
          if c =? q then
            read_tokens rest StWord token true escapedstate
          else if char_in c ESCAPE && char_in q ESCAPEDQUOTES then
            read_tokens rest (StEscape c) token true (StQuote q)
          else
            read_tokens rest (StQuote q) (token ++ [c]) true escapedstate
      | StEscape e =>
          let token :=
            match escapedstate with
            | StQuote q =>
                if negb (c =? e) && negb (c =? q) then token ++ [e] else token
            | _ => token
            end in
          read_tokens rest escapedstate (token ++ [c]) quoted escapedstate
      | StWord =>
          if char_in c WHITESPACE then
            if negb (str_eqb token []) || quoted
            then emit token quoted (read_tokens rest StSpace [] false StSpace)
            else read_tokens rest StSpace token quoted escapedstate
          else if char_in c QUOTES then
            read_tokens rest (StQuote c) token quoted escapedstate
          else if char_in c ESCAPE then
            read_tokens rest (StEscape c) token quoted StWord
          else (* a word character, or whitespace_split *)
            read_tokens rest StWord (token ++ [c]) quoted escapedstate
      end
  end.

Definition shlex_split (s : pystr) : result (list pystr) :=
  read_tokens s StSpace [] false StSpace.

(* ===================================================================== *)
(** * The world of the engine: files, processes, the platform *)
(* ===================================================================== *)

(** A member of a zip archive: its name in the archive, and where its
    bytes come from ([ZipFile.write] reads a file, [ZipFile.writestr]
    takes a string). *)
Inductive zsource :=
| FromFile (path : pystr)
| FromString (data : pystr).

Record zmember := ZMember { arcname : pystr; zsrc : zsource }.

(** The content of a file: bytes, or a zip archive given by its members. *)
Inductive fdata :=
| Bytes (b : list N)
| ZipArchive (members : list zmember).

(** A file tree.  The entries of a directory are in the order
    [os.scandir] lists them. *)
Inductive node :=
| File (d : fdata)
| Dir (entries : list (pystr * node)).

Definition is_dir (n : node) : bool :=
  match n with Dir _ => true | File _ => false end.

Fixpoint entry (name : pystr) (es : list (pystr * node)) : option node :=
  match es with
  | [] => None
  | (n, c) :: es' => if str_eqb name n then Some c else entry name es'
  end.

Fixpoint set_entry (name : pystr) (c : node) (es : list (pystr * node))
    : list (pystr * node) :=
  match es with
  | [] => [(name, c)]
  | (n, c') :: es' =>
      if str_eqb name n then (name, c) :: es'
      else (n, c') :: set_entry name c es'
  end.

Definition del_entry (name : pystr) (es : list (pystr * node))
    : list (pystr * node) :=
  List.filter (fun e => negb (str_eqb name e.1)) es.

(** The node at a path given by its components. *)
Fixpoint fs_lookup (n : node) (path : list pystr) : option node :=
  match path with
  | [] => Some n
  | p :: ps =>
      match n with
      | Dir es => c ← entry p es; fs_lookup c ps
      | File _ => None
      end
  end.

(** Put [new] at [path]; the parent directory must exist. *)
Fixpoint fs_put (n : node) (path : list pystr) (new : node) : option node :=
  match path, n with
  | [], _ => None
  | [p], Dir es => Some (Dir (set_entry p new es))
  | p :: ps, Dir es =>
      c ← entry p es; c' ← fs_put c ps new; Some (Dir (set_entry p c' es))
  | _, File _ => None
  end.

(** Remove what is at [path]. *)
Fixpoint fs_del (n : node) (path : list pystr) : node :=
  match path, n with
  | [p], Dir es => Dir (del_entry p es)
  | p :: ps, Dir es =>
      match entry p es with
      | Some c => Dir (set_entry p (fs_del c ps) es)
      | None => n
      end
  | _, _ => n
  end.

(** What the engine takes from the platform and from its collaborators:
    the [os] and [os.path] functions, the running interpreter, the TOML
    parser, the environment builder and the process launcher. *)
Record Host := {
  unicode_decimal : char -> bool;                (* \d *)
  os_name : pystr;                               (* os.name *)
  os_pathsep : pystr;                            (* os.pathsep *)
  os_linesep : pystr;                            (* os.linesep *)
  os_path_join : pystr -> pystr -> pystr;        (* os.path.join(a, b) *)
  os_path_abspath : pystr -> pystr;
  os_path_normpath : pystr -> pystr;
  os_path_dirname : pystr -> pystr;
  resolve : pystr -> list pystr;
    (* the components, from the root of the file system, of the file a
       path names in the current directory *)
  version_info : N * N;                          (* sys.version_info[:2] *)
  tomllib_load : fdata -> result pyobj;
  venv_create : pystr -> node -> node;
    (* venv.create(dir, with_pip=True, symlinks=False) on the file system *)
  readable : list pystr -> bool;
    (* the process may open the file at these components for reading *)
  writable : list pystr -> bool;
    (* the process may create or truncate the file at these components *)
  launch_error : list pyobj -> gmap pystr pystr -> node -> option exn;
    (* the exception the launcher raises instead of starting the child,
       when the program cannot be executed *)
  run_process : list pyobj -> gmap pystr pystr -> node -> node * Z;
    (* a child process: the file system it leaves and its return code *)
  ig_file : pystr;                               (* irongantry.__file__ *)
}.

(** A call to a collaborator, as the engine makes it. *)
Inductive event :=
| EVenvCreate (dir : pystr) (with_pip symlinks : bool)
| ESubprocess (argv : list pyobj) (env : option (gmap pystr pystr))
              (check shell : bool).

Record world := World {
  fs : node;                       (* the file system, from its root *)
  environ : gmap pystr pystr;      (* os.environ *)
  log : list event;                (* the collaborator calls, oldest first *)
}.

(** A command of the engine: it changes the world and returns or raises.
    What was done before an exception stays done. *)
Definition M (A : Type) : Type := world -> result A * world.

#[export] Instance M_ret : MRet M := fun _ a w => (Ok a, w).
#[export] Instance M_bind : MBind M := fun _ _ f m w =>
  match m w with
  | (Ok a, w') => f a w'
  | (Raise e, w') => (Raise e, w')
  end.

Definition raise {A} (e : exn) : M A := fun w => (Raise e, w).

Definition lift {A} (r : result A) : M A := fun w => (r, w).

Definition get_world : M world := fun w => (Ok w, w).

Definition set_fs (t : node) : M unit :=
  fun w => (Ok (), World t (environ w) (log w)).

Definition emit_event (e : event) : M unit :=
  fun w => (Ok (), World (fs w) (environ w) (log w ++ [e])).

(** UTF-8, for text written with [encoding="utf-8"]. *)
Definition utf8_char (c : char) : list N :=
  if c <? 128 then [c]
  else if c <? 2048 then [192 + c / 64; 128 + c mod 64]
  else if c <? 65536 then
    [224 + c / 4096; 128 + (c / 64) mod 64; 128 + c mod 64]
  else
    [240 + c / 262144; 128 + (c / 4096) mod 64; 128 + (c / 64) mod 64;
     128 + c mod 64].

Definition utf8_encode (s : pystr) : list N := flat_map utf8_char s.

(** An argument of the vector holds a NUL character. *)
Definition has_nul (argv : list pyobj) : bool :=
  existsb (fun a => match a with PStr s => char_in 0 s | _ => false end)
          argv.

(** [bool(x)]. *)
Definition truthy (o : pyobj) : bool :=
  match o with
  | PStr s => negb (str_eqb s [])
  | PInt z => negb (z =? 0)%Z
  | PBool b => b
  | PFloat bits => negb ((bits =? 0) || (bits =? 2 ^ 63))
  | PDate _ => true
  | PList l => match l with [] => false | _ => true end
  | PDict d => negb (bool_decide (d = ∅))
  | PMixed _ _ _ _ => true
  end.

(** [config[key]]. *)
Definition getitem (config : pyobj) (key : pystr) : result pyobj :=
  match config with
  | PDict d | PMixed d _ _ _ =>
      match d !! key with Some v => Ok v | None => Raise KeyError end
  | _ => Raise TypeError
  end.

(** [config.get(key, default)]. *)
Definition dict_get (config : pyobj) (key : pystr) (default : pyobj)
    : result pyobj :=
  match config with
  | PDict d | PMixed d _ _ _ =>
      Ok (match d !! key with Some v => v | None => default end)
  | _ => Raise TypeError
  end.

(* ===================================================================== *)
(** * engine.py *)
(* ===================================================================== *)

Definition MANIFEST : pystr := str "IronGantryfile".
Definition ENV_DIR : pystr := str ".irongantry_env".

Section Engine.

Context (H : Host).

(** ** Files and processes *)

Definition os_path_exists (path : pystr) : M bool :=
  fun w => (Ok (bool_decide (is_Some (fs_lookup (fs w) (resolve H path)))), w).

Definition os_path_isfile (path : pystr) : M bool :=
  fun w =>
    (Ok (match fs_lookup (fs w) (resolve H path) with
         | Some (File _) => true
         | _ => false
         end), w).

Definition os_path_isdir (path : pystr) : M bool :=
  fun w =>
    (Ok (match fs_lookup (fs w) (resolve H path) with
         | Some (Dir _) => true
         | _ => false
         end), w).

(** [open(path, "rb").read()]: a file that may not be read raises
    [PermissionError]. *)
Definition read_file (path : pystr) : M fdata :=
  fun w =>
    match fs_lookup (fs w) (resolve H path) with
    | Some (File d) =>
        if readable H (resolve H path) then (Ok d, w)
        else (Raise PermissionError, w)
    | Some (Dir _) => (Raise IsADirectoryError, w)
    | None => (Raise FileNotFoundError, w)
    end.

(** Opening [path] for writing and writing [d]: the file is created or
    replaced; where the directory is missing this raises
    [FileNotFoundError], and where the process may not write,
    [PermissionError]. *)
Definition write_file (path : pystr) (d : fdata) : M unit :=
  fun w =>
    match fs_lookup (fs w) (resolve H path) with
    | Some (Dir _) => (Raise IsADirectoryError, w)
    | _ =>
        match fs_put (fs w) (resolve H path) (File d) with
        | Some t =>
            if writable H (resolve H path) then set_fs t w
            else (Raise PermissionError, w)
        | None => (Raise FileNotFoundError, w)
        end
    end.

(** What a file opened in text mode writes for [s]: every newline
    becomes [os.linesep]. *)
Definition text_mode (s : pystr) : pystr :=
  flat_map (fun c => if c =? LF then os_linesep H else [c]) s.

(** [shutil.rmtree(path)] *)
Definition shutil_rmtree (path : pystr) : M unit :=
  fun w => set_fs (fs_del (fs w) (resolve H path)) w.

(** [venv.create(dir, with_pip=True, symlinks=False)] *)
Definition venv_create_call (dir : pystr) : M unit :=
  _ ← emit_event (EVenvCreate dir true false);
  w ← get_world;
  set_fs (venv_create H dir (fs w)).

(** [subprocess.run(argv, env=env, check=check, shell=False)]: the call is
    recorded; an argument that holds a NUL raises [ValueError] (embedded
    null byte) and a program that cannot be executed raises the error of
    the launcher, both before any child runs; otherwise the child runs,
    and with [check] a non-zero return code raises. *)
Definition subprocess_run (argv : list pyobj)
    (env : option (gmap pystr pystr)) (check : bool) : M unit :=
  fun w =>
    let called :=
      World (fs w) (environ w) (log w ++ [ESubprocess argv env check false]) in
    let env' := match env with Some e => e | None => environ w end in
    if has_nul argv then (Raise ValueError, called) else
    match launch_error H argv env' (fs w) with
    | Some e => (Raise e, called)
    | None =>
        let '(t, rc) := run_process H argv env' (fs w) in
        (if check && negb (rc =? 0)%Z then Raise CalledProcessError
         else Ok (),
         World t (environ w) (log w ++ [ESubprocess argv env check false]))
    end.

(** ** Manifest helpers *)

Definition _load_manifest : M pyobj :=
  b ← os_path_isfile MANIFEST;
  if negb (b : bool) then raise FileNotFoundError else
  data ← read_file MANIFEST;
  config ← lift (tomllib_load H data);
  lift (validate_manifest (unicode_decimal H) config).

(** ** Path helpers *)

Definition is_nt : bool := str_eqb (os_name H) (str "nt").

Definition _bin_dir : pystr := if is_nt then str "Scripts" else str "bin".

Definition _pip_path : pystr :=
  let pip_name := if is_nt then str "pip.exe" else str "pip" in
  os_path_join H (os_path_join H (os_path_abspath H ENV_DIR) _bin_dir) pip_name.

Definition _python_path : pystr :=
  let py_name := if is_nt then str "python.exe" else str "python" in
  os_path_join H (os_path_join H (os_path_abspath H ENV_DIR) _bin_dir) py_name.

(** ** Public commands *)

(** The text of a fresh manifest. *)
Definition manifest_text (name : pystr) : pystr :=
  str "project = " ++ [DQUOTE] ++ name ++ [DQUOTE; LF]
  ++ str "python = " ++ [DQUOTE] ++ str (pretty (version_info H).1)
  ++ str "." ++ str (pretty (version_info H).2) ++ [DQUOTE; LF]
  ++ str "packages = []" ++ [LF]
  ++ str "entrypoint = " ++ [DQUOTE] ++ str "python main.py" ++ [DQUOTE; LF].

Definition init (name : pyobj) : M unit :=
  name ← lift (validate_project_name name);
  b ← os_path_exists MANIFEST;
  if (b : bool) then raise FileExistsError else
  write_file MANIFEST (Bytes (utf8_encode (text_mode (manifest_text name)))).

Definition build : M unit :=
  config ← _load_manifest;
  b ← os_path_isdir ENV_DIR;
  _ ← (if (b : bool) then shutil_rmtree ENV_DIR else mret ());
  _ ← venv_create_call ENV_DIR;
  packages ← lift (dict_get config (str "packages") (PList []));
  if truthy packages then
    let pip := _pip_path in
    match packages : pyobj with
    | PList l =>
        let cmd := [PStr pip; PStr (str "install"); PStr (str "--")] ++ l in
        subprocess_run cmd None true
    | _ => raise TypeError
    end
  else mret ().

Definition run : M unit :=
  config ← _load_manifest;
  entry ← lift (getitem config (str "entrypoint"));
  let abs_python := _python_path in
  b ← os_path_isfile abs_python;
  if negb (b : bool) then raise FileNotFoundError else
  tokens ← lift (match entry with
                 | PStr s => shlex_split s
                 | _ => Raise TypeError
                 end);
  match tokens : list pystr with
  | [] => raise IndexError
  | _ :: rest =>
      let tokens := abs_python :: rest in
      w ← get_world;
      let env := environ w in
      let env := <[str "VIRTUAL_ENV" := os_path_abspath H ENV_DIR]> env in
      let bin_dir := os_path_join H (os_path_abspath H ENV_DIR) _bin_dir in
      let env :=
        <[str "PATH" :=
            bin_dir ++ os_pathsep H
            ++ match env !! str "PATH" with Some p => p | None => [] end]>
          env in
      subprocess_run (PStr <$> tokens) (Some env) false
  end.

(** [os.walk(top)], top-down, driven by the body of the [for] loop that
    consumes it.  The generator yields [(top, dirs, files)]; the body may
    change the list [dirs] in place and returns what it produced; the
    generator then descends into the names the list holds at that point. *)
Fixpoint os_walk {A}
    (body : pystr -> list pystr -> list pystr -> list pystr * list A)
    (top : pystr) (n : node) : list A :=
  match n with
  | File _ => []
  | Dir es =>
      let dirs := (List.filter (fun e => is_dir e.2) es).*1 in
      let files := (List.filter (fun e => negb (is_dir e.2)) es).*1 in
      let r := body top dirs files in
      r.2 ++
      flat_map
        (fun d =>
           (fix descend (l : list (pystr * node)) : list A :=
              match l with
              | [] => []
              | (d', c) :: l' =>
                  if str_eqb d d'
                  then os_walk body (os_path_join H top d) c
                  else descend l'
              end) es)
        r.1
  end.

Definition exclude_dirs : gset pystr :=
  {[ ENV_DIR; str "__pycache__"; str ".irongantry_env" ]}.

Definition exclude_suffixes : list pystr := [str ".pyc"; str ".pyo"].

(** The body of the loop over [os.walk(".")] in [ship]: the pruning of
    [dirs], and the members written for [files]. *)
Definition ship_body (root : pystr) (dirs files : list pystr)
    : list pystr * list zmember :=
  (List.filter
     (fun d => negb (bool_decide (d ∈ exclude_dirs))
               && negb (startswith d (str "."))) dirs,
   flat_map
     (fun f =>
        if existsb (endswith f) exclude_suffixes then []
        else if endswith f (str "_shipped.zip") then []
        else
          let filepath := os_path_join H root f in
          let arcname := os_path_normpath H filepath in
          [ZMember arcname (FromFile filepath)])
     files).

Definition bundle_files : list (pystr * pystr) :=
  let ig_pkg_dir := os_path_dirname H (os_path_abspath H (ig_file H)) in
  let ig_entry :=
    os_path_join H (os_path_dirname H ig_pkg_dir) (str "irongantry.py") in
  [ (str "irongantry/__init__.py", os_path_join H ig_pkg_dir (str "__init__.py"));
    (str "irongantry/validate.py", os_path_join H ig_pkg_dir (str "validate.py"));
    (str "irongantry/engine.py", os_path_join H ig_pkg_dir (str "engine.py"));
    (str "irongantry/cli.py", os_path_join H ig_pkg_dir (str "cli.py"));
    (str "irongantry.py", ig_entry) ].

Definition bootstrap_src : pystr :=
  [DQUOTE; DQUOTE; DQUOTE]
  ++ str "Bootstrap: build environment and run the app. Requires Python 3.11+."
  ++ [DQUOTE; DQUOTE; DQUOTE; LF]
  ++ str "import subprocess, sys, os" ++ [LF]
  ++ str "os.chdir(os.path.dirname(os.path.abspath(__file__)))" ++ [LF]
  ++ str "subprocess.run([sys.executable, " ++ [DQUOTE] ++ str "irongantry.py"
  ++ [DQUOTE] ++ str ", " ++ [DQUOTE] ++ str "build" ++ [DQUOTE]
  ++ str "], check=True)" ++ [LF]
  ++ str "subprocess.run([sys.executable, " ++ [DQUOTE] ++ str "irongantry.py"
  ++ [DQUOTE] ++ str ", " ++ [DQUOTE] ++ str "run" ++ [DQUOTE]
  ++ str "], check=True)" ++ [LF].

(** The members written for the project files: the walk of the current
    directory. *)
Definition user_members (t : node) : list zmember :=
  match fs_lookup t (resolve H (str ".")) with
  | Some top => os_walk ship_body (str ".") top
  | None => []
  end.

(** The members written for the bundled engine. *)
Definition bundle_members (t : node) : list zmember :=
  flat_map
    (fun '(arcname, src_path) =>
       match fs_lookup t (resolve H src_path) with
       | Some (File _) => [ZMember arcname (FromFile src_path)]
       | _ => []
       end)
    bundle_files.

Definition ship : M pystr :=
  config ← _load_manifest;
  project_name ← lift (getitem config (str "project"));
  match project_name : pyobj with
  | PStr project_name =>
      let filename := project_name ++ str "_shipped.zip" in
      (* ZipFile(filename, "w") creates the file before the walk *)
      _ ← write_file filename (ZipArchive []);
      w ← get_world;
      let members :=
        user_members (fs w) ++ bundle_members (fs w)
        ++ [ZMember (str "bootstrap.py") (FromString bootstrap_src)] in
      _ ← write_file filename (ZipArchive members);
      mret filename
  | _ => raise TypeError
  end.

End Engine.

(* ===================================================================== *)
(** * Specification-side definitions *)
(* ===================================================================== *)

(** ** The language of a pattern *)

Definition is_nil {A} (l : list A) : bool :=
  match l with [] => true | _ => false end.

(** Patterns without [^] and [$]. *)
Fixpoint anchor_free (r : regex) : bool :=
  match r with
  | Bol | Eol => false
  | Eps | Cls _ => true
  | Cat r1 r2 | Alt r1 r2 => anchor_free r1 && anchor_free r2
  | Star r1 => anchor_free r1
  end.

(** Concatenations of words of [P]. *)
Inductive star_of (P : pystr -> Prop) : pystr -> Prop :=
| star_nil : star_of P []
| star_app w1 w2 : P w1 -> star_of P w2 -> star_of P (w1 ++ w2).

(** The words an anchor-free pattern matches. *)
Fixpoint lang (r : regex) (w : pystr) : Prop :=
  match r with
  | Eps => w = []
  | Bol | Eol => False
  | Cls p => exists c, w = [c] /\ p c = true
  | Cat r1 r2 => exists w1 w2, w = w1 ++ w2 /\ lang r1 w1 /\ lang r2 w2
  | Alt r1 r2 => lang r1 w \/ lang r2 w
  | Star r1 => star_of (lang r1) w
  end.

(** ** The grammar of package specifiers, in words *)

(** A name: one alphanumeric character, or two of them around any
    characters of [A-Za-z0-9._-]. *)
Definition is_pkg_name (n : pystr) : Prop :=
  (exists c, n = [c] /\ cls_alnum c = true)
  \/ (exists c mid d,
        n = c :: mid ++ [d] /\ cls_alnum c = true
        /\ forallb cls_pkg mid = true /\ cls_alnum d = true).

(** One extra: a non-empty word over [A-Za-z0-9._-]. *)
Definition is_extra (e : pystr) : Prop := e <> [] /\ forallb cls_pkg e = true.

(** [e1,e2,...] *)
Definition comma_list (e : pystr) (es : list pystr) : pystr :=
  e ++ concat ((fun e' => chr "," :: e') <$> es).

(** Bracketed extras, separated by commas. *)
Definition is_extras (x : pystr) : Prop :=
  exists e es,
    x = chr "[" :: comma_list e es ++ [chr "]"]
    /\ is_extra e /\ Forall is_extra es.

(** A version suffix: a comparator character, then at least one
    character, none of them a newline. *)
Definition is_version (v : pystr) : Prop :=
  exists c t,
    v = c :: t /\ cls_cmp c = true /\ t <> [] /\ forallb cls_dot t = true.

(** A specifier: a name, optional extras, an optional version suffix. *)
Definition pkg_grammar (s : pystr) : Prop :=
  exists n x v,
    s = n ++ x ++ v /\ is_pkg_name n
    /\ (x = [] \/ is_extras x) /\ (v = [] \/ is_version v).

(** The three forms [name], [name[extra1,extra2]] and [name>=1.0]. *)
Definition pkg_form (s : pystr) : Prop :=
  exists n e1 e2,
    is_pkg_name n /\ is_extra e1 /\ is_extra e2
    /\ (s = n
        \/ s = n ++ str "[" ++ e1 ++ str "," ++ e2 ++ str "]"
        \/ s = n ++ str ">=1.0").

(** [sub in s] *)
Fixpoint contains (s sub : pystr) : bool :=
  startswith s sub
  || match s with
     | [] => false
     | _ :: s' => contains s' sub
     end.

(** The string holds [;], [|], a backtick or [$(]. *)
Definition has_shell_meta (s : pystr) : bool :=
  contains s (str ";") || contains s (str "|") || contains s [96]
  || contains s (str "$(").

(** Neither end of the string is whitespace. *)
Definition trimmed (s : pystr) : Prop := lstrip s = s /\ rstrip s = s.

(** ** Files of a tree *)

(** [has_file t ds f]: below the directory [t], the directories [ds]
    lead to a file named [f]. *)
Inductive has_file : node -> list pystr -> pystr -> Prop :=
| has_file_here es f d :
    (f, File d) ∈ es -> has_file (Dir es) [] f
| has_file_below es d c ds f :
    entry d es = Some c -> has_file c ds f -> has_file (Dir es) (d :: ds) f.

(** The path [os.walk] builds for the directories [ds] below [top]. *)
Definition walk_path (H : Host) (top : pystr) (ds : list pystr) : pystr :=
  foldl (os_path_join H) top ds.

(** A directory [ship] does not enter. *)
Definition pruned (d : pystr) : Prop :=
  d ∈ exclude_dirs \/ startswith d (str ".") = true.

(** ** Example inputs *)

(** An entrypoint whose quotation is not closed. *)
Definition unbalanced_entry : pystr := str "python " ++ [DQUOTE] ++ str "a".

(** The entrypoint of the specification's example. *)
Definition helper_entry : pystr := str "python3 app.py --name=python_helper".

(* ===================================================================== *)
(** * A POSIX host and a project, for the examples *)
(* ===================================================================== *)

Module Demo.

(** [posixpath.join(a, b)] *)
Definition join (a b : pystr) : pystr :=
  if startswith b (str "/") then b
  else if str_eqb a [] || endswith a (str "/") then a ++ b
  else a ++ str "/" ++ b.

Definition cwd : pystr := str "/proj".

(** Paths are taken as written, without [..] or symbolic links. *)
Definition abspath (p : pystr) : pystr :=
  if startswith p (str "/") then p else join cwd p.

Fixpoint split_on (sep : char) (s cur : pystr) : list pystr :=
  match s with
  | [] => [cur]
  | c :: s' =>
      if c =? sep then cur :: split_on sep s' [] else split_on sep s' (cur ++ [c])
  end.

Definition components (p : pystr) : list pystr :=
  List.filter (fun c => negb (str_eqb c [] || str_eqb c (str ".")))
              (split_on (chr "/") p []).

Definition locate (p : pystr) : list pystr := components (abspath p).

Fixpoint join_all (cs : list pystr) : pystr :=
  match cs with
  | [] => str "."
  | [c] => c
  | c :: cs' => c ++ str "/" ++ join_all cs'
  end.

Definition normpath (p : pystr) : pystr :=
  (if startswith p (str "/") then str "/" else []) ++ join_all (components p).

(** Drop the characters before the first [/]. *)
Fixpoint to_slash (l : pystr) : pystr :=
  match l with
  | [] => []
  | c :: l' => if c =? chr "/" then l else to_slash l'
  end.

(** [posixpath.dirname(p)], for a path without a trailing slash. *)
Definition dirname (p : pystr) : pystr := rev (tail (to_slash (rev p))).

(** The environment [venv.create] leaves: an interpreter and an
    installer. *)
Definition fresh_env : node :=
  Dir [ (str "bin", Dir [ (str "python", File (Bytes []));
                          (str "pip", File (Bytes [])) ]) ].

(** A host whose manifest parser yields [cfg], whatever the bytes. *)
Definition host (cfg : pyobj) : Host := {|
  unicode_decimal := in_range "0" "9";
  os_name := str "posix";
  os_pathsep := str ":";
  os_linesep := [LF];
  os_path_join := join;
  os_path_abspath := abspath;
  os_path_normpath := normpath;
  os_path_dirname := dirname;
  resolve := locate;
  version_info := (3, 12);
  tomllib_load := fun _ => Ok cfg;
  venv_create := fun dir t =>
    match fs_put t (locate dir) fresh_env with Some t' => t' | None => t end;
  readable := fun _ => true;
  writable := fun _ => true;
  launch_error := fun _ _ _ => None;
  run_process := fun _ _ t => (t, 0%Z);
  ig_file := str "/opt/ig/irongantry/__init__.py";
|}.

(** A project directory [/proj], with a manifest, a built environment, a
    hidden directory, byte code and an archive of an earlier export; the
    engine is installed under [/opt/ig]. *)
Definition project (manifest : list N) : node :=
  Dir [ (str "IronGantryfile", File (Bytes manifest));
        (str "main.py", File (Bytes []));
        (str ".irongantry_env", fresh_env);
        (str ".git", Dir [ (str "config", File (Bytes [])) ]);
        (str "demo_shipped.zip", File (ZipArchive []));
        (str "src", Dir [ (str "util.py", File (Bytes []));
                          (str "util.pyc", File (Bytes []));
                          (str "__pycache__",
                           Dir [ (str "util.cpython-312.pyc", File (Bytes [])) ]) ]) ].

Definition root (manifest : list N) : node :=
  Dir [ (str "proj", project manifest);
        (str "opt",
         Dir [ (str "ig",
                Dir [ (str "irongantry.py", File (Bytes []));
                      (str "irongantry",
                       Dir [ (str "__init__.py", File (Bytes []));
                             (str "validate.py", File (Bytes []));
                             (str "engine.py", File (Bytes []));
                             (str "cli.py", File (Bytes [])) ]) ]) ]) ].

Definition world0 (manifest : list N) : world :=
  World (root manifest) {[ str "PATH" := str "/usr/bin" ]} [].

(** A manifest as [tomllib] returns it. *)
Definition config (entrypoint : pystr) (packages : list pystr) : pyobj :=
  PDict {[ str "project" := PStr (str "demo");
           str "python" := PStr (str "3.12");
           str "packages" := PList (PStr <$> packages);
           str "entrypoint" := PStr entrypoint ]}.

(** The manifests of the examples. *)
Definition helper_config : pyobj := config helper_entry [].
Definition unbalanced_config : pyobj := config unbalanced_entry [].
Definition plain_config : pyobj := config (str "python main.py") [].
Definition packages_config : pyobj :=
  config (str "python main.py") [str "requests"; str "flask>=2"].

(** A manifest as its author may write it, with blanks around the
    values. *)
Definition padded_config : pyobj :=
  PDict {[ str "project" := PStr (str "demo");
           str "python" := PStr (str " 3.12 ");
           str "packages" := PList [PStr (str " requests ")];
           str "entrypoint" := PStr (str "  python main.py ") ]}.

End Demo.

(** A pattern matches the whole of [s]. *)
Definition full_match (r : regex) (s : pystr) : bool :=
  matchk r true s (fun _ s' => is_nil s').

(** ** Validated manifests *)

Section Validated.

Variable unicode_decimal : char -> bool.

(** The [python] field, when present, is a version string that validates
    to itself. *)
Definition python_ok (d : gmap pystr pyobj) : Prop :=
  match d !! str "python" with
  | None => True
  | Some v =>
      exists ver, v = PStr ver
                  /\ validate_python_version unicode_decimal v = Ok ver
  end.

(** The [packages] field, when present, is a list of specifiers each of
    which validates to itself. *)
Definition packages_ok (d : gmap pystr pyobj) : Prop :=
  match d !! str "packages" with
  | None => True
  | Some v =>
      exists l, v = PList (PStr <$> l)
                /\ comprehension validate_package (PStr <$> l) = Ok l
  end.

(** What a mapping returned by [validate_manifest] satisfies. *)
Definition validated (d : gmap pystr pyobj) : Prop :=
  dom d ⊆ _ALLOWED_MANIFEST_KEYS
  /\ (exists name, d !! str "project" = Some (PStr name)
                   /\ validate_project_name (PStr name) = Ok name)
  /\ (exists entry, d !! str "entrypoint" = Some (PStr entry)
                    /\ validate_entrypoint (PStr entry) = Ok entry)
  /\ python_ok d
  /\ packages_ok d.

End Validated.

(** ** The lexer inside a token *)

(** The lexer is inside a token that will be returned: the token is not
    empty or a quote was seen, and the state is a word, a quotation, or an
    escape that returns to one of them. *)
Definition in_token (state escapedstate : lex_state) (token : pystr)
    (quoted : bool) : Prop :=
  (token <> [] \/ quoted = true)
  /\ match state with
     | StWord | StQuote _ => True
     | StEscape _ =>
         match escapedstate with
         | StWord | StQuote _ => True
         | _ => False
         end
     | _ => False
     end.

(** ** The members of an export *)

(** A member written for a project file: the file is in the tree [top],
    below directories none of which is pruned, and it is not an archive of
    an earlier export. *)
Definition project_member (H : Host) (top : node) (m : zmember) : Prop :=
  exists ds f,
    has_file top ds f
    /\ zsrc m = FromFile (os_path_join H (walk_path H (str ".") ds) f)
    /\ arcname m
       = os_path_normpath H (os_path_join H (walk_path H (str ".") ds) f)
    /\ Forall (fun d => ~ pruned d) ds
    /\ endswith f (str "_shipped.zip") = false.

(* ===================================================================== *)
(** * cli.py *)
(* ===================================================================== *)

(** What [parser.parse_args] leaves in [args]: the sub-command, and for
    [init] the name (a string of the command line, [my_app] when it is
    left out). *)
Inductive command :=
| CmdVersion
| CmdInit (name : pystr)
| CmdBuild
| CmdRun
| CmdShip.

(** How [main] ends: it returns, it calls [sys.exit], or an exception it
    does not catch goes through. *)
Inductive outcome :=
| Returns
| SystemExit (code : Z)
| Propagates (e : exn).

(** [except (FileNotFoundError, FileExistsError, ValueError)] *)
Definition caught (e : exn) : bool :=
  match e with
  | FileNotFoundError | FileExistsError | ValueError => true
  | _ => false
  end.

Section Cli.

Context (H : Host).

(** [dispatch[args.command](args)]: each handler builds an engine and
    calls one command; [version] only prints. *)
Definition dispatch (c : command) : M unit :=
  match c with
  | CmdVersion => mret ()
  | CmdInit name => init H (PStr name)
  | CmdBuild => build H
  | CmdRun => run H
  | CmdShip => _ ← ship H; mret ()
  end.

(** [main], after the arguments are parsed. *)
Definition main (args_command : option command) (w : world)
    : outcome * world :=
  match args_command with
  | None => (SystemExit 1, w)
  | Some c =>
      match dispatch c w with
      | (Ok _, w') => (Returns, w')
      | (Raise e, w') =>
          if caught e then (SystemExit 1, w') else (Propagates e, w')
      end
  end.

End Cli.

(* ===================================================================== *)
(** * Further specification-side definitions *)
(* ===================================================================== *)

(** The characters of a string before its first whitespace. *)
Fixpoint first_word (s : pystr) : pystr :=
  match s with
  | [] => []
  | c :: s' => if isspace c then [] else c :: first_word s'
  end.

(** The fields of a string between blanks, tabs, carriage returns and
    newlines.  [cur] is the field being read. *)
Fixpoint fields_from (s cur : pystr) : list pystr :=
  match s with
  | [] => match cur with [] => [] | _ => [cur] end
  | c :: s' =>
      if char_in c WHITESPACE
      then match cur with
           | [] => fields_from s' []
           | _ => cur :: fields_from s' []
           end
      else fields_from s' (cur ++ [c])
  end.

Definition fields (s : pystr) : list pystr := fields_from s [].

(** A string without quotes and backslashes. *)
Definition unquoted (s : pystr) : bool :=
  forallb (fun c => negb (char_in c QUOTES || char_in c ESCAPE)) s.

(** A string without the four separators of the shell lexer. *)
Definition unseparated (s : pystr) : bool :=
  forallb (fun c => negb (char_in c WHITESPACE)) s.

(** The environment [run] gives to the entrypoint, from [os.environ]. *)
Definition run_environment (H : Host) (environ : gmap pystr pystr)
    : gmap pystr pystr :=
  let env := <[str "VIRTUAL_ENV" := os_path_abspath H ENV_DIR]> environ in
  <[str "PATH" :=
      os_path_join H (os_path_abspath H ENV_DIR) (_bin_dir H)
      ++ os_pathsep H
      ++ match env !! str "PATH" with Some p => p | None => [] end]> env.

(** The file system [build] hands to [venv.create]: a directory at the
    path of the environment has been removed. *)
Definition cleared (H : Host) (t : node) : node :=
  match fs_lookup t (resolve H ENV_DIR) with
  | Some (Dir _) => fs_del t (resolve H ENV_DIR)
  | _ => t
  end.

(** The call of the installer for the packages [l]. *)
Definition pip_argv (H : Host) (l : list pyobj) : list pyobj :=
  [PStr (_pip_path H); PStr (str "install"); PStr (str "--")] ++ l.

(** The table a TOML parser reads in the text [init] writes. *)
Definition fresh_manifest (H : Host) (name : pystr) : pyobj :=
  PDict {[ str "project" := PStr name;
           str "python" :=
             PStr (str (pretty (version_info H).1) ++ str "."
                   ++ str (pretty (version_info H).2));
           str "packages" := PList [];
           str "entrypoint" := PStr (str "python main.py") ]}.

(** The member [ship] writes for the file [f] below the directories
    [ds]. *)
Definition member_of (H : Host) (ds : list pystr) (f : pystr) : zmember :=
  ZMember (os_path_normpath H (os_path_join H (walk_path H (str ".") ds) f))
          (FromFile (os_path_join H (walk_path H (str ".") ds) f)).

(** The member for the bootstrap script. *)
Definition bootstrap_member : zmember :=
  ZMember (str "bootstrap.py") (FromString bootstrap_src).

(** The world after [run] launched the interpreter with the arguments
    [rest]. *)
Definition launched (H : Host) (w : world) (rest : list pystr) : world :=
  let argv := PStr <$> (_python_path H :: rest) in
  let env := run_environment H (environ w) in
  World (run_process H argv env (fs w)).1 (environ w)
        (log w ++ [ESubprocess argv (Some env) false false]).

(** The world after [build] created the environment. *)
Definition created (H : Host) (w : world) : world :=
  World (venv_create H ENV_DIR (cleared H (fs w))) (environ w)
        (log w ++ [EVenvCreate ENV_DIR true false]).

(** The world after [build] also ran the installer for the packages
    [l]. *)
Definition installed (H : Host) (w : world) (l : list pyobj) : world :=
  World (run_process H (pip_argv H l) (environ w) (fs (created H w))).1
        (environ w)
        (log (created H w) ++ [ESubprocess (pip_argv H l) None true false]).

(** The return code of that installer. *)
Definition installer_code (H : Host) (w : world) (l : list pyobj) : Z :=
  (run_process H (pip_argv H l) (environ w) (fs (created H w))).2.

(** The world after the call of the installer raised before a process
    ran. *)
Definition attempted (H : Host) (w : world) (l : list pyobj) : world :=
  World (fs (created H w)) (environ w)
        (log (created H w) ++ [ESubprocess (pip_argv H l) None true false]).

(** The world after the call of [run] to the launcher raised before a
    process ran. *)
Definition refused (H : Host) (w : world) (rest : list pystr) : world :=
  World (fs w) (environ w)
        (log w ++ [ESubprocess (PStr <$> (_python_path H :: rest))
                               (Some (run_environment H (environ w)))
                               false false]).

(** The argument vector of [run] and the child it starts. *)
Definition run_argv_of (H : Host) (rest : list pystr) : list pyobj :=
  PStr <$> (_python_path H :: rest).

(** The commands that load the manifest first. *)
Definition loads (c : command) : Prop :=
  c = CmdBuild \/ c = CmdRun \/ c = CmdShip.

Module Examples.

(** The entries of [Demo.padded_config], and what validation makes of
    them. *)
Definition padded_dict : gmap pystr pyobj :=
  {[ str "project" := PStr (str "demo");
     str "python" := PStr (str " 3.12 ");
     str "packages" := PList [PStr (str " requests ")];
     str "entrypoint" := PStr (str "  python main.py ") ]}.

Definition stripped_dict : gmap pystr pyobj :=
  {[ str "project" := PStr (str "demo");
     str "python" := PStr (str "3.12");
     str "packages" := PList [PStr (str "requests")];
     str "entrypoint" := PStr (str "python main.py") ]}.

(** An entrypoint whose argument follows a vertical tab. *)
Definition vt_entry : pystr := str "python" ++ [11] ++ str "main.py".

(** A host like [base], with its own parser, read permissions, child
    processes and engine location. *)
Definition host_with (base : Host) (parse : fdata -> result pyobj)
    (can_read : list pystr -> bool)
    (child : list pyobj -> gmap pystr pystr -> node -> node * Z)
    (engine : pystr) : Host := {|
  unicode_decimal := unicode_decimal base;
  os_name := os_name base;
  os_pathsep := os_pathsep base;
  os_linesep := os_linesep base;
  os_path_join := os_path_join base;
  os_path_abspath := os_path_abspath base;
  os_path_normpath := os_path_normpath base;
  os_path_dirname := os_path_dirname base;
  resolve := resolve base;
  version_info := version_info base;
  tomllib_load := parse;
  venv_create := venv_create base;
  readable := can_read;
  writable := writable base;
  launch_error := launch_error base;
  run_process := child;
  ig_file := engine;
|}.

(** A host like [Demo.host] whose child processes return the code 1. *)
Definition failing_host (cfg : pyobj) : Host :=
  host_with (Demo.host cfg) (fun _ => Ok cfg) (fun _ => true)
            (fun _ _ t => (t, 1%Z)) (ig_file (Demo.host cfg)).

(** A host like [Demo.host] on which no file may be read. *)
Definition locked_host (cfg : pyobj) : Host :=
  host_with (Demo.host cfg) (fun _ => Ok cfg) (fun _ => false)
            (fun _ _ t => (t, 0%Z)) (ig_file (Demo.host cfg)).

(** A host like [Demo.host] whose engine is installed in the environment
    of the project. *)
Definition nested_host (cfg : pyobj) : Host :=
  host_with (Demo.host cfg) (fun _ => Ok cfg) (fun _ => true)
            (fun _ _ t => (t, 0%Z))
            (str "/proj/.irongantry_env/lib/irongantry/__init__.py").

(** A project whose environment holds the engine. *)
Definition nested_world : world :=
  World
    (Dir [ (str "proj",
            Dir [ (str "IronGantryfile", File (Bytes []));
                  (str "main.py", File (Bytes []));
                  (str ".irongantry_env",
                   Dir [ (str "lib",
                          Dir [ (str "irongantry.py", File (Bytes []));
                                (str "irongantry",
                                 Dir [ (str "__init__.py", File (Bytes []));
                                       (str "validate.py", File (Bytes []));
                                       (str "engine.py", File (Bytes []));
                                       (str "cli.py", File (Bytes [])) ]) ]) ])
                ]) ])
    ∅ [].

(** An entrypoint and a package specifier that pass validation and hold
    a NUL character. *)
Definition nul_entry : pystr := str "python " ++ [0].
Definition nul_package : pystr := str "a>=" ++ [0].

(** A project directory without a manifest. *)
Definition bare_world : world :=
  World (Dir [ (str "proj", Dir [ (str "main.py", File (Bytes [])) ]) ])
        ∅ [].

End Examples.

(* ===================================================================== *)
(** * The matcher decides the language *)
(* ===================================================================== *)

Section Matcher.

Lemma is_nil_app {A} (u v : list A) : is_nil (u ++ v) = is_nil u && is_nil v.
Proof. by destruct u. Qed.

Lemma at_eol_iff s : at_eol s = true <-> s = [] \/ s = [LF].
Proof.
  destruct s as [|c [|d s]]; simpl.
  - split; [by left|done].
  - rewrite N.eqb_eq. split; [intros ->; by right|].
    by intros [?|[= ->]].
  - split; [done|]. by intros [?|?].
Qed.

(** What the loop of [Star] accepts is a concatenation of words of the
    body, when the body matcher is sound. *)
Lemma star_loop_sound (r : regex) (k : bool -> pystr -> bool) :
  (forall b s k', matchk r b s k' = true ->
     exists w s', s = w ++ s' /\ lang r w /\ k' (b && is_nil w) s' = true) ->
  forall n b s, star_loop (matchk r) k n b s = true ->
    exists w s', s = w ++ s' /\ star_of (lang r) w
                 /\ k (b && is_nil w) s' = true.
Proof.
  intros IH n. induction n as [|n IHn]; intros b s Hs; simpl in Hs.
  - exists [], s. rewrite andb_true_r. split_and!; [done|constructor|done].
  - apply orb_true_iff in Hs as [Hs|Hs].
    + apply IH in Hs as (w1 & s1 & -> & Hw1 & Hk).
      apply andb_true_iff in Hk as [_ Hk].
      apply IHn in Hk as (w2 & s2 & -> & Hw2 & Hk).
      exists (w1 ++ w2), s2. rewrite is_nil_app, andb_assoc, <- app_assoc.
      split_and!; [done|by constructor|done].
    + exists [], s. rewrite andb_true_r. split_and!; [done|constructor|done].
Qed.

(** Conversely the loop finds every concatenation, when the body matcher
    is complete and the bound covers the input. *)
Lemma star_loop_complete (r : regex) (k : bool -> pystr -> bool) :
  (forall b w s' k', lang r w -> k' (b && is_nil w) s' = true ->
     matchk r b (w ++ s') k' = true) ->
  forall w, star_of (lang r) w ->
  forall n b s', (length (w ++ s') <= n)%nat ->
    k (b && is_nil w) s' = true ->
    star_loop (matchk r) k n b (w ++ s') = true.
Proof.
  intros IH w Hw. induction Hw as [|w1 w2 Hw1 Hw2 IHw]; intros n b s' Hn Hk.
  - rewrite andb_true_r in Hk. destruct n; simpl; [done|].
    rewrite Hk. apply orb_true_r.
  - destruct w1 as [|c w1]; [by apply IHw|].
    destruct n as [|n]; [simpl in Hn; lia|].
    cbn [star_loop]. apply orb_true_iff. left.
    rewrite <- app_assoc. apply IH; [done|].
    simpl in Hn. rewrite !length_app in Hn.
    cbn [is_nil app] in Hk |- *. rewrite andb_false_r in Hk |- *.
    apply andb_true_iff. split.
    + apply Nat.ltb_lt. simpl. rewrite !length_app. lia.
    + apply IHw; [rewrite length_app; lia|done].
Qed.

(** The matcher on an anchor-free pattern: it splits the input into a word
    of the language and a rest the continuation accepts. *)
Lemma matchk_lang (r : regex) :
  anchor_free r = true ->
  forall b s k,
    matchk r b s k = true <->
    exists w s', s = w ++ s' /\ lang r w /\ k (b && is_nil w) s' = true.
Proof.
  induction r as [| | |p|r1 IH1 r2 IH2|r1 IH1 r2 IH2|r IH];
    simpl; intros Haf b s k; try done.
  - split.
    + intros Hk. exists [], s. by rewrite andb_true_r.
    + intros (w & s' & -> & -> & Hk). by rewrite andb_true_r in Hk.
  - destruct s as [|c s].
    + split; [done|]. intros (w & s' & Hs & (c & -> & _) & _). done.
    + rewrite andb_true_iff. split.
      * intros [Hp Hk]. exists [c], s. rewrite andb_false_r. eauto.
      * intros (w & s' & Hs & (c' & -> & Hp) & Hk).
        simplify_eq/=. by rewrite andb_false_r in Hk.
  - apply andb_true_iff in Haf as [Ha1 Ha2].
    rewrite (IH1 Ha1). split.
    + intros (w1 & s1 & -> & Hw1 & Hk).
      apply (IH2 Ha2) in Hk as (w2 & s2 & -> & Hw2 & Hk).
      exists (w1 ++ w2), s2. rewrite is_nil_app, andb_assoc, <- app_assoc.
      eauto 10.
    + intros (w & s' & -> & (w1 & w2 & -> & Hw1 & Hw2) & Hk).
      exists w1, (w2 ++ s'). rewrite <- app_assoc. split_and!; [done..|].
      apply (IH2 Ha2). exists w2, s'.
      by rewrite is_nil_app, andb_assoc in Hk.
  - apply andb_true_iff in Haf as [Ha1 Ha2].
    rewrite orb_true_iff, (IH1 Ha1), (IH2 Ha2). split.
    + intros [(w & s' & -> & Hw & Hk)|(w & s' & -> & Hw & Hk)];
        exists w, s'; auto.
    + intros (w & s' & -> & [Hw|Hw] & Hk); [left|right]; exists w, s'; auto.
  - split.
    + apply star_loop_sound. intros b' s' k'. by apply (IH Haf).
    + intros (w & s' & -> & Hw & Hk).
      apply star_loop_complete; [|done..].
      intros b' w' s'' k' Hw' Hk'. apply (IH Haf). eauto.
Qed.

(** A pattern [^r$] matches the words of [r], and those words followed by
    one newline. *)
Lemma re_match_anchored (r : regex) (s : pystr) :
  anchor_free r = true ->
  re_match (Cat Bol (Cat r Eol)) s = true <->
  lang r s \/ exists w, s = w ++ [LF] /\ lang r w.
Proof.
  intros Haf. unfold re_match. cbn [matchk andb].
  rewrite (matchk_lang r Haf). split.
  - intros (w & s' & -> & Hw & Hk).
    rewrite andb_true_r in Hk. apply at_eol_iff in Hk as [->| ->].
    + left. by rewrite app_nil_r.
    + right. eauto.
  - intros [Hw|(w & -> & Hw)].
    + exists s, []. by rewrite app_nil_r.
    + exists w, [LF]. done.
Qed.

(** ** Classes *)

Lemma lang_star_cls (p : char -> bool) (w : pystr) :
  star_of (lang (Cls p)) w <-> forallb p w = true.
Proof.
  split.
  - induction 1 as [|w1 w2 (c & -> & Hp) _ IH]; [done|].
    simpl. by rewrite Hp, IH.
  - induction w as [|c w IH]; simpl; [constructor|].
    intros [Hp Hw]%andb_true_iff.
    apply (star_app _ [c] w); [by exists c|auto].
Qed.

Lemma lang_plus_cls (p : char -> bool) (w : pystr) :
  lang (Plus (Cls p)) w <-> w <> [] /\ forallb p w = true.
Proof.
  simpl. split.
  - intros (w1 & w2 & -> & (c & -> & Hp) & Hw%lang_star_cls).
    simpl. by rewrite Hp, Hw.
  - destruct w as [|c w]; intros [Hne Hw]; [done|].
    simpl in Hw. apply andb_true_iff in Hw as [Hp Hw].
    exists [c], w. split_and!; [done|by exists c|by apply lang_star_cls].
Qed.

Lemma lang_lit (c : char) (w : pystr) : lang (Lit c) w <-> w = [c].
Proof.
  simpl. split.
  - by intros (c' & -> & ->%N.eqb_eq).
  - intros ->. exists c. by rewrite N.eqb_refl.
Qed.

End Matcher.

(* ===================================================================== *)
(** * Stripping *)
(* ===================================================================== *)

Section Strip.

Lemma lstrip_head (s v : pystr) (c : char) :
  lstrip s = c :: v -> isspace c = false.
Proof.
  induction s as [|a s IH]; simpl; [done|].
  destruct (isspace a) eqn:Ha; [done|]. by intros [= -> _].
Qed.

Lemma lstrip_nonspace (c : char) (s : pystr) :
  isspace c = false -> lstrip (c :: s) = c :: s.
Proof. simpl. by intros ->. Qed.

Lemma lstrip_idemp (s : pystr) : lstrip (lstrip s) = lstrip s.
Proof.
  destruct (lstrip s) as [|c v] eqn:E; [done|].
  apply lstrip_nonspace. by apply lstrip_head in E.
Qed.

Lemma lstrip_app_mid (u v : pystr) (c : char) :
  isspace c = false -> lstrip (u ++ c :: v) = lstrip u ++ c :: v.
Proof.
  intros Hc. induction u as [|a u IH]; simpl; [by rewrite Hc|].
  by destruct (isspace a).
Qed.

Lemma lstrip_spaces (l x : pystr) :
  forallb isspace l = true -> lstrip (l ++ x) = lstrip x.
Proof.
  induction l as [|a l IH]; simpl; [done|].
  intros [-> Hl]%andb_true_iff. auto.
Qed.

Lemma rstrip_nil : rstrip [] = [].
Proof. done. Qed.

Lemma rstrip_cons (c : char) (t : pystr) :
  isspace c = false -> rstrip (c :: t) = c :: rstrip t.
Proof.
  intros Hc. unfold rstrip. simpl.
  rewrite (lstrip_app_mid _ [] c Hc), rev_app_distr. done.
Qed.

Lemma rstrip_idemp (t : pystr) : rstrip (rstrip t) = rstrip t.
Proof. unfold rstrip. by rewrite rev_involutive, lstrip_idemp. Qed.

Lemma rstrip_last (t w : pystr) (c : char) :
  rstrip t = w ++ [c] -> isspace c = false.
Proof.
  unfold rstrip. intros E. apply (f_equal (@rev _)) in E.
  rewrite rev_involutive, rev_app_distr in E. simpl in E.
  by apply lstrip_head in E.
Qed.

Lemma rstrip_spaces (x r : pystr) :
  forallb isspace r = true -> rstrip (x ++ r) = rstrip x.
Proof.
  intros Hr. unfold rstrip. rewrite rev_app_distr, lstrip_spaces; [done|].
  rewrite forallb_forall in Hr |- *. intros c Hc. apply Hr.
  by apply in_rev.
Qed.

Lemma rstrip_app_nonspace (u v : pystr) :
  forallb (fun c => negb (isspace c)) u = true ->
  rstrip (u ++ v) = u ++ rstrip v.
Proof.
  induction u as [|a u IH]; simpl; [done|].
  intros [Ha Hu]%andb_true_iff. apply negb_true_iff in Ha.
  rewrite rstrip_cons by done. by rewrite IH.
Qed.

Lemma lstrip_rstrip (t : pystr) :
  lstrip t = t -> lstrip (rstrip t) = rstrip t.
Proof.
  destruct t as [|c t]; [done|]. intros E.
  apply lstrip_head in E as Hc. rewrite rstrip_cons by done.
  by apply lstrip_nonspace.
Qed.

Lemma strip_trimmed (s : pystr) : trimmed (strip s).
Proof.
  split; unfold strip.
  - apply lstrip_rstrip, lstrip_idemp.
  - apply rstrip_idemp.
Qed.

Lemma trimmed_strip (s : pystr) : trimmed s -> strip s = s.
Proof. intros [E1 E2]. unfold strip. by rewrite E1. Qed.

Lemma strip_idemp (s : pystr) : strip (strip s) = strip s.
Proof. apply trimmed_strip, strip_trimmed. Qed.

Lemma strip_head (s v : pystr) (c : char) :
  strip s = c :: v -> isspace c = false.
Proof.
  intros E. destruct (strip_trimmed s) as [E1 _]. rewrite E in E1.
  by apply lstrip_head in E1.
Qed.

Lemma strip_last (s w : pystr) (c : char) :
  strip s = w ++ [c] -> isspace c = false.
Proof. apply rstrip_last. Qed.

(** A string that starts and ends with characters that are not
    whitespace is trimmed. *)
Lemma trimmed_ends (c d : char) (m : pystr) :
  isspace c = false -> isspace d = false -> trimmed (c :: m ++ [d]).
Proof.
  intros Hc Hd. split; [by apply lstrip_nonspace|].
  assert (rev (c :: m ++ [d]) = d :: rev m ++ [c]) as E
    by (simpl; by rewrite rev_app_distr).
  unfold rstrip. by rewrite E, lstrip_nonspace, <- E, rev_involutive.
Qed.

Lemma trimmed_single (c : char) : isspace c = false -> trimmed [c].
Proof.
  intros Hc. split; [by apply lstrip_nonspace|].
  unfold rstrip. simpl. by rewrite Hc.
Qed.

(** Stripping removes a padding of whitespace around a trimmed string. *)
Lemma strip_pad (l x r : pystr) :
  forallb isspace l = true -> forallb isspace r = true -> trimmed x ->
  strip (l ++ x ++ r) = x.
Proof.
  intros Hl Hr [E1 E2]. unfold strip. rewrite lstrip_spaces by done.
  destruct x as [|c x].
  - simpl. rewrite <- (app_nil_r r), lstrip_spaces by done. done.
  - apply lstrip_head in E1 as Hc. rewrite <- app_comm_cons.
    rewrite lstrip_nonspace by done. rewrite app_comm_cons.
    by rewrite rstrip_spaces.
Qed.

(** ** Character classes *)

Lemma cls_alnum_pkg (c : char) : cls_alnum c = true -> cls_pkg c = true.
Proof. unfold cls_pkg. by intros ->. Qed.

Lemma cls_pkg_nonspace (c : char) : cls_pkg c = true -> isspace c = false.
Proof.
  unfold cls_pkg, cls_alnum, in_range, isspace.
  repeat match goal with |- context [chr ?s] =>
    let v := eval vm_compute in (chr s) in change (chr s) with v end.
  rewrite !orb_true_iff, !andb_true_iff, !N.leb_le, !N.eqb_eq.
  intros Hc. apply not_true_iff_false.
  rewrite !orb_true_iff, !andb_true_iff, !N.leb_le, !N.eqb_eq. lia.
Qed.

Lemma cls_cmp_nonspace (c : char) : cls_cmp c = true -> isspace c = false.
Proof.
  unfold cls_cmp, isspace.
  repeat match goal with |- context [chr ?s] =>
    let v := eval vm_compute in (chr s) in change (chr s) with v end.
  rewrite !orb_true_iff, !N.eqb_eq.
  intros Hc. apply not_true_iff_false.
  rewrite !orb_true_iff, !andb_true_iff, !N.leb_le, !N.eqb_eq. lia.
Qed.

Lemma cls_project_not_lf (c : char) : cls_project c = true -> c <> LF.
Proof.
  unfold cls_project, cls_alnum, in_range, LF.
  repeat match goal with |- context [chr ?s] =>
    let v := eval vm_compute in (chr s) in change (chr s) with v end.
  rewrite !orb_true_iff, !andb_true_iff, !N.leb_le, !N.eqb_eq. lia.
Qed.

Lemma forallb_pkg_nonspace (w : pystr) :
  forallb cls_pkg w = true -> forallb (fun c => negb (isspace c)) w = true.
Proof.
  rewrite !forallb_forall. intros Hw c Hc.
  by rewrite (cls_pkg_nonspace c (Hw c Hc)).
Qed.

End Strip.

(* ===================================================================== *)
(** * The validators of single fields *)
(* ===================================================================== *)

Section Fields.

Lemma full_match_lang (r : regex) (s : pystr) :
  anchor_free r = true -> full_match r s = true <-> lang r s.
Proof.
  intros Haf. unfold full_match. rewrite (matchk_lang r Haf). split.
  - intros (w & s' & -> & Hw & Hk). destruct s'; [|done].
    by rewrite app_nil_r.
  - intros Hs. exists s, []. by rewrite app_nil_r.
Qed.

Lemma lang_cat_intro (r1 r2 : regex) (w1 w2 : pystr) :
  lang r1 w1 -> lang r2 w2 -> lang (Cat r1 r2) (w1 ++ w2).
Proof. intros. by exists w1, w2. Qed.

Lemma lang_cls_intro (p : char -> bool) (c : char) :
  p c = true -> lang (Cls p) [c].
Proof. intros. by exists c. Qed.

Lemma lang_opt_none (r : regex) : lang (Opt r) [].
Proof. by right. Qed.

Lemma lang_opt_some (r : regex) (w : pystr) : lang r w -> lang (Opt r) w.
Proof. by left. Qed.

(** ** Project names *)

(** The names the pattern accepts: non-empty words over [A-Za-z0-9_-],
    and such words followed by one newline. *)
Lemma validate_project_name_spec (s : pystr) :
  validate_project_name (PStr s) = Ok s <->
  (s <> [] /\ forallb cls_project s = true)
  \/ (exists w, s = w ++ [LF] /\ w <> [] /\ forallb cls_project w = true).
Proof.
  assert (re_match _PROJECT_NAME_RE s = true <->
          (s <> [] /\ forallb cls_project s = true)
          \/ (exists w, s = w ++ [LF] /\ w <> []
                        /\ forallb cls_project w = true)) as Hre.
  { unfold _PROJECT_NAME_RE. rewrite re_match_anchored by done.
    rewrite lang_plus_cls. by setoid_rewrite lang_plus_cls. }
  destruct s as [|c s].
  - simpl. split; [done|]. intros [[? _]|(w & E & _)]; [done|].
    by destruct w.
  - unfold validate_project_name. rewrite <- Hre.
    destruct (re_match _ _); split; intros; done.
Qed.

Lemma validate_project_name_accepts (s : pystr) :
  s <> [] -> forallb cls_project s = true ->
  validate_project_name (PStr s) = Ok s.
Proof. intros. apply validate_project_name_spec. auto. Qed.

Lemma validate_project_name_cases (name : pyobj) :
  (exists s, name = PStr s /\ validate_project_name name = Ok s)
  \/ validate_project_name name = Raise ValueError.
Proof.
  destruct name as [s| | | | | | |]; try by right.
  destruct s as [|c s]; [by right|]. simpl.
  destruct (re_match _ _); eauto.
Qed.

(** ** Package specifiers *)

Lemma lang_pkg_name (n : pystr) : lang PKG_NAME n <-> is_pkg_name n.
Proof.
  unfold PKG_NAME, is_pkg_name. split.
  - intros (w1 & w2 & -> & (c & -> & Hc) & [Hw2| ->]).
    + destruct Hw2 as (mid & w4 & -> & Hmid%lang_star_cls & (d & -> & Hd)).
      right. exists c, mid, d. done.
    + left. exists c. by rewrite app_nil_r.
  - intros [(c & -> & Hc)|(c & mid & d & -> & Hc & Hmid & Hd)].
    + apply (lang_cat_intro _ _ [c] []);
        [by apply lang_cls_intro|apply lang_opt_none].
    + apply (lang_cat_intro _ _ [c] (mid ++ [d]));
        [by apply lang_cls_intro|].
      apply lang_opt_some, lang_cat_intro;
        [by apply lang_star_cls|by apply lang_cls_intro].
Qed.

Lemma lang_more_extras (w : pystr) :
  star_of (lang (Cat (Lit (chr ",")) (Plus (Cls cls_pkg)))) w <->
  exists es, w = concat ((fun e' => chr "," :: e') <$> es)
             /\ Forall is_extra es.
Proof.
  split.
  - induction 1 as [|w1 w2 Hw1 _ (es & -> & Hes)]; [by exists []|].
    destruct Hw1 as (u & e & -> & ->%lang_lit & He%lang_plus_cls).
    exists (e :: es). split; [done|]. by constructor.
  - intros (es & -> & Hes). induction Hes as [|e es He _ IH]; [constructor|].
    rewrite fmap_cons. apply (star_app _ (chr "," :: e)); [|done].
    apply (lang_cat_intro _ _ [chr ","] e);
      [by apply lang_lit|by apply lang_plus_cls].
Qed.

Lemma lang_pkg_extras (x : pystr) : lang PKG_EXTRAS x <-> is_extras x.
Proof.
  unfold PKG_EXTRAS, is_extras, comma_list. split.
  - intros (w1 & w2 & -> & ->%lang_lit & w3 & w4 & -> & Hw3 & ->%lang_lit).
    destruct Hw3 as (e & w6 & -> & He%lang_plus_cls & Hw6%lang_more_extras).
    destruct Hw6 as (es & -> & Hes). exists e, es. done.
  - intros (e & es & -> & He & Hes).
    apply (lang_cat_intro _ _ [chr "["]); [by apply lang_lit|].
    apply lang_cat_intro; [|by apply lang_lit].
    apply lang_cat_intro; [by apply lang_plus_cls|].
    apply lang_more_extras. eauto.
Qed.

Lemma lang_pkg_version (v : pystr) : lang PKG_VERSION v <-> is_version v.
Proof.
  unfold PKG_VERSION, is_version. split.
  - intros (w1 & t & -> & (c & -> & Hc) & [Hne Ht]%lang_plus_cls).
    exists c, t. done.
  - intros (c & t & -> & Hc & Hne & Ht).
    apply (lang_cat_intro _ _ [c] t);
      [by apply lang_cls_intro|by apply lang_plus_cls].
Qed.

(** The pattern and the grammar in words describe the same strings. *)
Lemma lang_pkg_body (s : pystr) : lang PKG_BODY s <-> pkg_grammar s.
Proof.
  unfold PKG_BODY, pkg_grammar. split.
  - intros (n & w & -> & Hn%lang_pkg_name & x & v & -> & Hx & Hv).
    exists n, x, v. split_and!; [done..| |].
    + destruct Hx as [Hx%lang_pkg_extras|Hx]; auto.
    + destruct Hv as [Hv%lang_pkg_version|Hv]; auto.
  - intros (n & x & v & -> & Hn & Hx & Hv).
    apply lang_cat_intro; [by apply lang_pkg_name|].
    apply lang_cat_intro.
    + destruct Hx as [->|Hx];
        [apply lang_opt_none|by apply lang_opt_some, lang_pkg_extras].
    + destruct Hv as [->|Hv];
        [apply lang_opt_none|by apply lang_opt_some, lang_pkg_version].
Qed.

Lemma pkg_grammar_nonempty : ~ pkg_grammar [].
Proof.
  intros (n & x & v & E & Hn & _). symmetry in E.
  apply app_eq_nil in E as [-> _].
  destruct Hn as [(c & ? & _)|(c & mid & d & ? & _)]; done.
Qed.

(** On a stripped string the pattern [_PKG_NAME_RE] decides the grammar:
    a stripped string does not end with a newline. *)
Lemma re_match_pkg (s : pystr) :
  re_match _PKG_NAME_RE (strip s) = true <-> pkg_grammar (strip s).
Proof.
  unfold _PKG_NAME_RE. rewrite re_match_anchored by done.
  rewrite <- lang_pkg_body. split; [|auto].
  intros [Hs|(w & E & _)]; [done|]. by apply strip_last in E.
Qed.

(** What [validate_package] does on a string. *)
Lemma validate_package_accepts (s : pystr) :
  pkg_grammar (strip s) -> validate_package (PStr s) = Ok (strip s).
Proof.
  intros Hg. apply re_match_pkg in Hg as Hre. unfold validate_package.
  destruct (strip s); [by apply pkg_grammar_nonempty in Hg|].
  by rewrite Hre.
Qed.

Lemma validate_package_rejects (s : pystr) :
  ~ pkg_grammar (strip s) -> validate_package (PStr s) = Raise ValueError.
Proof.
  intros Hg. rewrite <- re_match_pkg in Hg. unfold validate_package.
  destruct (strip s); [done|]. by destruct (re_match _ _).
Qed.

Lemma validate_package_cases (pkg : pyobj) :
  (exists s, pkg = PStr s /\ validate_package pkg = Ok (strip s)
             /\ pkg_grammar (strip s))
  \/ validate_package pkg = Raise ValueError.
Proof.
  destruct pkg as [s| | | | | | |]; try by right.
  destruct (re_match _PKG_NAME_RE (strip s)) eqn:Hre.
  - apply re_match_pkg in Hre. left. exists s.
    eauto using validate_package_accepts.
  - right. apply validate_package_rejects. intros Hg%re_match_pkg.
    congruence.
Qed.

Lemma is_pkg_name_chars (n : pystr) :
  is_pkg_name n -> n <> [] /\ forallb cls_pkg n = true.
Proof.
  intros [(c & -> & Hc)|(c & mid & d & -> & Hc & Hmid & Hd)].
  - split; [done|]. simpl. by rewrite cls_alnum_pkg.
  - split; [done|]. simpl. rewrite forallb_app. simpl.
    by rewrite Hmid, !cls_alnum_pkg.
Qed.

Lemma is_pkg_name_trimmed (n : pystr) : is_pkg_name n -> trimmed n.
Proof.
  intros [(c & -> & Hc)|(c & mid & d & -> & Hc & Hmid & Hd)].
  - by apply trimmed_single, cls_pkg_nonspace, cls_alnum_pkg.
  - apply trimmed_ends; by apply cls_pkg_nonspace, cls_alnum_pkg.
Qed.

(** A name followed by a word that ends with a character that is not
    whitespace is trimmed. *)
Lemma name_prefix_trimmed (n m : pystr) (d : char) :
  is_pkg_name n -> isspace d = false -> trimmed (n ++ m ++ [d]).
Proof.
  intros [Hne Hn]%is_pkg_name_chars Hd. destruct n as [|c n]; [done|].
  simpl in Hn. apply andb_true_iff in Hn as [Hc _].
  rewrite <- app_comm_cons, app_assoc.
  apply trimmed_ends; [by apply cls_pkg_nonspace|done].
Qed.

Lemma pkg_form_grammar (s : pystr) :
  pkg_form s -> pkg_grammar s /\ trimmed s.
Proof.
  intros (n & e1 & e2 & Hn & He1 & He2 & [->|[->| ->]]).
  - split; [|by apply is_pkg_name_trimmed].
    exists n, [], []. rewrite !app_nil_r. auto.
  - split.
    + exists n, (str "[" ++ e1 ++ str "," ++ e2 ++ str "]"), [].
      rewrite !app_nil_r. split_and!; [done..| |by left].
      right. exists e1, [e2]. split; [|split; [done|by constructor; [|constructor]]].
      unfold comma_list. simpl. by rewrite app_nil_r, <- !app_assoc.
    + rewrite !app_assoc, <- !app_assoc.
      replace (n ++ str "[" ++ e1 ++ str "," ++ e2 ++ str "]")
        with (n ++ (str "[" ++ e1 ++ str "," ++ e2) ++ [chr "]"])
        by (by rewrite <- !app_assoc).
      by apply name_prefix_trimmed.
  - split.
    + exists n, [], (str ">=1.0"). split_and!; [done..|by left|].
      right. exists (chr ">"), (str "=1.0"). done.
    + by apply (name_prefix_trimmed n (str ">=1.") (chr "0")).
Qed.

End Fields.

(* ===================================================================== *)
(** * Validation is a normal form *)
(* ===================================================================== *)

Section Normal.

Variable unicode_decimal : char -> bool.

Lemma bind_Ok {A B} (f : A -> result B) (a : A) : (Ok a ≫= f) = f a.
Proof. done. Qed.

Lemma bind_Raise {A B} (f : A -> result B) (e : exn) :
  (Raise e ≫= f) = Raise e.
Proof. done. Qed.

Lemma validate_project_name_inv (v : pyobj) (n : pystr) :
  validate_project_name v = Ok n -> v = PStr n.
Proof.
  destruct (validate_project_name_cases v) as [(s & -> & E)|E];
    rewrite E; congruence.
Qed.

(** A stripped, non-empty string starts its first [split] token. *)
Lemma split_from_cur (s cur : pystr) :
  cur <> [] -> exists t l, split_from s cur = (cur ++ t) :: l.
Proof.
  revert cur. induction s as [|c s IH]; intros cur Hcur; simpl.
  - exists [], []. rewrite app_nil_r. by destruct cur.
  - destruct (isspace c).
    + exists [], (split_from s []). rewrite app_nil_r. by destruct cur.
    + destruct (IH (cur ++ [c])) as (t & l & ->); [by destruct cur|].
      exists (c :: t), l. by rewrite <- app_assoc.
Qed.

Lemma split_stripped (c : char) (v : pystr) :
  isspace c = false -> exists t l, split (c :: v) = (c :: t) :: l.
Proof.
  intros Hc. unfold split. simpl. rewrite Hc.
  destruct (split_from_cur v [c]) as (t & l & ->); [done|]. eauto.
Qed.

Lemma validate_entrypoint_inv (v : pyobj) (e : pystr) :
  validate_entrypoint v = Ok e ->
  exists s, v = PStr s /\ e = strip s /\ trimmed e
            /\ exists rest, e = chr "p" :: rest.
Proof.
  destruct v as [s| | | | | | |]; try done. simpl.
  destruct (strip s) as [|c t] eqn:E; [done|].
  apply strip_head in E as Hc.
  destruct (split_stripped c t Hc) as (tok & l & Hsplit). rewrite Hsplit.
  destruct (_ || _) eqn:Htok; [|done]. intros [= <-].
  exists s. split_and!; [done|done|rewrite <- E; apply strip_trimmed|].
  exists t. f_equal.
  unfold str_eqb in Htok.
  apply orb_true_iff in Htok as [Htok|Htok];
    apply bool_decide_eq_true in Htok; by injection Htok.
Qed.

Lemma validate_entrypoint_idemp (v : pyobj) (e : pystr) :
  validate_entrypoint v = Ok e -> validate_entrypoint (PStr e) = Ok e.
Proof.
  intros Hv. destruct (validate_entrypoint_inv v e Hv) as (s & -> & -> & _).
  revert Hv. simpl. rewrite strip_idemp. done.
Qed.

Lemma validate_python_version_idemp (v : pyobj) (ver : pystr) :
  validate_python_version unicode_decimal v = Ok ver ->
  validate_python_version unicode_decimal (PStr ver) = Ok ver.
Proof.
  destruct v as [s| | | | | | |]; try done. simpl.
  destruct (strip s) as [|c t] eqn:E; [done|].
  destruct (re_match _ _) eqn:Hre; [|done]. intros [= <-].
  rewrite <- E, strip_idemp, E. by rewrite Hre.
Qed.

Lemma validate_package_idemp (v : pyobj) (p : pystr) :
  validate_package v = Ok p -> validate_package (PStr p) = Ok p.
Proof.
  destruct (validate_package_cases v) as [(s & -> & E & Hg)|E];
    rewrite E; [|done].
  intros [= <-]. rewrite <- (strip_idemp s) at 2.
  apply validate_package_accepts. by rewrite strip_idemp.
Qed.

Lemma comprehension_idemp (pkgs : list pyobj) (l : list pystr) :
  comprehension validate_package pkgs = Ok l ->
  comprehension validate_package (PStr <$> l) = Ok l.
Proof.
  revert l. induction pkgs as [|v pkgs IH]; intros l; simpl.
  - by intros [= <-].
  - destruct (validate_package v) as [p|] eqn:Hv; [|done]. simpl.
    destruct (comprehension validate_package pkgs) as [ps|]; [|done].
    simpl. intros [= <-]. rewrite fmap_cons. cbn [comprehension].
    by rewrite (validate_package_idemp v p Hv), (IH ps eq_refl).
Qed.

(** ** The two optional fields *)

Lemma validate_python_field_inv (d d' : gmap pystr pyobj) :
  validate_python_field unicode_decimal d = Ok d' ->
  python_ok unicode_decimal d' /\ dom d' = dom d
  /\ forall k, k <> str "python" -> d' !! k = d !! k.
Proof.
  unfold validate_python_field, python_ok.
  destruct (d !! str "python") as [v|] eqn:Hv.
  - destruct (validate_python_version _ v) as [ver|] eqn:Hver; [|done].
    rewrite bind_Ok. intros [= <-]. rewrite lookup_insert_eq. split_and!.
    + exists ver. eauto using validate_python_version_idemp.
    + apply dom_insert_lookup_L. eauto.
    + intros k Hk. by rewrite lookup_insert_ne.
  - intros [= <-]. by rewrite Hv.
Qed.

Lemma validate_packages_field_inv (d d' : gmap pystr pyobj) :
  validate_packages_field d = Ok d' ->
  packages_ok d' /\ dom d' = dom d
  /\ forall k, k <> str "packages" -> d' !! k = d !! k.
Proof.
  unfold validate_packages_field, packages_ok.
  destruct (d !! str "packages") as [v|] eqn:Hv.
  - destruct v as [| | | | |pkgs| |]; try done.
    destruct (comprehension validate_package pkgs) as [l|] eqn:Hl; [|done].
    rewrite bind_Ok. intros [= <-]. rewrite lookup_insert_eq. split_and!.
    + exists l. eauto using comprehension_idemp.
    + apply dom_insert_lookup_L. eauto.
    + intros k Hk. by rewrite lookup_insert_ne.
  - intros [= <-]. by rewrite Hv.
Qed.

Lemma validate_python_field_fix (d : gmap pystr pyobj) :
  python_ok unicode_decimal d ->
  validate_python_field unicode_decimal d = Ok d.
Proof.
  unfold validate_python_field, python_ok.
  destruct (d !! str "python") as [v|] eqn:Hv; [|done].
  intros (ver & -> & ->). rewrite bind_Ok. by rewrite insert_id.
Qed.

Lemma validate_packages_field_fix (d : gmap pystr pyobj) :
  packages_ok d -> validate_packages_field d = Ok d.
Proof.
  unfold validate_packages_field, packages_ok.
  destruct (d !! str "packages") as [v|] eqn:Hv; [|done].
  intros (l & -> & ->). rewrite bind_Ok. by rewrite insert_id.
Qed.

(** ** The whole manifest *)

Lemma unknown_keys_empty (d : gmap pystr pyobj) :
  dom d ∖ _ALLOWED_MANIFEST_KEYS = ∅ <-> dom d ⊆ _ALLOWED_MANIFEST_KEYS.
Proof.
  generalize _ALLOWED_MANIFEST_KEYS (dom d). intros X Y.
  rewrite <- leibniz_equiv_iff. split.
  - intros E k Hk. destruct (decide (k ∈ X)) as [|Hn]; [done|].
    assert (k ∈ Y ∖ X) as Hin by (apply elem_of_difference; done).
    rewrite E in Hin. by apply not_elem_of_empty in Hin.
  - intros Hsub k. rewrite elem_of_difference. split; [|by intros ?%not_elem_of_empty].
    intros [Hk Hn]. destruct Hn. by apply Hsub.
Qed.

(** A successful validation returns a validated mapping. *)
Lemma validate_manifest_inv (config r : pyobj) :
  validate_manifest unicode_decimal config = Ok r ->
  exists d, r = PDict d /\ validated unicode_decimal d.
Proof.
  destruct config as [| | | | | |d|]; try done.
  unfold validate_manifest.
  case_bool_decide as Hdom; [|done]. cbn [negb].
  destruct (d !! str "project") as [p|] eqn:Hp; [|done].
  destruct (validate_project_name p) as [n|] eqn:Hn; [|done].
  rewrite bind_Ok.
  destruct (d !! str "entrypoint") as [e|] eqn:He; [|done].
  destruct (validate_entrypoint e) as [entry|] eqn:Hentry; [|done].
  rewrite bind_Ok.
  destruct (validate_python_field _ _) as [d2|] eqn:H2; [|done].
  rewrite bind_Ok.
  destruct (validate_packages_field d2) as [d3|] eqn:H3; [|done].
  rewrite bind_Ok.
  intros [= <-]. exists d3. split; [done|].
  apply validate_python_field_inv in H2 as (Hpy & Hdom2 & Hk2).
  apply validate_packages_field_inv in H3 as (Hpk & Hdom3 & Hk3).
  apply validate_project_name_inv in Hn as Hpn. subst p.
  split_and!.
  - rewrite Hdom3, Hdom2, dom_insert_lookup_L by eauto.
    by apply unknown_keys_empty.
  - exists n. rewrite Hk3, Hk2, lookup_insert_ne by done. done.
  - exists entry. rewrite Hk3, Hk2, lookup_insert_eq by done.
    eauto using validate_entrypoint_idemp.
  - unfold python_ok in *. by rewrite Hk3.
  - done.
Qed.

(** A validated mapping validates to itself. *)
Lemma validate_manifest_fix (d : gmap pystr pyobj) :
  validated unicode_decimal d ->
  validate_manifest unicode_decimal (PDict d) = Ok (PDict d).
Proof.
  intros (Hdom & (n & Hp & Hn) & (entry & He & Hentry) & Hpy & Hpk).
  unfold validate_manifest.
  rewrite bool_decide_eq_true_2 by by apply unknown_keys_empty.
  cbn [negb]. rewrite Hp, Hn, bind_Ok, He, Hentry, bind_Ok.
  rewrite insert_id by done.
  rewrite validate_python_field_fix, bind_Ok by done.
  by rewrite validate_packages_field_fix, bind_Ok.
Qed.

End Normal.

(* ===================================================================== *)
(** * Tokens of a validated entrypoint *)
(* ===================================================================== *)

Section Lexer.

Lemma emit_nonempty (token : pystr) (quoted : bool)
    (next : result (list pystr)) (toks : list pystr) :
  token <> [] \/ quoted = true ->
  emit token quoted next = Ok toks -> toks <> [].
Proof.
  intros Hinv. unfold emit.
  assert (negb quoted && str_eqb token [] = false) as ->.
  { destruct Hinv as [Hne| ->]; [|done].
    unfold str_eqb. rewrite bool_decide_eq_false_2 by done.
    apply andb_false_r. }
  destruct next; [|done]. by intros [= <-].
Qed.

(** Inside a token the lexer returns at least that token, or raises. *)
Lemma read_tokens_nonempty (inp : pystr) :
  forall state token quoted escapedstate toks,
    in_token state escapedstate token quoted ->
    read_tokens inp state token quoted escapedstate = Ok toks ->
    toks <> [].
Proof.
  induction inp as [|c inp IH]; intros state token quoted esc toks [Htok Hst].
  - destruct state; simpl; try done; by apply emit_nonempty.
  - assert (forall t : pystr, t ++ [c] <> []) as Hsnoc by (by intros []).
    destruct state as [| | |q|e]; try done; cbn [read_tokens].
    + (* in a word *)
      destruct (char_in c WHITESPACE).
      { assert (negb (str_eqb token []) || quoted = true) as ->.
        { destruct Htok as [Hne| ->]; [|apply orb_true_r].
          unfold str_eqb. by rewrite bool_decide_eq_false_2. }
        by apply emit_nonempty. }
      destruct (char_in c QUOTES); [by apply IH|].
      destruct (char_in c ESCAPE); [by apply IH|].
      apply IH. split; [left; apply Hsnoc|done].
    + (* in a quotation *)
      destruct (c =? q); [apply IH; split; [by right|done]|].
      destruct (_ && _); apply IH; (split; [by right|done]).
    + (* after an escape character *)
      apply IH. split; [left; apply Hsnoc|].
      by destruct esc.
Qed.

Lemma shlex_split_nonempty (v : pyobj) (e : pystr) (toks : list pystr) :
  validate_entrypoint v = Ok e -> shlex_split e = Ok toks -> toks <> [].
Proof.
  intros (s & _ & _ & _ & rest & ->)%validate_entrypoint_inv.
  unfold shlex_split. change (chr "p") with 112. cbn [read_tokens].
  change (char_in 112 WHITESPACE) with false.
  change (char_in 112 ESCAPE) with false.
  change (is_wordchar 112) with true. cbv iota.
  apply read_tokens_nonempty. split; [by left|done].
Qed.

End Lexer.

(* ===================================================================== *)
(** * File trees *)
(* ===================================================================== *)

Section Trees.

Lemma str_eqb_refl (s : pystr) : str_eqb s s = true.
Proof. unfold str_eqb. by apply bool_decide_eq_true. Qed.

Lemma str_eqb_true (s1 s2 : pystr) : str_eqb s1 s2 = true -> s1 = s2.
Proof. unfold str_eqb. by intros ?%bool_decide_eq_true. Qed.

Lemma entry_set_entry (name : pystr) (c : node) (es : list (pystr * node)) :
  entry name (set_entry name c es) = Some c.
Proof.
  induction es as [|[n c'] es IH]; simpl.
  - by rewrite str_eqb_refl.
  - destruct (str_eqb name n) eqn:E; simpl; by rewrite ?str_eqb_refl, ?E.
Qed.

Lemma entry_elem_of (name : pystr) (c : node) (es : list (pystr * node)) :
  entry name es = Some c -> (name, c) ∈ es.
Proof.
  induction es as [|[n c'] es IH]; simpl; [done|].
  destruct (str_eqb name n) eqn:E.
  - intros [= ->]. apply str_eqb_true in E as ->. left.
  - intros Hc. right. auto.
Qed.

(** What was put at a path is found there. *)
Lemma fs_lookup_put (path : list pystr) :
  forall t new t',
    fs_put t path new = Some t' -> fs_lookup t' path = Some new.
Proof.
  induction path as [|p ps IH]; intros t new t'; [done|].
  destruct t as [d|es]; [by destruct ps|].
  destruct ps as [|p' ps].
  - simpl. intros [= <-]. simpl. by rewrite entry_set_entry.
  - change (fs_put (Dir es) (p :: p' :: ps) new)
      with (entry p es ≫= fun c =>
              fs_put c (p' :: ps) new ≫= fun c' =>
                Some (Dir (set_entry p c' es))).
    destruct (entry p es) as [c|]; [|done].
    cbn [mbind option_bind].
    destruct (fs_put c (p' :: ps) new) as [c'|] eqn:Hc; [|done].
    cbn [mbind option_bind]. intros [= <-].
    cbn [fs_lookup]. rewrite entry_set_entry. cbn [mbind option_bind].
    by apply (IH c).
Qed.

(** Induction on trees, with the hypothesis for every entry of a
    directory. *)
Lemma node_induction (P : node -> Prop) :
  (forall d, P (File d)) ->
  (forall es, Forall (fun e => P e.2) es -> P (Dir es)) ->
  forall n, P n.
Proof.
  intros Hfile Hdir. fix IH 1. intros [d|es]; [apply Hfile|].
  apply Hdir. induction es as [|[name c] es IHes]; constructor; [apply IH|done].
Qed.

End Trees.

(* ===================================================================== *)
(** * The walk of [ship] *)
(* ===================================================================== *)

Section Walk.

Context (H : Host).

Lemma descend_entry {A} (g : node -> list A) (d : pystr)
    (es : list (pystr * node)) :
  (fix descend (l : list (pystr * node)) : list A :=
     match l with
     | [] => []
     | (d', c) :: l' => if str_eqb d d' then g c else descend l'
     end) es
  = match entry d es with Some c => g c | None => [] end.
Proof.
  induction es as [|[d' c] es IH]; simpl; [done|].
  by destruct (str_eqb d d').
Qed.

(** [os.walk] on a directory: the body runs, then the walk descends into
    the directories the body left in the list. *)
Lemma os_walk_dir {A}
    (body : pystr -> list pystr -> list pystr -> list pystr * list A)
    (top : pystr) (es : list (pystr * node)) :
  os_walk H body top (Dir es)
  = let r := body top (List.filter (fun e => is_dir e.2) es).*1
                  (List.filter (fun e => negb (is_dir e.2)) es).*1 in
    r.2 ++ flat_map
             (fun d => match entry d es with
                       | Some c => os_walk H body (os_path_join H top d) c
                       | None => []
                       end) r.1.
Proof.
  cbn [os_walk]. cbv zeta. f_equal. apply flat_map_ext. intros d.
  apply (descend_entry (fun c => os_walk H body (os_path_join H top d) c)).
Qed.

Lemma file_names (f : pystr) (es : list (pystr * node)) :
  f ∈ (List.filter (fun e => negb (is_dir e.2)) es).*1 ->
  exists d, (f, File d) ∈ es.
Proof.
  intros ([f' c] & -> & Hin)%list_elem_of_fmap.
  apply list_elem_of_In, filter_In in Hin as [Hin Hc].
  destruct c as [d|]; [|done]. exists d. by apply list_elem_of_In.
Qed.

(** Every member the walk writes is a file of the tree, below directories
    that are not pruned, with a name that is not excluded. *)
Lemma os_walk_ship_body (n : node) :
  forall top m,
    m ∈ os_walk H (ship_body H) top n ->
    exists ds f,
      has_file n ds f
      /\ zsrc m = FromFile (os_path_join H (walk_path H top ds) f)
      /\ arcname m
         = os_path_normpath H (os_path_join H (walk_path H top ds) f)
      /\ Forall (fun d => ~ pruned d) ds
      /\ endswith f (str "_shipped.zip") = false.
Proof.
  induction n as [d|es IH] using node_induction; intros top m;
    [by intros ?%elem_of_nil|].
  rewrite os_walk_dir. cbv zeta. unfold ship_body at 1 2. cbn [fst snd].
  rewrite elem_of_app. intros [Hm|Hm].
  - (* a file of this directory *)
    apply list_elem_of_In, in_flat_map in Hm as (f & Hf & Hm).
    apply list_elem_of_In, file_names in Hf as [d Hd].
    destruct (existsb _ _); [done|].
    destruct (endswith f (str "_shipped.zip")) eqn:Hzip; [done|].
    destruct Hm as [<-|[]].
    exists [], f. split_and!; [by econstructor|done..].
  - (* a file below a directory that was kept *)
    apply list_elem_of_In, in_flat_map in Hm as (d & Hd & Hm).
    apply filter_In in Hd as [_ Hkeep].
    destruct (entry d es) as [c|] eqn:Hc; [|done].
    apply entry_elem_of in Hc as Hin.
    rewrite Forall_forall in IH. apply list_elem_of_In in Hm.
    destruct (IH _ Hin _ _ Hm) as (ds & f & Hf & Hsrc & Harc & Hds & Hzip).
    exists (d :: ds), f. split_and!; [by econstructor|done..| |done].
    constructor; [|done].
    apply andb_true_iff in Hkeep as [Hex Hdot].
    apply negb_true_iff in Hex, Hdot. apply bool_decide_eq_false in Hex.
    intros [?|?]; [done|congruence].
Qed.

End Walk.

(* ===================================================================== *)
(** * The commands of the engine *)
(* ===================================================================== *)

(** Unfold the plumbing of the monad and of the primitive commands. *)
Ltac run_monad :=
  cbv [mbind M_bind mret M_ret raise lift get_world set_fs emit_event
       os_path_isfile os_path_isdir os_path_exists read_file write_file
       shutil_rmtree venv_create_call negb];
  cbn [fs environ log].

Section Commands.

Context (H : Host).

Lemma M_bind_eq {A B} (m : M A) (f : A -> M B) (w : world) :
  (m ≫= f) w
  = match m w with
    | (Ok a, w') => f a w'
    | (Raise e, w') => (Raise e, w')
    end.
Proof. done. Qed.

(** [_load_manifest], step by step. *)
Lemma load_manifest_eq (w : world) :
  _load_manifest H w
  = (match fs_lookup (fs w) (resolve H MANIFEST) with
     | Some (File data) =>
         if readable H (resolve H MANIFEST)
         then config ← tomllib_load H data;
              validate_manifest (unicode_decimal H) config
         else Raise PermissionError
     | _ => Raise FileNotFoundError
     end, w).
Proof.
  destruct w as [t env l]. unfold _load_manifest. run_monad.
  destruct (fs_lookup t (resolve H MANIFEST)) as [[data|es]|] eqn:E;
    run_monad; rewrite ?E; try done.
  destruct (readable H _); [|done]. by destruct (tomllib_load H data).
Qed.

(** Loading the manifest leaves the world as it is, and what it returns
    is validated. *)
Lemma load_manifest_inv (w w' : world) (r : result pyobj) :
  _load_manifest H w = (r, w') ->
  w' = w
  /\ forall cfg, r = Ok cfg ->
       exists d, cfg = PDict d /\ validated (unicode_decimal H) d.
Proof.
  rewrite load_manifest_eq. intros [= <- <-]. split; [done|].
  intros cfg.
  destruct (fs_lookup (fs w) (resolve H MANIFEST)) as [[data|es]|];
    try done.
  destruct (readable H _); [|done].
  destruct (tomllib_load H data) as [config|e]; [|done].
  intros Hcfg. by apply validate_manifest_inv in Hcfg.
Qed.

(** The manifest is missing, or may not be read, or it is parsed and
    validated. *)
Lemma load_manifest_cases (w : world) :
  (forall data, fs_lookup (fs w) (resolve H MANIFEST) <> Some (File data))
  /\ _load_manifest H w = (Raise FileNotFoundError, w)
  \/ exists data,
       fs_lookup (fs w) (resolve H MANIFEST) = Some (File data)
       /\ _load_manifest H w
          = (if readable H (resolve H MANIFEST)
             then config ← tomllib_load H data;
                  validate_manifest (unicode_decimal H) config
             else Raise PermissionError, w).
Proof.
  rewrite load_manifest_eq.
  destruct (fs_lookup (fs w) (resolve H MANIFEST)) as [[data|es]|];
    [right; by exists data|by left..].
Qed.

(** ** The call of the launcher *)

(** The call is recorded whatever its outcome. *)
Lemma subprocess_run_log (argv : list pyobj)
    (env : option (gmap pystr pystr)) (check : bool) (w : world) :
  log (subprocess_run H argv env check w).2
  = log w ++ [ESubprocess argv env check false].
Proof.
  unfold subprocess_run. cbv zeta. destruct (has_nul argv); [done|].
  destruct (launch_error H argv _ _); [done|].
  by destruct (run_process H argv _ _) as [t' rc].
Qed.

Lemma subprocess_run_environ (argv : list pyobj)
    (env : option (gmap pystr pystr)) (check : bool) (w : world) :
  environ (subprocess_run H argv env check w).2 = environ w.
Proof.
  unfold subprocess_run. cbv zeta. destruct (has_nul argv); [done|].
  destruct (launch_error H argv _ _); [done|].
  by destruct (run_process H argv _ _) as [t' rc].
Qed.

(** An argument with a NUL: [ValueError], and no child runs. *)
Lemma subprocess_run_nul (argv : list pyobj)
    (env : option (gmap pystr pystr)) (check : bool) (w : world) :
  has_nul argv = true ->
  subprocess_run H argv env check w
  = (Raise ValueError,
     World (fs w) (environ w) (log w ++ [ESubprocess argv env check false])).
Proof. unfold subprocess_run. cbv zeta. by intros ->. Qed.

(** The child starts: it runs, and [check] looks at its return code. *)
Lemma subprocess_run_started (argv : list pyobj)
    (env : option (gmap pystr pystr)) (check : bool) (w : world) :
  has_nul argv = false ->
  launch_error H argv (match env with Some e => e | None => environ w end)
               (fs w) = None ->
  subprocess_run H argv env check w
  = (if check
        && negb ((run_process H argv
                    (match env with Some e => e | None => environ w end)
                    (fs w)).2 =? 0)%Z
     then Raise CalledProcessError
     else Ok (),
     World (run_process H argv
              (match env with Some e => e | None => environ w end)
              (fs w)).1
           (environ w) (log w ++ [ESubprocess argv env check false])).
Proof.
  unfold subprocess_run. cbv zeta. intros -> ->.
  by destruct (run_process H argv _ _) as [t' rc].
Qed.

(** ** The commands once the manifest is loaded *)

(** What [run] does once the manifest is loaded: the entrypoint is the
    validated string of the manifest. *)
Lemma run_loaded (w : world) (cfg : pyobj) :
  _load_manifest H w = (Ok cfg, w) ->
  exists entry,
    getitem cfg (str "entrypoint") = Ok (PStr entry)
    /\ validate_entrypoint (PStr entry) = Ok entry
    /\ run H w
       = match fs_lookup (fs w) (resolve H (_python_path H)) with
         | Some (File _) =>
             match shlex_split entry with
             | Ok [] => (Raise IndexError, w)
             | Ok (_ :: rest) =>
                 subprocess_run H (run_argv_of H rest)
                   (Some (run_environment H (environ w))) false w
             | Raise e => (Raise e, w)
             end
         | _ => (Raise FileNotFoundError, w)
         end.
Proof.
  intros Hload.
  destruct (load_manifest_inv w w (Ok cfg) Hload) as [_ Hcfg].
  destruct (Hcfg cfg eq_refl) as (d & -> & _ & _ & (e & He & Hval) & _).
  exists e. cbn [getitem]. rewrite He. split; [done|]. split; [done|].
  destruct w as [t env l]. unfold run. run_monad. rewrite Hload.
  cbn [getitem]. rewrite He. run_monad.
  destruct (fs_lookup t (resolve H (_python_path H))) as [[?|?]|];
    run_monad; try done.
  by destruct (shlex_split e) as [[|first rest]|x]; run_monad.
Qed.

(** What [build] does once the manifest is loaded: the packages are
    absent, or a list of strings. *)
Lemma build_loaded (w : world) (cfg : pyobj) :
  _load_manifest H w = (Ok cfg, w) ->
  exists (d : gmap pystr pyobj) (pkgs : list pystr),
    cfg = PDict d
    /\ (d !! str "packages" = None /\ pkgs = []
        \/ d !! str "packages" = Some (PList (PStr <$> pkgs)))
    /\ build H w
       = match pkgs with
         | [] => (Ok (), created H w)
         | _ =>
             subprocess_run H (pip_argv H (PStr <$> pkgs)) None true
                            (created H w)
         end.
Proof.
  intros Hload.
  destruct (load_manifest_inv w w (Ok cfg) Hload) as [_ Hcfg].
  destruct (Hcfg cfg eq_refl) as (d & -> & _ & _ & _ & _ & Hpk).
  exists d. unfold packages_ok in Hpk.
  assert (forall pkgs : list pystr,
            d !! str "packages" = None /\ pkgs = []
            \/ d !! str "packages" = Some (PList (PStr <$> pkgs)) ->
            build H w
            = match pkgs with
              | [] => (Ok (), created H w)
              | _ =>
                  subprocess_run H (pip_argv H (PStr <$> pkgs)) None true
                                 (created H w)
              end) as Hbuild.
  { intros pkgs Hpkgs. destruct w as [t env l].
    unfold build, created, cleared, pip_argv.
    run_monad. rewrite Hload. run_monad. unfold dict_get.
    destruct Hpkgs as [[-> ->]| ->].
    - by destruct (fs_lookup t (resolve H ENV_DIR)) as [[?|?]|]; run_monad.
    - destruct (fs_lookup t (resolve H ENV_DIR)) as [[?|?]|]; run_monad.
      all: by destruct pkgs as [|p pkgs]; cbn [truthy fmap list_fmap];
        run_monad. }
  destruct (d !! str "packages") as [v|] eqn:Hv.
  - destruct Hpk as (pkgs & -> & _). exists pkgs.
    split; [done|]. split; [by right|]. apply (Hbuild pkgs). by right.
  - exists []. split; [done|]. split; [by left|]. apply (Hbuild []).
    by left.
Qed.

(** A successful [ship] writes the archive twice at the same path: empty
    when the file is created, complete when it is closed. *)
Lemma ship_inv (w w' : world) (filename : pystr) :
  ship H w = (Ok filename, w') ->
  exists t t',
    fs_put (fs w) (resolve H filename) (File (ZipArchive [])) = Some t
    /\ fs_put t (resolve H filename)
              (File (ZipArchive (user_members H t ++ bundle_members H t
                                 ++ [bootstrap_member])))
       = Some t'
    /\ w' = World t' (environ w) (log w).
Proof.
  destruct w as [t0 env l]. unfold ship. rewrite M_bind_eq.
  destruct (_load_manifest H _) as [[cfg|e] w1] eqn:Hload; [|done].
  apply load_manifest_inv in Hload as [-> _]. rewrite M_bind_eq.
  unfold lift at 1.
  destruct (getitem cfg (str "project")) as [[name| | | | | | |]|]; try done.
  run_monad.
  destruct (fs_lookup t0 (resolve H (name ++ str "_shipped.zip")))
    as [[?|?]|]; try done;
    (destruct (fs_put t0 _ (File (ZipArchive []))) as [t|] eqn:Hput;
       [|done];
     destruct (writable H _); [|done]; run_monad;
     rewrite (fs_lookup_put _ _ _ _ Hput);
     destruct (fs_put t _ (File (ZipArchive _))) as [t2|] eqn:Hput2;
       [|done]; run_monad;
     intros [= <- <-]; by exists t, t2).
Qed.

(** [init], step by step. *)
Lemma init_eq (name : pyobj) (w : world) :
  init H name w
  = match validate_project_name name with
    | Raise e => (Raise e, w)
    | Ok n =>
        if bool_decide (is_Some (fs_lookup (fs w) (resolve H MANIFEST)))
        then (Raise FileExistsError, w)
        else match fs_put (fs w) (resolve H MANIFEST)
                     (File (Bytes (utf8_encode
                                     (text_mode H (manifest_text H n))))) with
             | Some t =>
                 if writable H (resolve H MANIFEST)
                 then (Ok (), World t (environ w) (log w))
                 else (Raise PermissionError, w)
             | None => (Raise FileNotFoundError, w)
             end
    end.
Proof.
  unfold init. rewrite M_bind_eq. unfold lift at 1.
  destruct (validate_project_name name) as [n|e]; [|done].
  rewrite M_bind_eq. unfold os_path_exists. cbn [fst snd].
  case_bool_decide as Hex; [done|]. unfold write_file.
  destruct (fs_lookup (fs w) (resolve H MANIFEST)) as [c|] eqn:E.
  { destruct Hex. by eexists. }
  destruct (fs_put (fs w) (resolve H MANIFEST) _); [|done].
  by destruct (writable H _).
Qed.

End Commands.

(* ===================================================================== *)
(** * Properties of the validator *)
(* ===================================================================== *)

Section ValidatorClaims.

(** C3. Package-specifier validation accepts, after stripping the
    whitespace around it, every specifier of the forms [name],
    [name[extra1,extra2]] and [name>=1.0] whose name and extras follow the
    allow-list grammar, and returns it stripped; a specifier that holds a
    shell metacharacter ([;], [|], a backtick, [$(]) and whose stripped
    form is not in the grammar is rejected with [ValueError]. *)
Theorem validate_package_forms (l x r s : pystr) :
  (forallb isspace l = true -> forallb isspace r = true -> pkg_form x ->
   validate_package (PStr (l ++ x ++ r)) = Ok x)
  /\ (has_shell_meta s = true -> ~ pkg_grammar (strip s) ->
      validate_package (PStr s) = Raise ValueError).
Proof.
  split.
  - intros Hl Hr [Hg Ht]%pkg_form_grammar.
    rewrite <- (strip_pad l x r Hl Hr Ht) at 2.
    apply validate_package_accepts. by rewrite strip_pad.
  - intros _. apply validate_package_rejects.
Qed.

Lemma validate_package_forms_witness :
  validate_package (PStr (str " requests[security,socks] "))
  = Ok (str "requests[security,socks]")
  /\ validate_package (PStr (str "requests; rm -rf /")) = Raise ValueError.
Proof.
  destruct (validate_package_forms (str " ") (str "requests[security,socks]")
              (str " ") (str "requests; rm -rf /")) as [Hforms Hmeta].
  split.
  - apply Hforms; [reflexivity|reflexivity|].
    exists (str "requests"), (str "security"), (str "socks").
    split; [right; exists (chr "r"), (str "equest"), (chr "s"); by vm_compute|].
    split; [by vm_compute|]. split; [by vm_compute|].
    right; left; reflexivity.
  - apply Hmeta; [reflexivity|].
    intros Hg%lang_pkg_body%full_match_lang; [|reflexivity].
    vm_compute in Hg. discriminate.
Defined.

(** C5. The pattern of project names ends with [$], which also matches
    before a final newline: the name [abc] followed by a newline is
    accepted and returned unchanged, although the newline is outside
    [A-Za-z0-9_-]. *)
Theorem validate_project_name_trailing_newline :
  validate_project_name (PStr (str "abc" ++ [LF])) = Ok (str "abc" ++ [LF])
  /\ forallb cls_project (str "abc" ++ [LF]) = false.
Proof. by vm_compute. Qed.

(** C9. After a version comparator the specifier is free, up to two
    limits: for a valid name [n], a comparator [c] and a string [t] whose
    right-stripped form is not empty and holds no newline, the specifier
    [n c t] is accepted, and returned without the trailing whitespace of
    [t]. *)
Theorem validate_package_version_suffix (n t : pystr) (c : char) :
  is_pkg_name n -> cls_cmp c = true ->
  rstrip t <> [] -> forallb cls_dot (rstrip t) = true ->
  validate_package (PStr (n ++ c :: t)) = Ok (n ++ c :: rstrip t).
Proof.
  intros Hn Hc Hne Hdot.
  assert (strip (n ++ c :: t) = n ++ c :: rstrip t) as Hstrip.
  { destruct (is_pkg_name_chars n Hn) as [Hn0 Hchars].
    unfold strip. destruct n as [|a n]; [done|]. simpl in Hchars.
    apply andb_true_iff in Hchars as [Ha Hchars].
    rewrite <- app_comm_cons, lstrip_nonspace by by apply cls_pkg_nonspace.
    rewrite app_comm_cons, rstrip_app_nonspace.
    - by rewrite rstrip_cons by by apply cls_cmp_nonspace.
    - simpl. rewrite (cls_pkg_nonspace a Ha). by apply forallb_pkg_nonspace. }
  rewrite <- Hstrip. apply validate_package_accepts. rewrite Hstrip.
  exists n, [], (c :: rstrip t). split_and!; [done..|by left|].
  right. by exists c, (rstrip t).
Qed.

Lemma validate_package_version_suffix_witness :
  validate_package (PStr (str "flask>=2.0; rm -rf / | `id` $(id)  "))
  = Ok (str "flask>=2.0; rm -rf / | `id` $(id)").
Proof.
  apply (validate_package_version_suffix (str "flask") (str "=2.0; rm -rf / | `id` $(id)  ") (chr ">")).
  - right. exists (chr "f"), (str "las"), (chr "k"). by vm_compute.
  - reflexivity.
  - by vm_compute.
  - reflexivity.
Defined.

(** A comparator followed by a blank, or by text with a newline inside,
    is rejected. *)
Lemma validate_package_version_suffix_counterexample :
  is_pkg_name (str "a") /\ cls_cmp (chr ">") = true
  /\ [SPACE] <> [] /\ str "1" ++ [LF] ++ str "2" <> []
  /\ validate_package (PStr (str "a" ++ chr ">" :: [SPACE]))
     = Raise ValueError
  /\ validate_package (PStr (str "a" ++ chr ">" :: str "1" ++ [LF] ++ str "2"))
     = Raise ValueError.
Proof.
  split; [left; exists (chr "a"); by vm_compute|]. by vm_compute.
Qed.

Variable unicode_decimal : char -> bool.

(** C4. Manifest validation fails for every mapping without the key
    [project], for every mapping without the key [entrypoint], and for
    every mapping with a key outside the allowed set, whatever the other
    keys and values are. *)
Theorem validate_manifest_fail_closed (d : gmap pystr pyobj) :
  d !! str "project" = None
  \/ d !! str "entrypoint" = None
  \/ (exists k, k ∈ dom d /\ k ∉ _ALLOWED_MANIFEST_KEYS) ->
  validate_manifest unicode_decimal (PDict d) = Raise ValueError.
Proof.
  intros Hd. unfold validate_manifest.
  case_bool_decide as Hdom; [|done]. cbn [negb].
  apply unknown_keys_empty in Hdom.
  destruct Hd as [Hp|[He|(k & Hk & Hnot)]].
  - by rewrite Hp.
  - destruct (d !! str "project") as [p|]; [|done].
    destruct (validate_project_name_cases p) as [(s & -> & ->)| ->];
      [|done].
    by rewrite bind_Ok, He.
  - destruct Hnot. by apply Hdom.
Qed.

(** C8. Manifest validation is idempotent: what it returns validates to
    itself. *)
Theorem validate_manifest_idempotent (m m' : pyobj) :
  validate_manifest unicode_decimal m = Ok m' ->
  validate_manifest unicode_decimal m' = Ok m'.
Proof.
  intros (d & -> & Hd)%validate_manifest_inv.
  by apply validate_manifest_fix.
Qed.

End ValidatorClaims.

Lemma validate_manifest_fail_closed_witness :
  validate_manifest (in_range "0" "9")
    (PDict {[ str "entrypoint" := PStr (str "python main.py") ]})
  = Raise ValueError
  /\ validate_manifest (in_range "0" "9")
       (PDict {[ str "project" := PStr (str "demo") ]})
     = Raise ValueError
  /\ validate_manifest (in_range "0" "9")
       (PDict {[ str "project" := PStr (str "demo");
                 str "entrypoint" := PStr (str "python main.py");
                 str "shell" := PBool true ]})
     = Raise ValueError.
Proof.
  split_and!; apply validate_manifest_fail_closed.
  - left. reflexivity.
  - right; left. reflexivity.
  - right; right. exists (str "shell"). split.
    + apply elem_of_dom. eexists. by vm_compute.
    + by vm_compute.
Defined.

Lemma validate_manifest_idempotent_witness :
  validate_manifest (in_range "0" "9") Demo.padded_config
  = Ok (Demo.config (str "python main.py") [str "requests"])
  /\ validate_manifest (in_range "0" "9")
       (Demo.config (str "python main.py") [str "requests"])
     = Ok (Demo.config (str "python main.py") [str "requests"]).
Proof.
  assert (validate_manifest (in_range "0" "9") Demo.padded_config
          = Ok (Demo.config (str "python main.py") [str "requests"])) as Hm
    by (by vm_compute).
  split; [exact Hm|].
  exact (validate_manifest_idempotent (in_range "0" "9") _ _ Hm).
Defined.

(* ===================================================================== *)
(** * Properties of the engine *)
(* ===================================================================== *)

Section EngineClaims.

Context (H : Host).

Lemma startswith_app (p s : pystr) : startswith (p ++ s) p = true.
Proof.
  induction p as [|a p IH]; [by destruct s|].
  simpl. by rewrite N.eqb_refl, IH.
Qed.

Lemma endswith_app (s p : pystr) : endswith (s ++ p) p = true.
Proof. unfold endswith. rewrite rev_app_distr. apply startswith_app. Qed.

Lemma isfile_true (p : pystr) (w : world) :
  os_path_isfile H p w = (Ok true, w) ->
  exists d, fs_lookup (fs w) (resolve H p) = Some (File d).
Proof.
  unfold os_path_isfile. intros [= Hp].
  destruct (fs_lookup (fs w) (resolve H p)) as [[d|?]|]; eauto; done.
Qed.

(** The name of the archive. *)
Lemma ship_filename (w w' : world) (filename : pystr) :
  ship H w = (Ok filename, w') ->
  exists name, filename = name ++ str "_shipped.zip".
Proof.
  unfold ship. rewrite M_bind_eq.
  destruct (_load_manifest H w) as [[cfg|e] w1]; [|done].
  rewrite M_bind_eq. unfold lift at 1.
  destruct (getitem cfg (str "project")) as [[name| | | | | | |]|]; try done.
  rewrite M_bind_eq.
  destruct (write_file H _ _ w1) as [[[]|e] w2]; [|done].
  rewrite M_bind_eq. unfold get_world. rewrite M_bind_eq.
  destruct (write_file H _ _ w2) as [[[]|e] w3]; [|done].
  intros [= <- _]. by exists name.
Qed.

(** The members written for the bundled engine are read from the
    directory of the running engine. *)
Lemma bundle_members_inv (t : node) (m : zmember) :
  m ∈ bundle_members H t ->
  exists arc src d,
    (arc, src) ∈ bundle_files H
    /\ m = ZMember arc (FromFile src)
    /\ fs_lookup t (resolve H src) = Some (File d).
Proof.
  unfold bundle_members.
  intros ([arc src] & Hin & Hm)%list_elem_of_In%in_flat_map.
  destruct (fs_lookup t (resolve H src)) as [[d|?]|] eqn:E;
    simpl in Hm; try done.
  destruct Hm as [<-|[]]. exists arc, src, d.
  split; [by apply list_elem_of_In|done].
Qed.

(** C1. When the manifest loads, the interpreter of the environment is
    present and the validated entrypoint splits into shell words, the
    argument vector [run] produces and passes to the launcher, without a
    shell, is the absolute path of the interpreter followed by the words
    after the first one, unchanged; for
    [python3 app.py --name=python_helper] these are [app.py] and
    [--name=python_helper]. *)
Theorem run_argv (w : world) (cfg : pyobj) (entry : pystr)
    (toks : list pystr) :
  _load_manifest H w = (Ok cfg, w) ->
  getitem cfg (str "entrypoint") = Ok (PStr entry) ->
  os_path_isfile H (_python_path H) w = (Ok true, w) ->
  shlex_split entry = Ok toks ->
  exists first rest env,
    toks = first :: rest
    /\ log (run H w).2
       = log w ++ [ESubprocess (PStr <$> (_python_path H :: rest))
                               (Some env) false false]
    /\ env !! str "VIRTUAL_ENV" = Some (os_path_abspath H ENV_DIR)
    /\ (entry = helper_entry ->
        rest = [str "app.py"; str "--name=python_helper"]).
Proof.
  intros Hload Hentry [d Hpy]%isfile_true Htoks.
  destruct (run_loaded H w cfg Hload) as (e & He & Hval & Hrun).
  rewrite He in Hentry. injection Hentry as ->.
  destruct toks as [|first rest];
    [by apply (shlex_split_nonempty _ _ _ Hval) in Htoks|].
  rewrite Hpy, Htoks in Hrun.
  exists first, rest, (run_environment H (environ w)).
  split; [done|]. rewrite Hrun, subprocess_run_log. split; [done|]. split.
  - unfold run_environment. cbv zeta.
    rewrite lookup_insert_ne by done. by rewrite lookup_insert_eq.
  - intros ->. revert Htoks. by vm_compute; intros [= _ <-].
Qed.

(** C2. When the manifest loads, [build] creates the environment and then
    calls the installer exactly when the package list is not empty:
    once, without a shell, with the argument vector made of the installer
    path, [install], [--] and the packages in order. *)
Theorem build_installer_argv (w : world) (cfg : pyobj) :
  _load_manifest H w = (Ok cfg, w) ->
  exists (d : gmap pystr pyobj) (pkgs : list pystr),
    cfg = PDict d
    /\ (d !! str "packages" = None /\ pkgs = []
        \/ d !! str "packages" = Some (PList (PStr <$> pkgs)))
    /\ log (build H w).2
       = log w ++ EVenvCreate ENV_DIR true false
           :: match pkgs with
              | [] => []
              | _ =>
                  [ESubprocess
                     (PStr <$> (_pip_path H :: str "install" :: str "--"
                                  :: pkgs))
                     None true false]
              end.
Proof.
  intros Hload.
  destruct (build_loaded H w cfg Hload) as (d & pkgs & -> & Hpkgs & ->).
  exists d, pkgs. split; [done|]. split; [done|].
  destruct pkgs as [|p pkgs]; [done|].
  rewrite subprocess_run_log. cbn [created log].
  by rewrite <- app_assoc.
Qed.

(** C6. For a valid project name, when something exists at the path of
    the manifest, [init] raises [FileExistsError] and leaves the world,
    and so the existing manifest, as it was. *)
Theorem init_existing_manifest (name : pyobj) (n : pystr) (w : world) :
  validate_project_name name = Ok n ->
  os_path_exists H MANIFEST w = (Ok true, w) ->
  init H name w = (Raise FileExistsError, w).
Proof.
  intros Hname Hex. unfold init. rewrite M_bind_eq. unfold lift at 1.
  rewrite Hname, M_bind_eq, Hex. done.
Qed.

(** C7. The archive [ship] writes has a name that ends with
    [_shipped.zip], and each of its members is of one of three kinds: the
    bootstrap script, generated; a file of the bundled engine, read from
    the directory of the running engine, wherever that directory lies; or
    a file of the project tree that lies below directories none of which
    is the environment directory, a cache directory or a hidden
    directory, and whose name does not end with [_shipped.zip]. *)
Theorem ship_excludes (w w' : world) (filename : pystr) :
  ship H w = (Ok filename, w') ->
  exists t members,
    fs_put (fs w) (resolve H filename) (File (ZipArchive [])) = Some t
    /\ fs_lookup (fs w') (resolve H filename)
       = Some (File (ZipArchive members))
    /\ endswith filename (str "_shipped.zip") = true
    /\ forall m, m ∈ members ->
         m = bootstrap_member
         \/ (exists arc src d,
               (arc, src) ∈ bundle_files H
               /\ m = ZMember arc (FromFile src)
               /\ fs_lookup t (resolve H src) = Some (File d))
         \/ exists top, fs_lookup t (resolve H (str ".")) = Some top
                        /\ project_member H top m.
Proof.
  intros Hship. destruct (ship_filename w w' filename Hship) as [name ->].
  apply ship_inv in Hship as (t & t' & Hput & Hput' & ->).
  exists t. eexists. split; [done|].
  split; [by apply (fs_lookup_put _ _ _ _ Hput')|].
  split; [apply endswith_app|].
  intros m [Hm|[Hm|Hm]%elem_of_app]%elem_of_app.
  - right. right. unfold user_members in Hm.
    destruct (fs_lookup t (resolve H (str "."))) as [top|];
      [|by apply elem_of_nil in Hm].
    exists top. split; [done|]. by apply os_walk_ship_body in Hm.
  - right. left. by apply bundle_members_inv.
  - left. by apply list_elem_of_singleton in Hm.
Qed.

(** C10. The entrypoint [unbalanced_entry] (the word python, a blank, a
    double quote, the letter a) passes validation, and splitting it into
    shell words raises [ValueError]: with it in the manifest, and the
    interpreter present, [run] raises before any process is launched and
    leaves the world as it was. *)
Theorem validated_entrypoint_may_not_split :
  validate_entrypoint (PStr unbalanced_entry) = Ok unbalanced_entry
  /\ shlex_split unbalanced_entry = Raise ValueError
  /\ forall (w : world) (cfg : pyobj),
       _load_manifest H w = (Ok cfg, w) ->
       getitem cfg (str "entrypoint") = Ok (PStr unbalanced_entry) ->
       os_path_isfile H (_python_path H) w = (Ok true, w) ->
       run H w = (Raise ValueError, w).
Proof.
  split; [by vm_compute|]. split; [by vm_compute|].
  intros w cfg Hload Hentry Hpy.
  unfold run. rewrite M_bind_eq, Hload, M_bind_eq. unfold lift at 1.
  rewrite Hentry, M_bind_eq, Hpy. cbn [negb]. rewrite M_bind_eq.
  unfold lift.
  by replace (shlex_split unbalanced_entry)
    with (@Raise (list pystr) ValueError) by (by vm_compute).
Qed.

End EngineClaims.

(* ===================================================================== *)
(** * The properties on the example project *)
(* ===================================================================== *)

#[local] Instance PStr_inj : Inj (=) (=) PStr.
Proof. by intros s1 s2 [= ->]. Qed.

Lemma run_argv_witness :
  exists env,
    log (run (Demo.host Demo.helper_config) (Demo.world0 [])).2
    = [ESubprocess
         (PStr <$> [str "/proj/.irongantry_env/bin/python"; str "app.py";
                    str "--name=python_helper"])
         (Some env) false false].
Proof.
  destruct (run_argv (Demo.host Demo.helper_config) (Demo.world0 [])
              Demo.helper_config helper_entry
              [str "python3"; str "app.py"; str "--name=python_helper"])
    as (first & rest & env & _ & Hlog & _ & Hrest); [by vm_compute..|].
  exists env. rewrite Hlog, (Hrest eq_refl). reflexivity.
Defined.

(** With the unbalanced entrypoint the manifest is validated and the
    interpreter is present, and [run] produces no argument vector: it
    raises, and no call to the launcher is recorded. *)
Lemma run_argv_counterexample :
  _load_manifest (Demo.host Demo.unbalanced_config) (Demo.world0 [])
  = (Ok Demo.unbalanced_config, Demo.world0 [])
  /\ os_path_isfile (Demo.host Demo.unbalanced_config)
       (_python_path (Demo.host Demo.unbalanced_config)) (Demo.world0 [])
     = (Ok true, Demo.world0 [])
  /\ run (Demo.host Demo.unbalanced_config) (Demo.world0 [])
     = (Raise ValueError, Demo.world0 []).
Proof. by vm_compute. Qed.

Lemma build_installer_argv_witness :
  log (build (Demo.host Demo.packages_config) (Demo.world0 [])).2
  = [EVenvCreate ENV_DIR true false;
     ESubprocess
       (PStr <$> [str "/proj/.irongantry_env/bin/pip"; str "install";
                  str "--"; str "requests"; str "flask>=2"])
       None true false].
Proof.
  destruct (build_installer_argv (Demo.host Demo.packages_config)
              (Demo.world0 []) Demo.packages_config)
    as (d & pkgs & Hd & Hpkgs & Hlog); [by vm_compute|].
  injection Hd as <-.
  assert (pkgs = [str "requests"; str "flask>=2"]) as ->.
  { destruct Hpkgs as [[Hnone _]|Hsome]; [by vm_compute in Hnone|].
    change (Some (PList (PStr <$> [str "requests"; str "flask>=2"]))
            = Some (PList (PStr <$> pkgs))) in Hsome.
    injection Hsome as Hsome. symmetry. by apply (inj (fmap PStr)). }
  rewrite Hlog. reflexivity.
Defined.

Lemma init_existing_manifest_witness :
  init (Demo.host Demo.plain_config) (PStr (str "demo"))
       (Demo.world0 (str "kept"))
  = (Raise FileExistsError, Demo.world0 (str "kept")).
Proof.
  apply (init_existing_manifest (Demo.host Demo.plain_config)
           (PStr (str "demo")) (str "demo")); by vm_compute.
Defined.

Lemma ship_excludes_witness :
  exists t members,
    fs_put (fs (Demo.world0 []))
           (resolve (Demo.host Demo.plain_config) (str "demo_shipped.zip"))
           (File (ZipArchive [])) = Some t
    /\ fs_lookup (fs (ship (Demo.host Demo.plain_config) (Demo.world0 [])).2)
                 (resolve (Demo.host Demo.plain_config)
                          (str "demo_shipped.zip"))
       = Some (File (ZipArchive members))
    /\ endswith (str "demo_shipped.zip") (str "_shipped.zip") = true
    /\ forall m, m ∈ members ->
         m = bootstrap_member
         \/ (exists arc src d,
               (arc, src) ∈ bundle_files (Demo.host Demo.plain_config)
               /\ m = ZMember arc (FromFile src)
               /\ fs_lookup t (resolve (Demo.host Demo.plain_config) src)
                  = Some (File d))
         \/ exists top,
              fs_lookup t (resolve (Demo.host Demo.plain_config) (str "."))
              = Some top
              /\ project_member (Demo.host Demo.plain_config) top m.
Proof.
  apply (ship_excludes (Demo.host Demo.plain_config) (Demo.world0 [])
           (ship (Demo.host Demo.plain_config) (Demo.world0 [])).2
           (str "demo_shipped.zip")).
  by vm_compute.
Defined.

(** With the engine installed in the environment of the project, the
    archive holds a file that lies under the environment directory: the
    bundled [engine.py], read from there. *)
Lemma ship_excludes_counterexample :
  exists members,
    ship (Examples.nested_host Demo.plain_config) Examples.nested_world
    = (Ok (str "demo_shipped.zip"),
       (ship (Examples.nested_host Demo.plain_config)
             Examples.nested_world).2)
    /\ fs_lookup
         (fs (ship (Examples.nested_host Demo.plain_config)
                   Examples.nested_world).2)
         (resolve (Examples.nested_host Demo.plain_config)
                  (str "demo_shipped.zip"))
       = Some (File (ZipArchive members))
    /\ ZMember (str "irongantry/engine.py")
               (FromFile (str "/proj/.irongantry_env/lib/irongantry/engine.py"))
       ∈ members
    /\ resolve (Examples.nested_host Demo.plain_config)
               (str "/proj/.irongantry_env/lib/irongantry/engine.py")
       = resolve (Examples.nested_host Demo.plain_config) (str ".")
         ++ [ENV_DIR; str "lib"; str "irongantry"; str "engine.py"]
    /\ ENV_DIR ∈ exclude_dirs.
Proof.
  eexists. split; [by vm_compute|]. split; [by vm_compute|].
  split; [|split; [by vm_compute|]].
  - apply list_elem_of_In. vm_compute. tauto.
  - unfold exclude_dirs. set_solver.
Qed.

Lemma validated_entrypoint_may_not_split_witness :
  run (Demo.host Demo.unbalanced_config) (Demo.world0 [])
  = (Raise ValueError, Demo.world0 []).
Proof.
  destruct (validated_entrypoint_may_not_split
              (Demo.host Demo.unbalanced_config)) as (_ & _ & Hrun).
  apply (Hrun (Demo.world0 []) Demo.unbalanced_config); by vm_compute.
Defined.

(* ===================================================================== *)
(** * More on the validators *)
(* ===================================================================== *)

Section MoreFields.

(** The first token of [split] is the first word. *)
Lemma split_from_first_word (s cur : pystr) :
  cur <> [] -> exists l, split_from s cur = (cur ++ first_word s) :: l.
Proof.
  revert cur. induction s as [|c s IH]; intros cur Hcur; simpl.
  - exists []. rewrite app_nil_r. by destruct cur.
  - destruct (isspace c).
    + exists (split_from s []). rewrite app_nil_r. by destruct cur.
    + destruct (IH (cur ++ [c])) as (l & ->); [by destruct cur|].
      exists l. by rewrite <- app_assoc.
Qed.

Lemma split_first_word (c : char) (v : pystr) :
  isspace c = false -> exists l, split (c :: v) = first_word (c :: v) :: l.
Proof.
  intros Hc. unfold split. simpl. rewrite Hc.
  apply (split_from_first_word v [c]). done.
Qed.

Lemma validate_entrypoint_first_word (s : pystr) :
  validate_entrypoint (PStr s)
  = if str_eqb (first_word (strip s)) (str "python")
       || str_eqb (first_word (strip s)) (str "python3")
    then Ok (strip s)
    else Raise ValueError.
Proof.
  unfold validate_entrypoint. destruct (strip s) as [|c v] eqn:E; [done|].
  apply strip_head in E as Hc.
  destruct (split_first_word c v Hc) as (l & ->). done.
Qed.

(** X2. [validate_entrypoint] is decided by the characters before the
    first whitespace of the stripped string: when they spell [python] or
    [python3] the stripped string is returned, otherwise [ValueError] is
    raised; indexing the split never fails. *)
Theorem validate_entrypoint_decided (s : pystr) :
  validate_entrypoint (PStr s)
  = if str_eqb (first_word (strip s)) (str "python")
       || str_eqb (first_word (strip s)) (str "python3")
    then Ok (strip s)
    else Raise ValueError.
Proof. apply validate_entrypoint_first_word. Qed.

Lemma validate_entrypoint_cases (v : pyobj) :
  (exists s, v = PStr s /\ validate_entrypoint v = Ok (strip s))
  \/ validate_entrypoint v = Raise ValueError.
Proof.
  destruct v as [s| | | | | | |]; try by right.
  rewrite validate_entrypoint_first_word. destruct (_ || _); eauto.
Qed.

Lemma alnum_not_dash (c : char) : cls_alnum c = true -> c <> chr "-".
Proof.
  unfold cls_alnum, in_range.
  repeat match goal with |- context [chr ?s] =>
    let v := eval vm_compute in (chr s) in change (chr s) with v end.
  rewrite !orb_true_iff, !andb_true_iff, !N.leb_le. lia.
Qed.

(** X3. A specifier [validate_package] accepts starts with a letter or a
    digit, so never with a dash, and has no whitespace at its ends. *)
Theorem validate_package_head (v : pyobj) (p : pystr) :
  validate_package v = Ok p ->
  exists c rest,
    p = c :: rest /\ cls_alnum c = true /\ c <> chr "-" /\ trimmed p.
Proof.
  destruct (validate_package_cases v) as [(s & -> & -> & Hg)| ->]; [|done].
  intros [= <-]. destruct Hg as (n & x & w & E & Hn & _).
  assert (exists c rest, strip s = c :: rest /\ cls_alnum c = true)
    as (c & rest & E' & Hc).
  { rewrite E.
    destruct Hn as [(c & -> & Hc)|(c & mid & d & -> & Hc & _)]; eauto. }
  exists c, rest. split_and!; [done..|by apply alnum_not_dash|].
  apply strip_trimmed.
Qed.

Lemma validate_package_head_witness :
  exists c rest,
    str "flask>=2" = c :: rest /\ cls_alnum c = true /\ c <> chr "-"
    /\ trimmed (str "flask>=2").
Proof.
  apply (validate_package_head (PStr (str "  flask>=2 "))). by vm_compute.
Defined.

(** X6. [validate_project_name] accepts exactly the strings made of one
    or more characters of [A-Za-z0-9_-], optionally followed by a single
    newline, and returns its argument; everything else, a value that is
    not a string included, raises [ValueError]. *)
Theorem validate_project_name_exact (v : pyobj) :
  (forall n, validate_project_name v = Ok n <->
     v = PStr n
     /\ ((n <> [] /\ forallb cls_project n = true)
         \/ exists w, n = w ++ [LF] /\ w <> []
                      /\ forallb cls_project w = true))
  /\ ((exists n, validate_project_name v = Ok n)
      \/ validate_project_name v = Raise ValueError).
Proof.
  split.
  - intros n. split.
    + intros Hv. apply validate_project_name_inv in Hv as Hn. subst v.
      split; [done|]. by apply validate_project_name_spec.
    + intros [-> Hn]. by apply validate_project_name_spec.
  - destruct (validate_project_name_cases v) as [(s & -> & E)|E]; eauto.
Qed.

Variable unicode_decimal : char -> bool.

Lemma lang_python_version (w : pystr) :
  lang (Cat (Plus (Cls unicode_decimal))
            (Cat (Lit (chr ".")) (Plus (Cls unicode_decimal)))) w
  <-> exists a b,
        w = a ++ chr "." :: b /\ a <> [] /\ b <> []
        /\ forallb unicode_decimal a = true
        /\ forallb unicode_decimal b = true.
Proof.
  split.
  - intros (a & w2 & -> & [Ha Hda]%lang_plus_cls
              & w3 & b & -> & ->%lang_lit & [Hb Hdb]%lang_plus_cls).
    exists a, b. done.
  - intros (a & b & -> & Ha & Hb & Hda & Hdb).
    apply lang_cat_intro; [by apply lang_plus_cls|].
    apply (lang_cat_intro _ _ [chr "."] b);
      [by apply lang_lit|by apply lang_plus_cls].
Qed.

Lemma re_match_python_version (s : pystr) :
  re_match (_PYTHON_VERSION_RE unicode_decimal) (strip s) = true
  <-> exists a b,
        strip s = a ++ chr "." :: b /\ a <> [] /\ b <> []
        /\ forallb unicode_decimal a = true
        /\ forallb unicode_decimal b = true.
Proof.
  unfold _PYTHON_VERSION_RE. rewrite re_match_anchored by done.
  rewrite <- lang_python_version. split; [|auto].
  intros [Hs|(w & E & _)]; [done|]. by apply strip_last in E.
Qed.

Lemma validate_python_version_cases (v : pyobj) :
  (exists s, v = PStr s
             /\ validate_python_version unicode_decimal v = Ok (strip s))
  \/ validate_python_version unicode_decimal v = Raise ValueError.
Proof.
  destruct v as [s| | | | | | |]; try by right.
  unfold validate_python_version.
  destruct (strip s) as [|c t] eqn:E; [by right|].
  destruct (re_match _ _); [left|by right]. exists s. by rewrite E.
Qed.

(** X1. [validate_python_version] accepts a string exactly when, stripped,
    it is one or more decimal digits, a dot, and one or more decimal
    digits; it then returns the stripped string, and otherwise raises
    [ValueError]. *)
Theorem validate_python_version_exact (s : pystr) :
  (validate_python_version unicode_decimal (PStr s) = Ok (strip s)
   <-> exists a b,
         strip s = a ++ chr "." :: b /\ a <> [] /\ b <> []
         /\ forallb unicode_decimal a = true
         /\ forallb unicode_decimal b = true)
  /\ (validate_python_version unicode_decimal (PStr s) = Ok (strip s)
      \/ validate_python_version unicode_decimal (PStr s)
         = Raise ValueError).
Proof.
  split.
  - rewrite <- re_match_python_version. unfold validate_python_version.
    destruct (strip s) as [|c t] eqn:E; [by split|].
    destruct (re_match _ _); by split.
  - destruct (validate_python_version_cases (PStr s))
      as [(s' & [= <-] & E)|E]; auto.
Qed.

Lemma comprehension_cases (pkgs : list pyobj) :
  (exists ps, pkgs = PStr <$> ps
              /\ comprehension validate_package pkgs
                 = Ok (strip <$> ps))
  \/ comprehension validate_package pkgs = Raise ValueError.
Proof.
  induction pkgs as [|v pkgs IH]; [left; by exists []|].
  cbn [comprehension].
  destruct (validate_package_cases v) as [(s & -> & -> & _)| ->]; [|by right].
  rewrite bind_Ok.
  destruct IH as [(ps & -> & ->)| ->]; [|by right].
  left. by exists (s :: ps).
Qed.

Lemma validate_dict_raise_inv (d : gmap pystr pyobj) (e : exn) :
  validate_manifest unicode_decimal (PDict d) = Raise e -> e = ValueError.
Proof.
  unfold validate_manifest. case_bool_decide; [|by intros [= <-]].
  cbn [negb]. destruct (d !! str "project") as [p|]; [|by intros [= <-]].
  destruct (validate_project_name_cases p) as [(n & -> & ->)| ->];
    [|by intros [= <-]].
  rewrite bind_Ok.
  destruct (d !! str "entrypoint") as [ep|]; [|by intros [= <-]].
  destruct (validate_entrypoint_cases ep) as [(s & -> & ->)| ->];
    [|by intros [= <-]].
  rewrite bind_Ok. unfold validate_python_field at 1.
  destruct (_ !! str "python") as [ver|].
  - destruct (validate_python_version_cases ver) as [(s' & -> & ->)| ->];
      [|by intros [= <-]].
    rewrite !bind_Ok. unfold validate_packages_field.
    destruct (_ !! str "packages") as [[| | | | |pkgs| |]|];
      try by intros [= <-].
    destruct (comprehension_cases pkgs) as [(ps & -> & ->)| ->]; [done|].
    by intros [= <-].
  - rewrite !bind_Ok. unfold validate_packages_field.
    destruct (_ !! str "packages") as [[| | | | |pkgs| |]|];
      try by intros [= <-].
    destruct (comprehension_cases pkgs) as [(ps & -> & ->)| ->]; [done|].
    by intros [= <-].
Qed.

(** What [validate_manifest] raises: [TypeError] for a mapping with a key
    that is not a string, [ValueError] for everything else it rejects. *)
Lemma validate_manifest_raise_inv (config : pyobj) (e : exn) :
  validate_manifest unicode_decimal config = Raise e ->
  (e = ValueError /\ forall d k v more, config <> PMixed d k v more)
  \/ (e = TypeError /\ exists d k v more, config = PMixed d k v more).
Proof.
  destruct config as [| | | | | |d|d k v more];
    try (intros [= <-]; left; split; [done|by intros]).
  - intros ->%validate_dict_raise_inv. left. split; [done|by intros].
  - intros [= <-]. right. split; [done|]. by exists d, k, v, more.
Qed.

(** X4. [validate_manifest] raises no exception but [ValueError] and
    [TypeError], and it raises [TypeError] exactly for a mapping that has
    a key that is not a string. *)
Theorem validate_manifest_raises (config : pyobj) :
  (forall e, validate_manifest unicode_decimal config = Raise e ->
             e = ValueError \/ e = TypeError)
  /\ (validate_manifest unicode_decimal config = Raise TypeError
      <-> exists d k v more, config = PMixed d k v more).
Proof.
  split.
  - intros e [[-> _]|[-> _]]%validate_manifest_raise_inv; auto.
  - split.
    + by intros [[? _]|[_ ?]]%validate_manifest_raise_inv.
    + by intros (d & k & v & more & ->).
Qed.

(** X5. A successful [validate_manifest] only strips: the result has the
    keys of the argument and the same project; the entrypoint and the
    Python version are the stripped strings of the argument, and the
    packages are the stripped strings of its list, in order. *)
Theorem validate_manifest_strips (d d' : gmap pystr pyobj) :
  validate_manifest unicode_decimal (PDict d) = Ok (PDict d') ->
  dom d' = dom d
  /\ d' !! str "project" = d !! str "project"
  /\ (exists e, d !! str "entrypoint" = Some (PStr e)
                /\ d' !! str "entrypoint" = Some (PStr (strip e)))
  /\ (d !! str "python" = None /\ d' !! str "python" = None
      \/ exists v, d !! str "python" = Some (PStr v)
                   /\ d' !! str "python" = Some (PStr (strip v)))
  /\ (d !! str "packages" = None /\ d' !! str "packages" = None
      \/ exists ps, d !! str "packages" = Some (PList (PStr <$> ps))
                    /\ d' !! str "packages"
                       = Some (PList (PStr <$> (strip <$> ps)))).
Proof.
  unfold validate_manifest. case_bool_decide; [|done]. cbn [negb].
  destruct (d !! str "project") as [p|] eqn:Hp; [|done].
  destruct (validate_project_name p) as [n|]; [|done]. rewrite bind_Ok.
  destruct (d !! str "entrypoint") as [ep|] eqn:Hep; [|done].
  destruct (validate_entrypoint_cases ep) as [(e & -> & ->)| ->]; [|done].
  rewrite bind_Ok.
  set (d1 := <[str "entrypoint" := PStr (strip e)]> d).
  assert (dom d1 = dom d) as Hdom1 by (apply dom_insert_lookup_L; eauto).
  assert (d1 !! str "python" = d !! str "python") as Hpy1
    by (by apply lookup_insert_ne).
  assert (d1 !! str "packages" = d !! str "packages") as Hpk1
    by (by apply lookup_insert_ne).
  destruct (validate_python_field unicode_decimal d1) as [d2|] eqn:H2;
    [|done].
  rewrite bind_Ok.
  destruct (validate_packages_field d2) as [d3|] eqn:H3; [|done].
  rewrite bind_Ok. intros [= <-].
  assert (dom d2 = dom d1
          /\ (forall k, k <> str "python" -> d2 !! k = d1 !! k)
          /\ (d1 !! str "python" = None /\ d2 !! str "python" = None
              \/ exists v, d1 !! str "python" = Some (PStr v)
                           /\ d2 !! str "python" = Some (PStr (strip v))))
    as (Hdom2 & Hk2 & Hv2).
  { revert H2. unfold validate_python_field.
    destruct (d1 !! str "python") as [ver|] eqn:Hver.
    - destruct (validate_python_version_cases ver) as [(v & -> & ->)| ->];
        [|done].
      rewrite bind_Ok. intros [= <-]. split_and!.
      + apply dom_insert_lookup_L. eauto.
      + intros k Hk. by rewrite lookup_insert_ne.
      + right. exists v. by rewrite lookup_insert_eq.
    - intros [= <-]. split_and!; [done..|]. by left. }
  assert (dom d3 = dom d2
          /\ (forall k, k <> str "packages" -> d3 !! k = d2 !! k)
          /\ (d2 !! str "packages" = None /\ d3 !! str "packages" = None
              \/ exists ps, d2 !! str "packages" = Some (PList (PStr <$> ps))
                            /\ d3 !! str "packages"
                               = Some (PList (PStr <$> (strip <$> ps)))))
    as (Hdom3 & Hk3 & Hv3).
  { revert H3. unfold validate_packages_field.
    destruct (d2 !! str "packages") as [[| | | | |pkgs| |]|] eqn:Hpkgs;
      try done.
    - destruct (comprehension_cases pkgs) as [(ps & -> & ->)| ->]; [|done].
      rewrite bind_Ok. intros [= <-]. split_and!.
      + apply dom_insert_lookup_L. eauto.
      + intros k Hk. by rewrite lookup_insert_ne.
      + right. exists ps. by rewrite lookup_insert_eq.
    - intros [= <-]. split_and!; [done..|]. by left. }
  split_and!.
  - by rewrite Hdom3, Hdom2.
  - rewrite Hk3, Hk2 by done. unfold d1. by rewrite lookup_insert_ne.
  - exists e. split; [done|]. rewrite Hk3, Hk2 by done.
    unfold d1. by rewrite lookup_insert_eq.
  - rewrite Hk3 by done. by rewrite <- Hpy1.
  - rewrite <- Hpk1, <- (Hk2 (str "packages")) by done. done.
Qed.

End MoreFields.

Lemma validate_manifest_strips_witness :
  exists e,
    Examples.padded_dict !! str "entrypoint" = Some (PStr e)
    /\ Examples.stripped_dict !! str "entrypoint" = Some (PStr (strip e)).
Proof.
  destruct (validate_manifest_strips (in_range "0" "9")
              Examples.padded_dict Examples.stripped_dict) as (_ & _ & He & _);
    [by vm_compute|exact He].
Defined.

(* ===================================================================== *)
(** * More on shell words *)
(* ===================================================================== *)

Section MoreLexer.

Lemma emit_raises (token : pystr) (quoted : bool)
    (next : result (list pystr)) (e : exn) :
  (forall e', next = Raise e' -> e' = ValueError) ->
  emit token quoted next = Raise e -> e = ValueError.
Proof.
  intros Hnext. unfold emit. destruct (_ && _); [done|].
  destruct next as [l|e']; [done|]. intros [= <-]. by apply Hnext.
Qed.

(** The lexer raises nothing but [ValueError]. *)
Lemma read_tokens_raises (inp : pystr) :
  forall state token quoted escapedstate e,
    read_tokens inp state token quoted escapedstate = Raise e ->
    e = ValueError.
Proof.
  induction inp as [|c inp IH]; intros state token quoted esc e.
  - destruct state; simpl; try (by intros [= <-]);
      by apply emit_raises.
  - destruct state as [| | |q|x]; cbn [read_tokens];
      repeat case_match; eauto using emit_raises.
Qed.

Lemma str_eqb_nil_snoc (cur : pystr) (c : char) :
  str_eqb (cur ++ [c]) [] = false.
Proof. unfold str_eqb. apply bool_decide_eq_false. by destruct cur. Qed.

(** Without quotes and backslashes the lexer cuts the string at blanks,
    tabs, carriage returns and newlines. *)
Lemma read_tokens_unquoted (inp : pystr) :
  unquoted inp = true ->
  forall esc,
    read_tokens inp StSpace [] false esc = Ok (fields_from inp [])
    /\ forall cur, cur <> [] ->
         read_tokens inp StWord cur false esc = Ok (fields_from inp cur).
Proof.
  induction inp as [|c inp IH]; intros Hinp esc.
  - split; [done|]. intros cur Hcur. simpl. unfold emit, str_eqb.
    rewrite bool_decide_eq_false_2 by done. by destruct cur.
  - change (unquoted (c :: inp))
      with (negb (char_in c QUOTES || char_in c ESCAPE) && unquoted inp)
      in Hinp.
    apply andb_true_iff in Hinp as [Hc Hinp].
    apply negb_true_iff, orb_false_iff in Hc as [Hq He].
    specialize (IH Hinp).
    assert ([c] <> []) as Hone by done.
    split.
    + cbn [read_tokens fields_from]. destruct (char_in c WHITESPACE).
      * cbn. apply IH.
      * rewrite He, Hq. destruct (is_wordchar c); by apply IH.
    + intros cur Hcur. cbn [read_tokens fields_from].
      destruct (char_in c WHITESPACE).
      * unfold str_eqb. rewrite bool_decide_eq_false_2 by done.
        cbn [negb orb]. unfold emit, str_eqb.
        rewrite bool_decide_eq_false_2 by done. cbn [negb andb].
        destruct (IH StSpace) as [-> _]. by destruct cur.
      * rewrite He, Hq. apply IH. by destruct cur.
Qed.

Lemma shlex_split_unquoted (s : pystr) :
  unquoted s = true -> shlex_split s = Ok (fields s).
Proof. intros Hs. by apply read_tokens_unquoted. Qed.

Lemma fields_from_unseparated (s cur : pystr) :
  unseparated s = true -> cur ++ s <> [] ->
  fields_from s cur = [cur ++ s].
Proof.
  revert cur. induction s as [|c s IH]; intros cur Hs Hne.
  - rewrite app_nil_r in *. by destruct cur.
  - change (unseparated (c :: s))
      with (negb (char_in c WHITESPACE) && unseparated s) in Hs.
    apply andb_true_iff in Hs as [Hc Hs].
    apply negb_true_iff in Hc. cbn [fields_from]. rewrite Hc.
    rewrite IH; [by rewrite <- app_assoc|done|by destruct cur].
Qed.

End MoreLexer.

(* ===================================================================== *)
(** * More on file trees *)
(* ===================================================================== *)

Section MoreTrees.

Lemma entry_set_entry_ne (name n : pystr) (c : node)
    (es : list (pystr * node)) :
  name <> n -> entry n (set_entry name c es) = entry n es.
Proof.
  intros Hne. induction es as [|[m c'] es IH]; simpl.
  - unfold str_eqb. by rewrite bool_decide_eq_false_2.
  - destruct (str_eqb name m) eqn:E; simpl.
    + apply str_eqb_true in E as <-.
      unfold str_eqb. by rewrite !bool_decide_eq_false_2.
    + destruct (str_eqb n m); [done|]. apply IH.
Qed.

Lemma entry_del_entry (name : pystr) (es : list (pystr * node)) :
  entry name (del_entry name es) = None.
Proof.
  unfold del_entry. induction es as [|[m c] es IH]; simpl; [done|].
  destruct (str_eqb name m) eqn:E; simpl; [done|]. by rewrite E.
Qed.

(** What was removed is no longer found. *)
Lemma fs_lookup_del (path : list pystr) :
  path <> [] -> forall t, fs_lookup (fs_del t path) path = None.
Proof.
  induction path as [|p ps IH]; [done|]. intros _ t.
  destruct t as [d|es]; [by destruct ps|].
  destruct ps as [|p' ps].
  - simpl. by rewrite entry_del_entry.
  - change (fs_del (Dir es) (p :: p' :: ps))
      with (match entry p es with
            | Some c => Dir (set_entry p (fs_del c (p' :: ps)) es)
            | None => Dir es
            end).
    destruct (entry p es) as [c|] eqn:E.
    + cbn [fs_lookup]. rewrite entry_set_entry. cbn [mbind option_bind].
      by apply IH.
    + cbn [fs_lookup]. by rewrite E.
Qed.

(** Putting a node at a path changes nothing at the paths that are not
    above or below it. *)
Lemma fs_lookup_put_other (p : list pystr) :
  forall q t new t',
    fs_put t p new = Some t' ->
    ~ p `prefix_of` q -> ~ q `prefix_of` p ->
    fs_lookup t' q = fs_lookup t q.
Proof.
  induction p as [|a ps IH]; intros q t new t' Hput Hpq Hqp; [done|].
  destruct q as [|b qs]; [destruct Hqp; apply prefix_nil|].
  destruct t as [d|es]; [by destruct ps|].
  destruct (decide (a = b)) as [<-|Hab].
  - destruct ps as [|a' ps].
    { destruct Hpq. by apply prefix_cons, prefix_nil. }
    revert Hput.
    change (fs_put (Dir es) (a :: a' :: ps) new)
      with (entry a es ≫= fun c =>
              fs_put c (a' :: ps) new ≫= fun c' =>
                Some (Dir (set_entry a c' es))).
    destruct (entry a es) as [c|] eqn:E; [|done].
    cbn [mbind option_bind].
    destruct (fs_put c (a' :: ps) new) as [c'|] eqn:Hc; [|done].
    cbn [mbind option_bind]. intros [= <-].
    cbn [fs_lookup]. rewrite entry_set_entry, E. cbn [mbind option_bind].
    apply (IH qs c new c' Hc).
    + intros Hpre. apply Hpq. by apply prefix_cons.
    + intros Hpre. apply Hqp. by apply prefix_cons.
  - assert (exists c', t' = Dir (set_entry a c' es)) as (c' & ->).
    { destruct ps as [|a' ps].
      - simpl in Hput. injection Hput as <-. eauto.
      - revert Hput.
        change (fs_put (Dir es) (a :: a' :: ps) new)
          with (entry a es ≫= fun c =>
                  fs_put c (a' :: ps) new ≫= fun c' =>
                    Some (Dir (set_entry a c' es))).
        destruct (entry a es) as [c|]; [|done]. cbn [mbind option_bind].
        destruct (fs_put c (a' :: ps) new) as [c'|]; [|done].
        cbn [mbind option_bind]. intros [= <-]. eauto. }
    cbn [fs_lookup]. by rewrite entry_set_entry_ne.
Qed.

End MoreTrees.

(* ===================================================================== *)
(** * More on the walk of [ship] *)
(* ===================================================================== *)

Section MoreWalk.

Context (H : Host).

Lemma dir_names (d : pystr) (c : node) (es : list (pystr * node)) :
  (d, c) ∈ es -> is_dir c = true ->
  In d (List.filter (fun e => is_dir e.2) es).*1.
Proof.
  intros Hin Hc. apply list_elem_of_In, list_elem_of_fmap.
  exists (d, c). split; [done|]. apply list_elem_of_In, filter_In.
  split; [by apply list_elem_of_In|done].
Qed.

Lemma has_file_is_dir (n : node) (ds : list pystr) (f : pystr) :
  has_file n ds f -> is_dir n = true.
Proof. by destruct 1. Qed.

(** The walk writes a member for every file that lies below directories
    that are not pruned and whose name is not excluded. *)
Lemma os_walk_ship_body_complete (n : node) (ds : list pystr) (f : pystr) :
  has_file n ds f ->
  Forall (fun d => ~ pruned d) ds ->
  existsb (endswith f) exclude_suffixes = false ->
  endswith f (str "_shipped.zip") = false ->
  forall top,
    ZMember (os_path_normpath H (os_path_join H (walk_path H top ds) f))
            (FromFile (os_path_join H (walk_path H top ds) f))
    ∈ os_walk H (ship_body H) top n.
Proof.
  intros Hfile Hds Hsuf Hzip.
  induction Hfile as [es f d Hin|es d c ds f Hc Hfile IH]; intros top;
    rewrite os_walk_dir; cbv zeta; unfold ship_body at 1 2; cbn [fst snd];
    apply elem_of_app.
  - left. apply list_elem_of_In, in_flat_map. exists f. split.
    + apply list_elem_of_In, list_elem_of_fmap. exists (f, File d).
      split; [done|]. apply list_elem_of_In, filter_In.
      split; [by apply list_elem_of_In|done].
    + rewrite Hsuf, Hzip. by left.
  - right. apply Forall_cons in Hds as [Hd Hds].
    apply list_elem_of_In, in_flat_map. exists d. split.
    + apply filter_In. split.
      * apply (dir_names d c); [by apply entry_elem_of|].
        by apply has_file_is_dir in Hfile.
      * apply andb_true_iff. split; apply negb_true_iff.
        -- apply bool_decide_eq_false. intros Hex. apply Hd. by left.
        -- apply not_true_iff_false. intros Hdot. apply Hd. by right.
    + rewrite Hc. apply list_elem_of_In. by apply IH.
Qed.

End MoreWalk.

(* ===================================================================== *)
(** * Decimal numbers *)
(* ===================================================================== *)

Section Decimal.

Lemma pretty_N_char_digit (x : N) :
  in_range "0" "9" (N_of_ascii (pretty_N_char x)) = true.
Proof. unfold pretty_N_char. by repeat case_match. Qed.

Lemma pretty_N_go_digits (x : N) :
  forall s,
    forallb (in_range "0" "9") (str s) = true ->
    forallb (in_range "0" "9") (str (pretty_N_go x s)) = true.
Proof.
  induction (N.lt_wf_0 x) as [x _ IH]. intros s Hs.
  destruct (decide (x = 0)) as [->|Hx]; [by rewrite pretty_N_go_0|].
  rewrite pretty_N_go_step by lia. apply IH.
  - apply N.div_lt; lia.
  - cbn [str forallb]. by rewrite pretty_N_char_digit, Hs.
Qed.

Lemma pretty_N_go_nonempty (x : N) :
  forall s, s <> EmptyString -> pretty_N_go x s <> EmptyString.
Proof.
  induction (N.lt_wf_0 x) as [x _ IH]. intros s Hs.
  destruct (decide (x = 0)) as [->|Hx]; [by rewrite pretty_N_go_0|].
  rewrite pretty_N_go_step by lia. apply IH; [apply N.div_lt; lia|done].
Qed.

(** The decimal writing of a number is a non-empty string of digits. *)
Lemma pretty_N_digits (x : N) :
  str (pretty x) <> []
  /\ forallb (in_range "0" "9") (str (pretty x)) = true.
Proof.
  unfold pretty, pretty_N. destruct (decide (x = 0)) as [->|Hx]; [done|].
  split; [|by apply pretty_N_go_digits].
  rewrite pretty_N_go_step by lia.
  assert (pretty_N_go (x `div` 10)
            (String (pretty_N_char (x `mod` 10)) EmptyString)
          <> EmptyString) as Hne by (by apply pretty_N_go_nonempty).
  by destruct (pretty_N_go _ _).
Qed.

End Decimal.

(* ===================================================================== *)
(** * Further properties of the engine *)
(* ===================================================================== *)

Section MoreEngine.

Context (H : Host).

Lemma has_nul_pip_argv (l : list pyobj) :
  has_nul l = true -> has_nul (pip_argv H l) = true.
Proof.
  intros Hl. unfold pip_argv, has_nul in *.
  by rewrite existsb_app, Hl, orb_true_r.
Qed.

(** [run] with an entrypoint that splits, the interpreter being
    present. *)
Lemma run_split (w : world) (cfg : pyobj) (entry first : pystr)
    (rest : list pystr) :
  _load_manifest H w = (Ok cfg, w) ->
  getitem cfg (str "entrypoint") = Ok (PStr entry) ->
  os_path_isfile H (_python_path H) w = (Ok true, w) ->
  shlex_split entry = Ok (first :: rest) ->
  run H w
  = subprocess_run H (run_argv_of H rest)
                   (Some (run_environment H (environ w))) false w.
Proof.
  intros Hload Hentry [d Hpy]%isfile_true Hsplit.
  destruct (run_loaded H w cfg Hload) as (e & He & _ & ->).
  rewrite He in Hentry. injection Hentry as ->.
  by rewrite Hpy, Hsplit.
Qed.

(** The child of [run] starts. *)
Lemma run_started (w : world) (rest : list pystr) :
  has_nul (run_argv_of H rest) = false ->
  launch_error H (run_argv_of H rest) (run_environment H (environ w))
               (fs w) = None ->
  subprocess_run H (run_argv_of H rest)
                 (Some (run_environment H (environ w))) false w
  = (Ok (), launched H w rest).
Proof.
  intros Hnul Hstart. by rewrite subprocess_run_started.
Qed.

(** A validated entrypoint without quotes and backslashes splits into
    its fields, of which there is at least one. *)
Lemma unquoted_split (entry : pystr) :
  validate_entrypoint (PStr entry) = Ok entry ->
  unquoted entry = true ->
  exists first,
    shlex_split entry = Ok (first :: tail (fields entry)).
Proof.
  intros Hval Hplain. rewrite (shlex_split_unquoted entry Hplain).
  destruct (fields entry) as [|first rest] eqn:Hf; [|by exists first].
  destruct (shlex_split_nonempty _ _ [] Hval); [|done].
  by rewrite (shlex_split_unquoted entry Hplain), Hf.
Qed.

(** X7. For a loaded manifest whose entrypoint holds no quote and no
    backslash, with the interpreter present, [run] calls the launcher
    with the interpreter and the fields of the entrypoint after the first
    one, the fields being cut at blanks, tabs, carriage returns and
    newlines; when no argument holds a NUL and the launcher starts the
    child, [run] returns after the child has run. *)
Theorem run_unquoted_entrypoint (w : world) (cfg : pyobj) (entry : pystr) :
  _load_manifest H w = (Ok cfg, w) ->
  getitem cfg (str "entrypoint") = Ok (PStr entry) ->
  os_path_isfile H (_python_path H) w = (Ok true, w) ->
  unquoted entry = true ->
  run H w
  = subprocess_run H (run_argv_of H (tail (fields entry)))
                   (Some (run_environment H (environ w))) false w
  /\ (has_nul (run_argv_of H (tail (fields entry))) = false ->
      launch_error H (run_argv_of H (tail (fields entry)))
                   (run_environment H (environ w)) (fs w) = None ->
      run H w = (Ok (), launched H w (tail (fields entry)))).
Proof.
  intros Hload Hentry Hpy Hplain.
  destruct (run_loaded H w cfg Hload) as (e & He & Hval & _).
  assert (e = entry) as -> by congruence.
  destruct (unquoted_split entry Hval Hplain) as [first Hsplit].
  rewrite (run_split w cfg entry first _ Hload Hentry Hpy Hsplit).
  split; [done|]. apply run_started.
Qed.

(** X8. The validator separates the first word at any Unicode
    whitespace, the lexer only at blanks, tabs, carriage returns and
    newlines: an entrypoint of a loaded manifest that holds none of these
    four, no quote and no backslash is one shell word, and [run] calls
    the launcher with the bare interpreter, without the arguments that
    follow another kind of whitespace; when the path of the interpreter
    holds no NUL and the launcher starts the child, [run] returns after
    the child has run. *)
Theorem run_bare_interpreter (w : world) (cfg : pyobj) (entry : pystr) :
  _load_manifest H w = (Ok cfg, w) ->
  getitem cfg (str "entrypoint") = Ok (PStr entry) ->
  os_path_isfile H (_python_path H) w = (Ok true, w) ->
  unquoted entry = true -> unseparated entry = true ->
  run H w
  = subprocess_run H (run_argv_of H [])
                   (Some (run_environment H (environ w))) false w
  /\ (has_nul (run_argv_of H []) = false ->
      launch_error H (run_argv_of H []) (run_environment H (environ w))
                   (fs w) = None ->
      run H w = (Ok (), launched H w [])).
Proof.
  intros Hload Hentry Hpy Hplain Hsep.
  destruct (run_loaded H w cfg Hload) as (e & He & Hval & _).
  assert (e = entry) as -> by congruence.
  destruct (unquoted_split entry Hval Hplain) as [first Hsplit].
  assert (tail (fields entry) = []) as Hone.
  { unfold fields. rewrite (fields_from_unseparated entry [] Hsep); [done|].
    apply validate_entrypoint_inv in Hval as (_ & _ & _ & _ & rest & ->).
    done. }
  rewrite Hone in Hsplit.
  rewrite (run_split w cfg entry first _ Hload Hentry Hpy Hsplit).
  split; [done|]. apply run_started.
Qed.

(** X9. When the manifest does not load, [build], [run] and [ship] raise
    the exception of the load and leave the world as it was: nothing is
    removed, created or launched. *)
Theorem load_failure_aborts (w w' : world) (e : exn) :
  _load_manifest H w = (Raise e, w') ->
  w' = w
  /\ build H w = (Raise e, w)
  /\ run H w = (Raise e, w)
  /\ ship H w = (Raise e, w).
Proof.
  intros Hload. destruct (load_manifest_inv H w w' _ Hload) as [-> _].
  unfold build, run, ship. by rewrite !M_bind_eq, !Hload.
Qed.

(** X11. With a loaded manifest, [run] either raises
    [FileNotFoundError] (the interpreter is missing) or [ValueError]
    (the entrypoint does not split) and leaves the world as it was, or
    makes one call to the launcher, with an argument vector that starts
    with the interpreter, and ends as that call ends. *)
Theorem run_outcomes (w : world) (cfg : pyobj) :
  _load_manifest H w = (Ok cfg, w) ->
  (run H w = (Raise FileNotFoundError, w)
   /\ forall d,
        fs_lookup (fs w) (resolve H (_python_path H)) <> Some (File d))
  \/ (exists d,
        fs_lookup (fs w) (resolve H (_python_path H)) = Some (File d))
     /\ (run H w = (Raise ValueError, w)
         \/ exists rest,
              run H w
              = subprocess_run H (run_argv_of H rest)
                  (Some (run_environment H (environ w))) false w).
Proof.
  intros Hload.
  destruct (run_loaded H w cfg Hload) as (entry & _ & Hval & ->).
  destruct (fs_lookup (fs w) (resolve H (_python_path H))) as [[d|es]|];
    [|by left..].
  right. split; [by exists d|].
  destruct (shlex_split entry) as [[|first rest]|e] eqn:Hsplit.
  - by destruct (shlex_split_nonempty _ _ [] Hval).
  - right. by exists rest.
  - left. by rewrite (read_tokens_raises _ _ _ _ _ _ Hsplit).
Qed.

(** X12. The entrypoint that [run] launches gets a copy of [os.environ]
    in which [VIRTUAL_ENV] is the absolute path of the environment and
    [PATH] starts with its executable directory, the one of the
    interpreter, followed by the separator and the old [PATH] (nothing
    when it was unset); every other variable is inherited, and
    [os.environ] itself is unchanged. *)
Theorem run_child_environment (w : world) (rest : list pystr) :
  run H w = (Ok (), launched H w rest) ->
  exists argv env bin,
    log (run H w).2 = log w ++ [ESubprocess argv (Some env) false false]
    /\ bin = os_path_join H (os_path_abspath H ENV_DIR) (_bin_dir H)
    /\ (exists py_name, _python_path H = os_path_join H bin py_name)
    /\ env !! str "VIRTUAL_ENV" = Some (os_path_abspath H ENV_DIR)
    /\ env !! str "PATH"
       = Some (bin ++ os_pathsep H
               ++ match environ w !! str "PATH" with
                  | Some p => p
                  | None => []
                  end)
    /\ (forall k, k <> str "VIRTUAL_ENV" -> k <> str "PATH" ->
          env !! k = environ w !! k)
    /\ environ (run H w).2 = environ w.
Proof.
  intros ->. eexists _, (run_environment H (environ w)), _.
  cbn [snd launched log environ]. split; [done|]. split; [done|].
  split; [by eexists|]. unfold run_environment. cbv zeta. split_and!.
  - rewrite lookup_insert_ne by done. by rewrite lookup_insert_eq.
  - rewrite lookup_insert_eq. by rewrite lookup_insert_ne.
  - intros k Hv Hp. by rewrite !lookup_insert_ne.
  - done.
Qed.

(** [build] with a non-empty package list: one call of the installer in
    the world with the new environment. *)
Lemma build_packages (w : world) (d : gmap pystr pyobj)
    (pkgs : list pystr) :
  _load_manifest H w = (Ok (PDict d), w) ->
  d !! str "packages" = Some (PList (PStr <$> pkgs)) ->
  pkgs <> [] ->
  build H w
  = subprocess_run H (pip_argv H (PStr <$> pkgs)) None true (created H w).
Proof.
  intros Hload Hpkgs Hne.
  assert (Inj (=) (=) PStr) as HPStr by (by intros ?? [= ->]).
  destruct (build_loaded H w _ Hload) as (d' & pkgs' & [= <-] & Hd & ->).
  destruct Hd as [[Hd _]|Hd]; [congruence|].
  rewrite Hpkgs in Hd. injection Hd as Hd.
  apply (inj (fmap PStr)) in Hd as <-. by destruct pkgs.
Qed.

(** The installer starts. *)
Lemma installer_started (w : world) (l : list pyobj) :
  has_nul (pip_argv H l) = false ->
  launch_error H (pip_argv H l) (environ w) (fs (created H w)) = None ->
  subprocess_run H (pip_argv H l) None true (created H w)
  = (if (installer_code H w l =? 0)%Z then Ok ()
     else Raise CalledProcessError,
     installed H w l).
Proof.
  intros Hnul Hstart. rewrite subprocess_run_started by done.
  unfold installer_code, installed. cbn [created environ fs log andb].
  by destruct (_ =? _)%Z.
Qed.

(** X13. With a loaded manifest and a non-empty package list, [build]
    recreates the environment and calls the installer; when no argument
    holds a NUL and the launcher starts the installer, [build] returns
    if the installer returns the code 0 and raises [CalledProcessError]
    otherwise, and in both cases the new environment and what the
    installer did stay. *)
Theorem build_installer_failure (w : world) (d : gmap pystr pyobj)
    (pkgs : list pystr) :
  _load_manifest H w = (Ok (PDict d), w) ->
  d !! str "packages" = Some (PList (PStr <$> pkgs)) ->
  pkgs <> [] ->
  has_nul (pip_argv H (PStr <$> pkgs)) = false ->
  launch_error H (pip_argv H (PStr <$> pkgs)) (environ w)
               (fs (created H w)) = None ->
  build H w
  = (if (installer_code H w (PStr <$> pkgs) =? 0)%Z
     then Ok ()
     else Raise CalledProcessError,
     installed H w (PStr <$> pkgs)).
Proof.
  intros Hload Hpkgs Hne Hnul Hstart.
  rewrite (build_packages w d pkgs Hload Hpkgs Hne).
  by apply installer_started.
Qed.

(** Where the call of the installer leaves the world. *)
Lemma installer_world (w : world) (l : list pyobj) :
  (subprocess_run H (pip_argv H l) None true (created H w)).2
  = installed H w l
  \/ (subprocess_run H (pip_argv H l) None true (created H w)).2
     = attempted H w l.
Proof.
  unfold subprocess_run. cbv zeta. destruct (has_nul _); [by right|].
  destruct (launch_error H _ _ _); [by right|]. left.
  unfold installed. cbn [created environ fs log].
  by destruct (run_process H _ _ _).
Qed.

(** X14. [build] rebuilds from scratch: with a loaded manifest, the file
    system handed to [venv.create] has no directory at the path of the
    environment, whatever was there before, and [build] ends in the
    world built on it: with the new environment only, or after the
    installer ran, or after the call of the installer raised before a
    process ran. *)
Theorem build_clears_environment (w : world) (cfg : pyobj) :
  _load_manifest H w = (Ok cfg, w) ->
  resolve H ENV_DIR <> [] ->
  (forall es,
     fs_lookup (cleared H (fs w)) (resolve H ENV_DIR) <> Some (Dir es))
  /\ fs (created H w) = venv_create H ENV_DIR (cleared H (fs w))
  /\ ((build H w).2 = created H w
      \/ exists l, (build H w).2 = installed H w l
                   \/ (build H w).2 = attempted H w l
                      /\ fs (attempted H w l) = fs (created H w)).
Proof.
  intros Hload Hpath. split_and!.
  - intros es. unfold cleared.
    destruct (fs_lookup (fs w) (resolve H ENV_DIR)) as [[?|?]|] eqn:E;
      rewrite ?E; try done.
    by rewrite fs_lookup_del.
  - done.
  - destruct (build_loaded H w _ Hload) as (d & pkgs & _ & _ & ->).
    destruct pkgs as [|p pkgs]; [by left|right].
    exists (PStr <$> p :: pkgs).
    destruct (installer_world w (PStr <$> p :: pkgs)) as [E|E]; auto.
Qed.

(** X15. For a valid name, when nothing is at the path of the manifest,
    its directory exists and the process may write there, [init] returns
    after writing the manifest text at that path, in UTF-8 and with
    every newline written as [os.linesep]; it calls no collaborator, and
    the file is then found there. *)
Theorem init_creates_manifest (name : pyobj) (n : pystr) (w : world)
    (t : node) :
  validate_project_name name = Ok n ->
  os_path_exists H MANIFEST w = (Ok false, w) ->
  writable H (resolve H MANIFEST) = true ->
  fs_put (fs w) (resolve H MANIFEST)
         (File (Bytes (utf8_encode (text_mode H (manifest_text H n)))))
  = Some t ->
  init H name w = (Ok (), World t (environ w) (log w))
  /\ fs_lookup t (resolve H MANIFEST)
     = Some (File (Bytes (utf8_encode (text_mode H (manifest_text H n))))).
Proof.
  intros Hname Hex Hw Hput.
  split; [|by apply (fs_lookup_put _ _ _ _ Hput)].
  rewrite init_eq, Hname. revert Hex. unfold os_path_exists.
  intros [= ->]. by rewrite Hput, Hw.
Qed.

(** X24. A NUL in an argument stops [run] at the launcher: when the
    manifest loads, the interpreter is present and the entrypoint splits
    into words of which one, after the first, holds a NUL, [run] raises
    [ValueError] at the call to the launcher, no process runs, and [main]
    exits with the status 1. *)
Theorem run_nul_argument (w : world) (cfg : pyobj) (entry first : pystr)
    (rest : list pystr) :
  _load_manifest H w = (Ok cfg, w) ->
  getitem cfg (str "entrypoint") = Ok (PStr entry) ->
  os_path_isfile H (_python_path H) w = (Ok true, w) ->
  shlex_split entry = Ok (first :: rest) ->
  has_nul (PStr <$> rest) = true ->
  run H w = (Raise ValueError, refused H w rest)
  /\ main H (Some CmdRun) w = (SystemExit 1, refused H w rest).
Proof.
  intros Hload Hentry Hpy Hsplit Hnul.
  assert (run H w = (Raise ValueError, refused H w rest)) as Hrun.
  { rewrite (run_split w cfg entry first rest Hload Hentry Hpy Hsplit).
    apply subprocess_run_nul. unfold run_argv_of. rewrite fmap_cons.
    unfold has_nul in *. cbn [existsb]. by rewrite Hnul, orb_true_r. }
  split; [done|]. unfold main, dispatch. by rewrite Hrun.
Qed.

(** X25. A NUL in a package specifier stops [build] at the installer:
    with a loaded manifest of which a package holds a NUL, [build]
    removes the old environment, creates the new one and raises
    [ValueError] at the call of the installer, which does not run. *)
Theorem build_nul_package (w : world) (d : gmap pystr pyobj)
    (pkgs : list pystr) :
  _load_manifest H w = (Ok (PDict d), w) ->
  d !! str "packages" = Some (PList (PStr <$> pkgs)) ->
  has_nul (PStr <$> pkgs) = true ->
  build H w = (Raise ValueError, attempted H w (PStr <$> pkgs)).
Proof.
  intros Hload Hpkgs Hnul.
  assert (pkgs <> []) as Hne by (by intros ->).
  rewrite (build_packages w d pkgs Hload Hpkgs Hne).
  by apply subprocess_run_nul, has_nul_pip_argv.
Qed.

End MoreEngine.

(* ===================================================================== *)
(** * The manifest [init] writes, and the archive [ship] writes *)
(* ===================================================================== *)

Section MoreManifest.

Variable unicode_decimal : char -> bool.

Lemma digit_cls_pkg (c : char) : in_range "0" "9" c = true -> cls_pkg c = true.
Proof.
  intros Hc. unfold cls_pkg, cls_alnum. rewrite Hc.
  by rewrite orb_true_r.
Qed.

Lemma strip_nonspace (s : pystr) :
  forallb (fun c => negb (isspace c)) s = true -> strip s = s.
Proof.
  intros Hs. unfold strip.
  assert (lstrip s = s) as ->.
  { destruct s as [|c s]; [done|]. simpl in Hs.
    apply andb_true_iff in Hs as [Hc _]. apply negb_true_iff in Hc.
    by apply lstrip_nonspace. }
  rewrite <- (app_nil_r s) at 1. rewrite rstrip_app_nonspace by done.
  by rewrite app_nil_r.
Qed.

(** Two runs of ASCII digits around a dot are a version, when the
    digits of the pattern include the ASCII ones. *)
Lemma validate_python_version_accepts (a b : pystr) :
  (forall c, in_range "0" "9" c = true -> unicode_decimal c = true) ->
  a <> [] -> b <> [] ->
  forallb (in_range "0" "9") a = true ->
  forallb (in_range "0" "9") b = true ->
  validate_python_version unicode_decimal (PStr (a ++ chr "." :: b))
  = Ok (a ++ chr "." :: b).
Proof.
  intros Hud Ha Hb Hda Hdb.
  assert (forall l, forallb (in_range "0" "9") l = true ->
                    forallb cls_pkg l = true) as Hpkg.
  { intros l. rewrite !forallb_forall. intros Hl c Hc.
    by apply digit_cls_pkg, Hl. }
  assert (forall l, forallb (in_range "0" "9") l = true ->
                    forallb unicode_decimal l = true) as Hdec.
  { intros l. rewrite !forallb_forall. intros Hl c Hc. by apply Hud, Hl. }
  assert (strip (a ++ chr "." :: b) = a ++ chr "." :: b) as Hstrip.
  { apply strip_nonspace, forallb_pkg_nonspace.
    rewrite forallb_app. cbn [forallb].
    rewrite (Hpkg a Hda), (Hpkg b Hdb). by vm_compute. }
  assert (re_match (_PYTHON_VERSION_RE unicode_decimal)
                   (strip (a ++ chr "." :: b)) = true) as Hre.
  { apply re_match_python_version. exists a, b. rewrite Hstrip.
    split_and!; auto. }
  unfold validate_python_version. rewrite Hstrip in *.
  destruct (a ++ chr "." :: b) as [|c s] eqn:E; [by destruct a|].
  by rewrite Hre.
Qed.

End MoreManifest.

Section MoreInit.

Context (H : Host).

(** A successful [init] wrote the manifest for the validated name. *)
Lemma init_inv (name : pyobj) (w w' : world) :
  init H name w = (Ok (), w') ->
  exists n t,
    validate_project_name name = Ok n
    /\ fs_put (fs w) (resolve H MANIFEST)
              (File (Bytes (utf8_encode (text_mode H (manifest_text H n)))))
       = Some t
    /\ w' = World t (environ w) (log w).
Proof.
  rewrite init_eq.
  destruct (validate_project_name name) as [n|e]; [|done].
  case_bool_decide; [done|].
  destruct (fs_put (fs w) (resolve H MANIFEST) _) as [t|] eqn:Hput; [|done].
  destruct (writable H _); [|done]. intros [= <-]. by exists n, t.
Qed.

Lemma fresh_manifest_validated (n : pystr) :
  (forall c, in_range "0" "9" c = true -> unicode_decimal H c = true) ->
  validate_project_name (PStr n) = Ok n ->
  validate_manifest (unicode_decimal H) (fresh_manifest H n)
  = Ok (fresh_manifest H n).
Proof.
  intros Hud Hn. apply validate_manifest_fix. split_and!.
  - rewrite !dom_insert_L, dom_singleton_L. unfold _ALLOWED_MANIFEST_KEYS.
    intros k. rewrite !elem_of_union, !elem_of_singleton. tauto.
  - exists n. by rewrite lookup_insert_eq.
  - exists (str "python main.py"). split; [|by vm_compute].
    rewrite !lookup_insert_ne by done. by rewrite lookup_singleton_eq.
  - unfold python_ok. rewrite lookup_insert_ne by done.
    rewrite lookup_insert_eq. eexists. split; [done|].
    destruct (pretty_N_digits (version_info H).1) as [Ha Hda].
    destruct (pretty_N_digits (version_info H).2) as [Hb Hdb].
    by apply validate_python_version_accepts.
  - unfold packages_ok. rewrite !lookup_insert_ne by done.
    rewrite lookup_insert_eq. by exists [].
Qed.

(** X16. The manifest [init] writes loads: when the digits of the
    version pattern include the ASCII ones, the written file may be read
    and the parser reads the written bytes as the table they spell out,
    [_load_manifest] after a successful [init] returns that table, with
    the project name given, the version of the running interpreter, no
    packages and the entrypoint [python main.py]. *)
Theorem init_then_load (name : pyobj) (n : pystr) (w w' : world) :
  (forall c, in_range "0" "9" c = true -> unicode_decimal H c = true) ->
  init H name w = (Ok (), w') ->
  validate_project_name name = Ok n ->
  readable H (resolve H MANIFEST) = true ->
  tomllib_load H (Bytes (utf8_encode (text_mode H (manifest_text H n))))
  = Ok (fresh_manifest H n) ->
  _load_manifest H w' = (Ok (fresh_manifest H n), w').
Proof.
  intros Hud Hinit Hname Hread Hparse.
  destruct (init_inv name w w' Hinit) as (n' & t & Hn & Hput & ->).
  assert (n' = n) as -> by congruence.
  apply fs_lookup_put in Hput.
  rewrite load_manifest_eq. cbn [fs]. rewrite Hput, Hread, Hparse, bind_Ok.
  assert (name = PStr n) as -> by by apply validate_project_name_inv.
  by rewrite fresh_manifest_validated.
Qed.

(** X17. A successful [ship] calls no collaborator and leaves
    [os.environ] as it was, and it changes the file system at the path of
    the archive only: a path that is neither below that path nor above
    it leads to what it led to before. *)
Theorem ship_frame (w w' : world) (filename : pystr) :
  ship H w = (Ok filename, w') ->
  log w' = log w
  /\ environ w' = environ w
  /\ forall q,
       ~ resolve H filename `prefix_of` q ->
       ~ q `prefix_of` resolve H filename ->
       fs_lookup (fs w') q = fs_lookup (fs w) q.
Proof.
  intros (t & t' & Hput & Hput' & ->)%ship_inv. split_and!; [done..|].
  intros q Hpq Hqp. cbn [fs].
  rewrite (fs_lookup_put_other _ _ _ _ _ Hput' Hpq Hqp).
  by rewrite (fs_lookup_put_other _ _ _ _ _ Hput Hpq Hqp).
Qed.

(** X18. The archive of a successful [ship] holds the bootstrap script
    and, for every file of the project tree that lies below directories
    none of which is pruned, and whose name ends neither with an excluded
    suffix nor with [_shipped.zip], the member read from that file under
    its normalised path. *)
Theorem ship_includes (w w' : world) (filename : pystr) :
  ship H w = (Ok filename, w') ->
  exists t members,
    fs_put (fs w) (resolve H filename) (File (ZipArchive [])) = Some t
    /\ fs_lookup (fs w') (resolve H filename)
       = Some (File (ZipArchive members))
    /\ bootstrap_member ∈ members
    /\ forall top ds f,
         fs_lookup t (resolve H (str ".")) = Some top ->
         has_file top ds f ->
         Forall (fun d => ~ pruned d) ds ->
         existsb (endswith f) exclude_suffixes = false ->
         endswith f (str "_shipped.zip") = false ->
         member_of H ds f ∈ members.
Proof.
  intros (t & t' & Hput & Hput' & ->)%ship_inv.
  exists t. eexists. split; [done|].
  split; [by apply (fs_lookup_put _ _ _ _ Hput')|]. split.
  - rewrite !elem_of_app. right. right. by apply list_elem_of_singleton.
  - intros top ds f Htop Hfile Hds Hsuf Hzip.
    apply elem_of_app. left. unfold user_members. rewrite Htop.
    by apply os_walk_ship_body_complete.
Qed.

End MoreInit.

(* ===================================================================== *)
(** * Properties of the command line *)
(* ===================================================================== *)

Section MoreCli.

Context (H : Host).

Lemma dispatch_load_failure (c : command) (w : world) (e : exn) :
  loads c -> _load_manifest H w = (Raise e, w) ->
  dispatch H c w = (Raise e, w).
Proof.
  intros Hc Hload. unfold dispatch, build, run, ship.
  destruct Hc as [->|[->| ->]]; by rewrite !M_bind_eq, ?Hload.
Qed.

(** X19. Once the arguments are parsed, [build], [run] and [ship] in a
    directory without a manifest file exit with the status 1 and change
    nothing: no environment is removed or created and no process is
    launched. *)
Theorem main_without_manifest (c : command) (w : world) :
  loads c ->
  (forall d, fs_lookup (fs w) (resolve H MANIFEST) <> Some (File d)) ->
  main H (Some c) w = (SystemExit 1, w).
Proof.
  intros Hc Hno.
  assert (_load_manifest H w = (Raise FileNotFoundError, w)) as Hload.
  { destruct (load_manifest_cases H w) as [[_ ->]|(d & Hd & _)]; [done|].
    by destruct (Hno d). }
  unfold main. by rewrite (dispatch_load_failure c w _ Hc Hload).
Qed.

(** X20. [main] does not catch the failure of the installer: with a
    loaded manifest, a non-empty package list without a NUL and an
    installer that starts and returns a code other than 0, the [build]
    command ends with [CalledProcessError] propagating out of [main],
    after the old environment was removed and the new one created. *)
Theorem main_build_installer_failure (w : world) (d : gmap pystr pyobj)
    (pkgs : list pystr) :
  _load_manifest H w = (Ok (PDict d), w) ->
  d !! str "packages" = Some (PList (PStr <$> pkgs)) ->
  pkgs <> [] ->
  has_nul (pip_argv H (PStr <$> pkgs)) = false ->
  launch_error H (pip_argv H (PStr <$> pkgs)) (environ w)
               (fs (created H w)) = None ->
  installer_code H w (PStr <$> pkgs) <> 0%Z ->
  main H (Some CmdBuild) w
  = (Propagates CalledProcessError, installed H w (PStr <$> pkgs)).
Proof.
  intros Hload Hpkgs Hne Hnul Hstart Hcode%Z.eqb_neq.
  unfold main, dispatch.
  rewrite (build_packages H w d pkgs Hload Hpkgs Hne).
  rewrite installer_started by done. by rewrite Hcode.
Qed.

(** X22. The [run] command drops the exit code of the entrypoint: when
    the manifest loads, the interpreter is present, the entrypoint
    splits, no argument holds a NUL and the launcher starts the child,
    [main] returns after the child has run, whatever code it returned. *)
Theorem main_run_returns (w : world) (cfg : pyobj) (entry first : pystr)
    (rest : list pystr) :
  _load_manifest H w = (Ok cfg, w) ->
  getitem cfg (str "entrypoint") = Ok (PStr entry) ->
  os_path_isfile H (_python_path H) w = (Ok true, w) ->
  shlex_split entry = Ok (first :: rest) ->
  has_nul (run_argv_of H rest) = false ->
  launch_error H (run_argv_of H rest) (run_environment H (environ w))
               (fs w) = None ->
  main H (Some CmdRun) w = (Returns, launched H w rest).
Proof.
  intros Hload Hentry Hpy Hsplit Hnul Hstart.
  unfold main, dispatch.
  rewrite (run_split H w cfg entry first rest Hload Hentry Hpy Hsplit).
  by rewrite run_started.
Qed.

(** X23. The [init] command refuses without side effect: with a name
    that does not validate, or with something at the path of the
    manifest, [main] exits with the status 1 and the world is as it
    was. *)
Theorem main_init_refuses (name : pystr) (w : world) :
  validate_project_name (PStr name) = Raise ValueError
  \/ is_Some (fs_lookup (fs w) (resolve H MANIFEST)) ->
  main H (Some (CmdInit name)) w = (SystemExit 1, w).
Proof.
  intros Hcase. unfold main, dispatch. rewrite init_eq.
  destruct (validate_project_name_cases (PStr name)) as [(n & _ & E)|E];
    rewrite E; [|done].
  destruct Hcase as [?|Hex]; [congruence|].
  by rewrite bool_decide_eq_true_2.
Qed.

(** X26. [main] does not catch [PermissionError]: when the manifest is a
    file that may not be read, [build], [run] and [ship] end with
    [PermissionError] propagating out of [main], and the world is as it
    was. *)
Theorem main_unreadable_manifest (c : command) (w : world) (data : fdata) :
  loads c ->
  fs_lookup (fs w) (resolve H MANIFEST) = Some (File data) ->
  readable H (resolve H MANIFEST) = false ->
  main H (Some c) w = (Propagates PermissionError, w).
Proof.
  intros Hc Hfile Hread.
  assert (_load_manifest H w = (Raise PermissionError, w)) as Hload
    by (by rewrite load_manifest_eq, Hfile, Hread).
  unfold main. by rewrite (dispatch_load_failure c w _ Hc Hload).
Qed.

End MoreCli.

(* ===================================================================== *)
(** * The properties on the example project *)
(* ===================================================================== *)

Lemma run_unquoted_entrypoint_witness :
  run (Demo.host Demo.helper_config) (Demo.world0 [])
  = (Ok (),
     launched (Demo.host Demo.helper_config) (Demo.world0 [])
              (tail (fields helper_entry))).
Proof.
  destruct (run_unquoted_entrypoint (Demo.host Demo.helper_config)
              (Demo.world0 []) Demo.helper_config helper_entry)
    as [_ Hrun]; [by vm_compute..|].
  apply Hrun; by vm_compute.
Defined.

Lemma run_bare_interpreter_witness :
  run (Demo.host (Demo.config Examples.vt_entry [])) (Demo.world0 [])
  = (Ok (),
     launched (Demo.host (Demo.config Examples.vt_entry []))
              (Demo.world0 []) []).
Proof.
  destruct (run_bare_interpreter
              (Demo.host (Demo.config Examples.vt_entry []))
              (Demo.world0 []) (Demo.config Examples.vt_entry [])
              Examples.vt_entry)
    as [_ Hrun]; [by vm_compute..|].
  apply Hrun; by vm_compute.
Defined.

Lemma load_failure_aborts_witness :
  Examples.bare_world = Examples.bare_world
  /\ build (Demo.host Demo.plain_config) Examples.bare_world
     = (Raise FileNotFoundError, Examples.bare_world)
  /\ run (Demo.host Demo.plain_config) Examples.bare_world
     = (Raise FileNotFoundError, Examples.bare_world)
  /\ ship (Demo.host Demo.plain_config) Examples.bare_world
     = (Raise FileNotFoundError, Examples.bare_world).
Proof.
  apply (load_failure_aborts (Demo.host Demo.plain_config)
           Examples.bare_world Examples.bare_world FileNotFoundError).
  by vm_compute.
Defined.

Lemma run_outcomes_witness :
  (run (Demo.host Demo.helper_config) (Demo.world0 [])
   = (Raise FileNotFoundError, Demo.world0 [])
   /\ forall d,
        fs_lookup (fs (Demo.world0 []))
          (resolve (Demo.host Demo.helper_config)
                   (_python_path (Demo.host Demo.helper_config)))
        <> Some (File d))
  \/ (exists d,
        fs_lookup (fs (Demo.world0 []))
          (resolve (Demo.host Demo.helper_config)
                   (_python_path (Demo.host Demo.helper_config)))
        = Some (File d))
     /\ (run (Demo.host Demo.helper_config) (Demo.world0 [])
         = (Raise ValueError, Demo.world0 [])
         \/ exists rest,
              run (Demo.host Demo.helper_config) (Demo.world0 [])
              = subprocess_run (Demo.host Demo.helper_config)
                  (run_argv_of (Demo.host Demo.helper_config) rest)
                  (Some (run_environment (Demo.host Demo.helper_config)
                           (environ (Demo.world0 []))))
                  false (Demo.world0 [])).
Proof.
  apply (run_outcomes (Demo.host Demo.helper_config) (Demo.world0 [])
           Demo.helper_config).
  by vm_compute.
Defined.

Lemma run_child_environment_witness :
  exists argv env,
    log (run (Demo.host Demo.helper_config) (Demo.world0 [])).2
    = [ESubprocess argv (Some env) false false]
    /\ env !! str "VIRTUAL_ENV" = Some (str "/proj/.irongantry_env")
    /\ env !! str "PATH"
       = Some (str "/proj/.irongantry_env/bin:/usr/bin").
Proof.
  destruct (run_child_environment (Demo.host Demo.helper_config)
              (Demo.world0 []) [str "app.py"; str "--name=python_helper"])
    as (argv & env & bin & Hlog & -> & _ & Hvenv & Hpath & _);
    [by vm_compute|].
  exists argv, env. split; [exact Hlog|]. split; [exact Hvenv|].
  rewrite Hpath. by vm_compute.
Defined.

Lemma build_installer_failure_witness :
  build (Examples.failing_host Demo.packages_config) (Demo.world0 [])
  = (Raise CalledProcessError,
     installed (Examples.failing_host Demo.packages_config) (Demo.world0 [])
               (PStr <$> [str "requests"; str "flask>=2"])).
Proof.
  rewrite (build_installer_failure
             (Examples.failing_host Demo.packages_config) (Demo.world0 [])
             {[ str "project" := PStr (str "demo");
                str "python" := PStr (str "3.12");
                str "packages"
                  := PList (PStr <$> [str "requests"; str "flask>=2"]);
                str "entrypoint" := PStr (str "python main.py") ]}
             [str "requests"; str "flask>=2"]);
    by vm_compute.
Defined.

Lemma build_clears_environment_witness :
  (forall es,
     fs_lookup (cleared (Demo.host Demo.plain_config) (fs (Demo.world0 [])))
               (resolve (Demo.host Demo.plain_config) ENV_DIR)
     <> Some (Dir es))
  /\ fs (created (Demo.host Demo.plain_config) (Demo.world0 []))
     = venv_create (Demo.host Demo.plain_config) ENV_DIR
         (cleared (Demo.host Demo.plain_config) (fs (Demo.world0 [])))
  /\ ((build (Demo.host Demo.plain_config) (Demo.world0 [])).2
      = created (Demo.host Demo.plain_config) (Demo.world0 [])
      \/ exists l,
           (build (Demo.host Demo.plain_config) (Demo.world0 [])).2
           = installed (Demo.host Demo.plain_config) (Demo.world0 []) l
           \/ (build (Demo.host Demo.plain_config) (Demo.world0 [])).2
              = attempted (Demo.host Demo.plain_config) (Demo.world0 []) l
              /\ fs (attempted (Demo.host Demo.plain_config)
                               (Demo.world0 []) l)
                 = fs (created (Demo.host Demo.plain_config)
                               (Demo.world0 []))).
Proof.
  apply (build_clears_environment (Demo.host Demo.plain_config)
           (Demo.world0 []) Demo.plain_config); by vm_compute.
Defined.

Lemma init_creates_manifest_witness :
  exists t,
    init (Demo.host Demo.plain_config) (PStr (str "demo"))
         Examples.bare_world
    = (Ok (), World t ∅ [])
    /\ fs_lookup t (resolve (Demo.host Demo.plain_config) MANIFEST)
       = Some (File (Bytes (utf8_encode
                              (text_mode (Demo.host Demo.plain_config)
                                 (manifest_text (Demo.host Demo.plain_config)
                                                (str "demo")))))).
Proof.
  eexists.
  apply (init_creates_manifest (Demo.host Demo.plain_config)
           (PStr (str "demo")) (str "demo") Examples.bare_world);
    [by vm_compute|by vm_compute|by vm_compute|].
  vm_compute. reflexivity.
Defined.

Lemma init_then_load_witness :
  _load_manifest (Demo.host Demo.plain_config)
    (init (Demo.host Demo.plain_config) (PStr (str "demo"))
          Examples.bare_world).2
  = (Ok (fresh_manifest (Demo.host Demo.plain_config) (str "demo")),
     (init (Demo.host Demo.plain_config) (PStr (str "demo"))
           Examples.bare_world).2).
Proof.
  apply (init_then_load (Demo.host Demo.plain_config) (PStr (str "demo"))
           (str "demo") Examples.bare_world).
  - intros c Hc. exact Hc.
  - by vm_compute.
  - by vm_compute.
  - by vm_compute.
  - by vm_compute.
Defined.

Lemma ship_frame_witness :
  log (ship (Demo.host Demo.plain_config) (Demo.world0 [])).2 = []
  /\ environ (ship (Demo.host Demo.plain_config) (Demo.world0 [])).2
     = environ (Demo.world0 [])
  /\ forall q,
       ~ resolve (Demo.host Demo.plain_config) (str "demo_shipped.zip")
         `prefix_of` q ->
       ~ q `prefix_of`
         resolve (Demo.host Demo.plain_config) (str "demo_shipped.zip") ->
       fs_lookup (fs (ship (Demo.host Demo.plain_config) (Demo.world0 [])).2) q
       = fs_lookup (fs (Demo.world0 [])) q.
Proof.
  apply (ship_frame (Demo.host Demo.plain_config) (Demo.world0 [])
           (ship (Demo.host Demo.plain_config) (Demo.world0 [])).2
           (str "demo_shipped.zip")).
  by vm_compute.
Defined.

Lemma ship_includes_witness :
  exists t members,
    fs_put (fs (Demo.world0 []))
           (resolve (Demo.host Demo.plain_config) (str "demo_shipped.zip"))
           (File (ZipArchive [])) = Some t
    /\ fs_lookup (fs (ship (Demo.host Demo.plain_config) (Demo.world0 [])).2)
                 (resolve (Demo.host Demo.plain_config)
                          (str "demo_shipped.zip"))
       = Some (File (ZipArchive members))
    /\ bootstrap_member ∈ members
    /\ forall top ds f,
         fs_lookup t (resolve (Demo.host Demo.plain_config) (str "."))
         = Some top ->
         has_file top ds f ->
         Forall (fun d => ~ pruned d) ds ->
         existsb (endswith f) exclude_suffixes = false ->
         endswith f (str "_shipped.zip") = false ->
         member_of (Demo.host Demo.plain_config) ds f ∈ members.
Proof.
  apply (ship_includes (Demo.host Demo.plain_config) (Demo.world0 [])
           (ship (Demo.host Demo.plain_config) (Demo.world0 [])).2
           (str "demo_shipped.zip")).
  by vm_compute.
Defined.

Lemma main_without_manifest_witness :
  main (Demo.host Demo.plain_config) (Some CmdBuild) Examples.bare_world
  = (SystemExit 1, Examples.bare_world).
Proof.
  apply (main_without_manifest (Demo.host Demo.plain_config) CmdBuild
           Examples.bare_world).
  - by left.
  - intros d. by vm_compute.
Defined.

Lemma main_build_installer_failure_witness :
  main (Examples.failing_host Demo.packages_config) (Some CmdBuild)
       (Demo.world0 [])
  = (Propagates CalledProcessError,
     installed (Examples.failing_host Demo.packages_config) (Demo.world0 [])
               (PStr <$> [str "requests"; str "flask>=2"])).
Proof.
  apply (main_build_installer_failure
           (Examples.failing_host Demo.packages_config) (Demo.world0 [])
           {[ str "project" := PStr (str "demo");
              str "python" := PStr (str "3.12");
              str "packages"
                := PList (PStr <$> [str "requests"; str "flask>=2"]);
              str "entrypoint" := PStr (str "python main.py") ]}
           [str "requests"; str "flask>=2"]);
    by vm_compute.
Defined.

Lemma main_run_returns_witness :
  main (Examples.failing_host Demo.helper_config) (Some CmdRun)
       (Demo.world0 [])
  = (Returns,
     launched (Examples.failing_host Demo.helper_config) (Demo.world0 [])
              [str "app.py"; str "--name=python_helper"]).
Proof.
  apply (main_run_returns (Examples.failing_host Demo.helper_config)
           (Demo.world0 []) Demo.helper_config helper_entry
           (str "python3"));
    by vm_compute.
Defined.

Lemma main_init_refuses_witness :
  main (Demo.host Demo.plain_config) (Some (CmdInit (str "my app")))
       Examples.bare_world
  = (SystemExit 1, Examples.bare_world)
  /\ main (Demo.host Demo.plain_config) (Some (CmdInit (str "demo")))
          (Demo.world0 (str "kept"))
     = (SystemExit 1, Demo.world0 (str "kept")).
Proof.
  split.
  - apply (main_init_refuses (Demo.host Demo.plain_config)). left.
    by vm_compute.
  - apply (main_init_refuses (Demo.host Demo.plain_config)). right.
    eexists. vm_compute. reflexivity.
Defined.

(** The entrypoint [python], a blank, a NUL is validated and splits, and
    [run] stops at the launcher. *)
Lemma run_nul_argument_witness :
  _load_manifest (Demo.host (Demo.config Examples.nul_entry []))
                 (Demo.world0 [])
  = (Ok (Demo.config Examples.nul_entry []), Demo.world0 [])
  /\ run (Demo.host (Demo.config Examples.nul_entry [])) (Demo.world0 [])
     = (Raise ValueError,
        refused (Demo.host (Demo.config Examples.nul_entry []))
                (Demo.world0 []) [[0]])
  /\ main (Demo.host (Demo.config Examples.nul_entry [])) (Some CmdRun)
          (Demo.world0 [])
     = (SystemExit 1,
        refused (Demo.host (Demo.config Examples.nul_entry []))
                (Demo.world0 []) [[0]]).
Proof.
  split; [by vm_compute|].
  apply (run_nul_argument (Demo.host (Demo.config Examples.nul_entry []))
           (Demo.world0 []) (Demo.config Examples.nul_entry [])
           Examples.nul_entry (str "python")); by vm_compute.
Defined.

(** The package [a>=] followed by a NUL is validated, and [build] stops
    at the installer. *)
Lemma build_nul_package_witness :
  _load_manifest
    (Demo.host (Demo.config (str "python main.py") [Examples.nul_package]))
    (Demo.world0 [])
  = (Ok (Demo.config (str "python main.py") [Examples.nul_package]),
     Demo.world0 [])
  /\ build
       (Demo.host (Demo.config (str "python main.py") [Examples.nul_package]))
       (Demo.world0 [])
     = (Raise ValueError,
        attempted
          (Demo.host
             (Demo.config (str "python main.py") [Examples.nul_package]))
          (Demo.world0 []) [PStr Examples.nul_package]).
Proof.
  split; [by vm_compute|].
  apply (build_nul_package
           (Demo.host
              (Demo.config (str "python main.py") [Examples.nul_package]))
           (Demo.world0 [])
           {[ str "project" := PStr (str "demo");
              str "python" := PStr (str "3.12");
              str "packages" := PList [PStr Examples.nul_package];
              str "entrypoint" := PStr (str "python main.py") ]}
           [Examples.nul_package]); by vm_compute.
Defined.

Lemma main_unreadable_manifest_witness :
  main (Examples.locked_host Demo.plain_config) (Some CmdRun)
       (Demo.world0 [])
  = (Propagates PermissionError, Demo.world0 []).
Proof.
  apply (main_unreadable_manifest (Examples.locked_host Demo.plain_config)
           CmdRun (Demo.world0 []) (Bytes [])).
  - right. by left.
  - by vm_compute.
  - by vm_compute.
Defined.
